(** * fledge: electric grid index and electric grid model

    A shallow embedding of [fledge/electric_grid_models.py]: the two
    constructors [ElectricGridIndex.__init__] and
    [ElectricGridModel.__init__], the pandas / NumPy / SciPy operations
    they call, and the properties of the index tables, the position
    dictionaries and the sparse matrices they build.

    Conventions of the embedding.
    - A data frame is the list of its rows, in row order; a column is the
      list of one field of the rows.
    - A Python [dict] keyed by names is a [gmap string _].
    - A raised exception is the [Raise] case of [result]; the constructors
      run in the [result] monad.
    - NumPy [float64] and [complex128] values are exact rationals ([Qc])
      and pairs of them ([Cx]): rounding is not modelled. *)

From Stdlib Require Import QArith Qcanon Lqa Ring Field Sorted.
From stdpp Require Import base gmap strings list fin_maps numbers.

Local Open Scope Z_scope.

(** ** Exceptions and the result monad *)

Inductive pykey :=
  | KStr (s : string)
  | KInt (z : Z).

(** The exceptions the two constructors can raise, each with the data the
    Python exception object carries. *)
Inductive exn :=
  | IndexError (index size : Z)   (* "index i is out of bounds for axis 0 with size n" *)
  | KeyError (key : pykey)
  | ValueError
  | TypeError
  | LinAlgError.                  (* "Singular matrix" *)

Inductive result (A : Type) :=
  | Ok (a : A)
  | Raise (e : exn).
Arguments Ok {A} a.
Arguments Raise {A} e.

Global Instance pykey_eq_dec : EqDecision pykey.
Proof. solve_decision. Defined.

Global Instance exn_eq_dec : EqDecision exn.
Proof. solve_decision. Defined.

Global Instance result_eq_dec `{EqDecision A} : EqDecision (result A).
Proof. solve_decision. Defined.

Global Instance result_ret : MRet result := λ A x, Ok x.
Global Instance result_bind : MBind result := λ A B f m,
  match m with
  | Ok x => f x
  | Raise e => Raise e
  end.

(** The name an exception carries, if any: only a [KeyError] on a string
    key names something of the input. *)
Definition exn_name (e : exn) : option string :=
  match e with
  | KeyError (KStr s) => Some s
  | _ => None
  end.

(** ** Scalars *)

(** [complex128], with exact components. *)
Record Cx := mkCx { re : Qc; im : Qc }.

Definition Q2Cx (q : Q) : Cx := mkCx (Q2Qc q) (Q2Qc 0).
Definition Czero : Cx := mkCx (Q2Qc 0) (Q2Qc 0).
Definition Cone : Cx := mkCx (Q2Qc 1) (Q2Qc 0).
Definition Cadd (a b : Cx) : Cx := mkCx (re a + re b)%Qc (im a + im b)%Qc.
Definition Copp (a : Cx) : Cx := mkCx (- re a)%Qc (- im a)%Qc.
Definition Cmul (a b : Cx) : Cx :=
  mkCx (re a * re b - im a * im b)%Qc (re a * im b + im a * re b)%Qc.
Definition Cscale (k : Qc) (a : Cx) : Cx := mkCx (re a * k)%Qc (im a * k)%Qc.
Definition Cnorm2 (a : Cx) : Qc := (re a * re a + im a * im a)%Qc.
Definition Cinv (a : Cx) : Cx :=
  mkCx (re a / Cnorm2 a)%Qc (- im a / Cnorm2 a)%Qc.

Global Instance Cx_eq_dec : EqDecision Cx.
Proof. solve_decision. Defined.

Definition Ceqb (a b : Cx) : bool :=
  Qeq_bool (this (re a)) (this (re b)) && Qeq_bool (this (im a)) (this (im b)).

(** The element type of a NumPy array or SciPy matrix: its zero, its
    addition and the truth test [if x:] that SciPy applies to a stored
    value. *)
Class Dtype (A : Type) := {
  dzero : A;
  dadd : A → A → A;
  dtype_eq_dec :: EqDecision A
}.

Global Instance complex_dtype : Dtype Cx := {| dzero := Czero; dadd := Cadd |}.
Global Instance int_dtype : Dtype Z := {| dzero := 0; dadd := Z.add |}.
Global Instance float_dtype : Dtype Qc := {| dzero := Q2Qc 0; dadd := Qcplus |}.

(** ** Dense arrays (NumPy) *)

(** A two-dimensional array is the list of its rows ([ndarray.tolist]). *)
Definition matrix (A : Type) := list (list A).

(** [a[i]] for a one-dimensional array and a non-negative index. *)
Definition np_take_entry {A} (a : list A) (i : nat) : result A :=
  match a !! i with
  | Some v => Ok v
  | None => Raise (IndexError (Z.of_nat i) (Z.of_nat (length a)))
  end.

Fixpoint np_take_row {A} (a : list A) (ix : list nat) : result (list A) :=
  match ix with
  | [] => Ok []
  | i :: ix' => v ← np_take_entry a i; vs ← np_take_row a ix'; Ok (v :: vs)
  end.

(** [a[ix]] for a one-dimensional array [a] and a two-dimensional integer
    array [ix]: the array of the shape of [ix] holding [a[ix[i, j]]]; the
    first index out of bounds, in row-major order, raises. *)
Fixpoint np_take {A} (a : list A) (ix : matrix nat) : result (matrix A) :=
  match ix with
  | [] => Ok []
  | r :: ix' => v ← np_take_row a r; vs ← np_take a ix'; Ok (v :: vs)
  end.

(** [x[:n]] on a sequence: Python's slice with a stop only. *)
Definition slice_stop (len : nat) (n : Z) : nat :=
  if n <? 0 then Z.to_nat (Z.max 0 (Z.of_nat len + n))
  else Z.to_nat (Z.min n (Z.of_nat len)).

Definition slice_to {A} (n : Z) (l : list A) : list A :=
  firstn (slice_stop (length l) n) l.

Definition mat_map {A B} (f : A → B) (m : matrix A) : matrix B :=
  map (map f) m.

Definition mat_zip {A B C} (f : A → B → C) (m1 : matrix A) (m2 : matrix B)
  : matrix C :=
  zip_with (zip_with f) m1 m2.

(** [np.identity(n, dtype=np.int)]. *)
Definition identity (n : nat) : matrix Z :=
  map (λ i, map (λ j, if Nat.eqb i j then 1 else 0) (seq 0 n)) (seq 0 n).

(** *** Determinant and inverse *)

Fixpoint remove_nth {A} (j : nat) (l : list A) : list A :=
  match l, j with
  | [], _ => []
  | _ :: l', O => l'
  | x :: l', S j' => x :: remove_nth j' l'
  end.

Definition Csum (l : list Cx) : Cx := foldr Cadd Czero l.

Definition sign (k : nat) (c : Cx) : Cx := if Nat.even k then c else Copp c.

(** Laplace expansion along the first row; [n] is the size. *)
Fixpoint det_n (n : nat) (m : matrix Cx) : Cx :=
  match n, m with
  | S n', r :: rest =>
      Csum (imap (λ j a, sign j (Cmul a (det_n n' (map (remove_nth j) rest)))) r)
  | _, _ => Cone
  end.

Definition det (m : matrix Cx) : Cx := det_n (length m) m.

Definition minor (i j : nat) (m : matrix Cx) : matrix Cx :=
  map (remove_nth j) (remove_nth i m).

(** [np.linalg.inv] on the square arrays that the line loop passes: the
    inverse as the transposed cofactor matrix over the determinant,
    [LinAlgError] for a singular matrix. The inverse of the 0×0 array is
    the 0×0 array. *)
Definition inv (m : matrix Cx) : result (matrix Cx) :=
  let n := length m in
  let d := det m in
  if decide (d = Czero) then Raise LinAlgError
  else Ok (map (λ i, map (λ j, Cmul (sign (i + j) (det (minor j i m))) (Cinv d))
                        (seq 0 n)) (seq 0 n)).

(** ** Sparse matrices (SciPy [dok_matrix]) *)

(** A dictionary of keys: the shape and the stored entries. What is not
    stored reads as zero. *)
Record dok_matrix (A : Type) := mkDok {
  n_rows : nat;
  n_cols : nat;
  stored : gmap (nat * nat) A
}.
Arguments mkDok {A}.
Arguments n_rows {A}.
Arguments n_cols {A}.
Arguments stored {A}.

(** [scipy.sparse.dok_matrix((m, n), dtype=...)]. *)
Definition dok_new (A : Type) (m n : Z) : result (dok_matrix A) :=
  if (m <? 0) || (n <? 0) then Raise ValueError
  else Ok (mkDok (Z.to_nat m) (Z.to_nat n) ∅).

(** [matrix[row, col]]. *)
Definition dok_get `{Dtype A} (m : dok_matrix A) (row col : nat) : A :=
  default dzero (stored m !! (row, col)).

(** [matrix[row, col] = x]: a zero is not stored, and removes what was. *)
Definition dok_set `{Dtype A} (m : dok_matrix A) (row col : nat) (x : A)
  : dok_matrix A :=
  mkDok (n_rows m) (n_cols m)
        (if decide (x = dzero) then delete (row, col) (stored m)
         else <[(row, col) := x]> (stored m)).

(** [matrix[row, col] += value], with SciPy's bounds check. *)
Definition dok_add `{Dtype A} (m : dok_matrix A) (row col : nat) (value : A)
  : result (dok_matrix A) :=
  if decide (row < n_rows m)%nat then
    if decide (col < n_cols m)%nat then
      Ok (dok_set m row col (dadd (dok_get m row col) value))
    else Raise (IndexError (Z.of_nat col) (Z.of_nat (n_cols m)))
  else Raise (IndexError (Z.of_nat row) (Z.of_nat (n_rows m))).

(** The inner loop of [insert_sub_matrix]:
    [for col, value in zip(col_indexes, sub_matrix_row)]. *)
Fixpoint insert_sub_row `{Dtype A} (m : dok_matrix A) (row : nat)
    (col_indexes : list nat) (sub_matrix_row : list A) : result (dok_matrix A) :=
  match col_indexes, sub_matrix_row with
  | col :: cols, value :: values =>
      m' ← dok_add m row col value; insert_sub_row m' row cols values
  | _, _ => Ok m
  end.

(** [insert_sub_matrix]:
    [for row, sub_matrix_row in zip(row_indexes, sub_matrix.tolist())]. *)
Fixpoint insert_sub_matrix `{Dtype A} (m : dok_matrix A) (sub_matrix : matrix A)
    (row_indexes col_indexes : list nat) : result (dok_matrix A) :=
  match row_indexes, sub_matrix with
  | row :: rows, sub_matrix_row :: sub_rows =>
      m' ← insert_sub_row m row col_indexes sub_matrix_row;
      insert_sub_matrix m' sub_rows rows col_indexes
  | _, _ => Ok m
  end.

(** ** Grid data

    The tables of [fledge.database_interface.ElectricGridData], with the
    columns the two constructors read. The connection flags are integer
    columns: the code sums them and compares them with [1]. *)

Record node_record := {
  node_name : string;
  node_phase_1 : Z;      (* is_phase_1_connected *)
  node_phase_2 : Z;
  node_phase_3 : Z
}.

Record line_record := {
  line_name : string;
  line_type : string;
  node_1_name : string;
  node_2_name : string;
  line_phase_1 : Z;
  line_phase_2 : Z;
  line_phase_3 : Z;
  n_phases : Z;
  length_ : Qc           (* length *)
}.

Record line_type_matrix_record := {
  ltm_line_type : string;
  r : Qc;
  x : Qc;
  c : Qc
}.

Record transformer_record := {
  transformer_name : string;
  winding : Z;
  transformer_phase_1 : Z;
  transformer_phase_2 : Z;
  transformer_phase_3 : Z
}.

(** The loads table is indexed by [load_name]: the code reads it with
    [.at[load_name, ...]]. *)
Record load_record := {
  load_name : string;
  load_node_name : string;
  load_phase_1 : Z;
  load_phase_2 : Z;
  load_phase_3 : Z
}.

Record ElectricGridData := {
  electric_grids : list string;   (* column source_node_name *)
  electric_grid_nodes : list node_record;
  electric_grid_lines : list line_record;
  electric_grid_line_types_matrices : list line_type_matrix_record;
  electric_grid_transformers : list transformer_record;
  electric_grid_loads : list load_record
}.

(** ** Pandas and NumPy helpers of the index *)

Definition is_one (z : Z) : bool := z =? 1.

(** [frame.loc[:, [c1, c2, c3]].sum().sum()]: the sum of the column sums. *)
Definition sum_Z (l : list Z) : Z := foldr Z.add 0 l.

Definition flags_sum {A} (f1 f2 f3 : A → Z) (rows : list A) : Z :=
  sum_Z [sum_Z (map f1 rows); sum_Z (map f2 rows); sum_Z (map f3 rows)].

(** [frame.loc[frame[flag] == 1, name]], as a list. *)
Definition select {A} (flag : A → Z) (name : A → string) (rows : list A)
  : list string :=
  map name (filter (λ row, is_one (flag row) = true) rows).

(** [sum(frame[flag] == 1)]. *)
Definition count_ones {A} (flag : A → Z) (rows : list A) : nat :=
  length (filter (λ row, is_one (flag row) = true) rows).

(** [np.repeat(v, n)]: a negative count is refused. *)
Definition np_repeat {A} (v : A) (n : Z) : result (list A) :=
  if n <? 0 then Raise ValueError else Ok (replicate (Z.to_nat n) v).

(** [np.nonzero(mask)[0].tolist()] for the mask [p] over the rows: the
    zero-based positions of the rows satisfying [p], starting at [i]. *)
Fixpoint nonzero_from {A} (p : A → bool) (i : nat) (rows : list A) : list nat :=
  match rows with
  | [] => []
  | row :: rows' =>
      if p row then i :: nonzero_from p (S i) rows'
      else nonzero_from p (S i) rows'
  end.

Definition nonzero {A} (p : A → bool) (rows : list A) : list nat :=
  nonzero_from p 0 rows.

(** The number of rows of a frame created with [index=range(n)] once its
    first column is set to a series of [k] values with a fresh 0..k-1
    index: pandas aligns the series on the frame's index, except that a
    frame with an empty index takes the index of the series. *)
Definition frame_rows (n : Z) (k : nat) : nat :=
  if n <=? 0 then k else Z.to_nat n.

(** Setting a column to an array of [k] values in a frame of [rows] rows:
    the lengths must agree. *)
Definition check_length (rows k : nat) : result unit :=
  if decide (rows = k) then Ok () else Raise ValueError.

(** A value of a position dictionary: [None] as left by [dict.fromkeys],
    or a list of positions. *)
Inductive pyval :=
  | PyNone
  | PyList (positions : list nat).

Global Instance pyval_eq_dec : EqDecision pyval.
Proof. solve_decision. Defined.

(** [dict.fromkeys(names)]. *)
Definition fromkeys (names : list string) : gmap string pyval :=
  foldl (λ d name, <[name := PyNone]> d) ∅ names.

(** [for name in names: d[name] = f(name)]. *)
Definition fill (f : string → list nat) (names : list string)
    (d : gmap string pyval) : gmap string pyval :=
  foldl (λ d name, <[name := PyList (f name)]> d) d names.

(** [d[key]] read as a position list; the line loop iterates over it, and
    [None] cannot be iterated over. *)
Definition dict_get (d : gmap string pyval) (key : string) : result (list nat) :=
  match d !! key with
  | Some (PyList l) => Ok l
  | Some PyNone => Raise TypeError
  | None => Raise (KeyError (KStr key))
  end.

(** ** ElectricGridIndex *)

(** A row of the local frame [nodes]. *)
Record node_row := {
  nr_node_name : string;
  nr_phase : string;
  nr_node_type : string
}.

(** A row of the local frame [branches]. *)
Record branch_row := {
  br_branch_name : string;
  br_phase : string;
  br_branch_type : string
}.

Record ElectricGridIndex := {
  node_dimension : Z;
  branch_dimension : Z;
  load_dimension : Z;
  phases : list string;
  node_names : list string;
  node_types : list string;
  nodes_phases : list (string * string);
  line_names : list string;
  transformer_names : list string;
  branch_names : list string;
  branch_types : list string;
  branches_phases : list (string * string * string);
  load_names : list string;
  node_by_node_name : gmap string pyval;
  node_by_phase : gmap string pyval;
  node_by_node_type : gmap string pyval;
  node_by_load_name : gmap string pyval;
  branch_by_line_name : gmap string pyval;
  branch_by_transformer_name : gmap string pyval;
  branch_by_phase : gmap string pyval;
  load_by_load_name : gmap string nat
}.

Section Index.

Variable electric_grid_data : ElectricGridData.

(** Transformers for one / first winding. *)
Definition electric_grid_transformers_one_winding : list transformer_record :=
  filter (λ t, winding t = 1) (electric_grid_transformers electric_grid_data).

Definition node_dimension_of : Z :=
  flags_sum node_phase_1 node_phase_2 node_phase_3
            (electric_grid_nodes electric_grid_data).

Definition line_dimension : Z :=
  flags_sum line_phase_1 line_phase_2 line_phase_3
            (electric_grid_lines electric_grid_data).

Definition transformer_dimension : Z :=
  flags_sum transformer_phase_1 transformer_phase_2 transformer_phase_3
            electric_grid_transformers_one_winding.

Definition branch_dimension_of : Z := line_dimension + transformer_dimension.

Definition load_dimension_of : Z :=
  Z.of_nat (length (electric_grid_loads electric_grid_data)).

(** The column [node_name] of [nodes]. *)
Definition nodes_node_name : list string :=
  let nodes := electric_grid_nodes electric_grid_data in
  select node_phase_1 node_name nodes
  ++ select node_phase_2 node_name nodes
  ++ select node_phase_3 node_name nodes.

(** The column [phase] of [nodes]. *)
Definition nodes_phase : list string :=
  let nodes := electric_grid_nodes electric_grid_data in
  replicate (count_ones node_phase_1 nodes) "1"%string
  ++ replicate (count_ones node_phase_2 nodes) "2"%string
  ++ replicate (count_ones node_phase_3 nodes) "3"%string.

(** The frame [nodes]: the three columns are set in turn, then the rows of
    the source node are marked. *)
Definition nodes_frame : result (list node_row) :=
  let rows := frame_rows node_dimension_of (length nodes_node_name) in
  _ ← check_length rows (length nodes_phase);
  source ← match electric_grids electric_grid_data with
           | source :: _ => Ok source
           | [] => Raise (KeyError (KInt 0))
           end;
  Ok (zip_with
        (λ name phase,
           {| nr_node_name := name;
              nr_phase := phase;
              nr_node_type := if String.eqb name source
                              then "source"%string else "no_source"%string |})
        nodes_node_name nodes_phase).

(** The column [branch_name] of [branches]. *)
Definition branches_branch_name : list string :=
  let lines := electric_grid_lines electric_grid_data in
  let transformers := electric_grid_transformers_one_winding in
  select line_phase_1 line_name lines
  ++ select line_phase_2 line_name lines
  ++ select line_phase_3 line_name lines
  ++ select transformer_phase_1 transformer_name transformers
  ++ select transformer_phase_2 transformer_name transformers
  ++ select transformer_phase_3 transformer_name transformers.

(** The column [phase] of [branches]. *)
Definition branches_phase : list string :=
  let lines := electric_grid_lines electric_grid_data in
  let transformers := electric_grid_transformers_one_winding in
  replicate (count_ones line_phase_1 lines) "1"%string
  ++ replicate (count_ones line_phase_2 lines) "2"%string
  ++ replicate (count_ones line_phase_3 lines) "3"%string
  ++ replicate (count_ones transformer_phase_1 transformers) "1"%string
  ++ replicate (count_ones transformer_phase_2 transformers) "2"%string
  ++ replicate (count_ones transformer_phase_3 transformers) "3"%string.

(** The column [branch_type] of [branches]. *)
Definition branches_branch_type : result (list string) :=
  lines ← np_repeat "line"%string line_dimension;
  transformers ← np_repeat "transformer"%string transformer_dimension;
  Ok (lines ++ transformers).

Definition zip3 {A B C D} (f : A → B → C → D)
    (l1 : list A) (l2 : list B) (l3 : list C) : list D :=
  zip_with (λ ab c, f ab.1 ab.2 c) (zip l1 l2) l3.

(** The frame [branches]. *)
Definition branches_frame : result (list branch_row) :=
  let rows := frame_rows branch_dimension_of (length branches_branch_name) in
  _ ← check_length rows (length branches_phase);
  branch_type ← branches_branch_type;
  _ ← check_length rows (length branch_type);
  Ok (zip3 (λ name phase type,
              {| br_branch_name := name;
                 br_phase := phase;
                 br_branch_type := type |})
           branches_branch_name branches_phase branch_type).

(** [electric_grid_loads.at[load_name, ...]]: the row labelled
    [load_name]. *)
Definition load_at (name : string) : option load_record :=
  List.find (λ load, String.eqb (load_name load) name)
            (electric_grid_loads electric_grid_data).

(** [np.where([f1 == 1, f2 == 1, f3 == 1], ['1', '2', '3'], [None] * 3)],
    without the [None]s, which no phase label equals. *)
Definition load_phases (load : load_record) : list string :=
  (if is_one (load_phase_1 load) then ["1"%string] else [])
  ++ (if is_one (load_phase_2 load) then ["2"%string] else [])
  ++ (if is_one (load_phase_3 load) then ["3"%string] else []).

Definition isin (s : string) (l : list string) : bool :=
  existsb (String.eqb s) l.

Definition node_positions_of_load (nodes : list node_row) (name : string)
  : list nat :=
  match load_at name with
  | Some load =>
      nonzero (λ row, String.eqb (nr_node_name row) (load_node_name load)
                      && isin (nr_phase row) (load_phases load)) nodes
  | None => []
  end.

(** [ElectricGridIndex.__init__]. *)
Definition ElectricGridIndex_init : result ElectricGridIndex :=
  nodes ← nodes_frame;
  branches ← branches_frame;
  let phases := ["1"; "2"; "3"]%string in
  let node_names := map node_name (electric_grid_nodes electric_grid_data) in
  let node_types := ["source"; "no_source"]%string in
  let line_names := map line_name (electric_grid_lines electric_grid_data) in
  let transformer_names :=
    map transformer_name electric_grid_transformers_one_winding in
  let load_names := map load_name (electric_grid_loads electric_grid_data) in
  (* Index by line name. *)
  let branch_by_line_name :=
    fill (λ name, nonzero (λ row, String.eqb (br_branch_name row) name
                                  && String.eqb (br_branch_type row) "line")
                          branches)
         line_names (fromkeys line_names) in
  (* Index by transformer name: the loop assigns into
     [branch_by_line_name]. *)
  let branch_by_transformer_name := fromkeys transformer_names in
  let branch_by_line_name :=
    fill (λ name, nonzero (λ row, String.eqb (br_branch_name row) name
                                  && String.eqb (br_branch_type row) "transformer")
                          branches)
         transformer_names branch_by_line_name in
  Ok {|
    node_dimension := node_dimension_of;
    branch_dimension := branch_dimension_of;
    load_dimension := load_dimension_of;
    phases := phases;
    node_names := node_names;
    node_types := node_types;
    nodes_phases := map (λ row, (nr_node_name row, nr_phase row)) nodes;
    line_names := line_names;
    transformer_names := transformer_names;
    branch_names := map br_branch_name branches;
    branch_types := ["line"; "transformer"]%string;
    branches_phases :=
      map (λ row, (br_branch_name row, br_phase row, br_branch_type row))
          branches;
    load_names := load_names;
    node_by_node_name :=
      fill (λ name, nonzero (λ row, String.eqb (nr_node_name row) name) nodes)
           node_names (fromkeys node_names);
    node_by_phase :=
      fill (λ phase, nonzero (λ row, String.eqb (nr_phase row) phase) nodes)
           phases (fromkeys phases);
    node_by_node_type :=
      fill (λ type, nonzero (λ row, String.eqb (nr_node_type row) type) nodes)
           node_types (fromkeys node_types);
    node_by_load_name :=
      fill (node_positions_of_load nodes) load_names (fromkeys load_names);
    branch_by_line_name := branch_by_line_name;
    branch_by_transformer_name := branch_by_transformer_name;
    branch_by_phase :=
      fill (λ phase, nonzero (λ row, String.eqb (br_phase row) phase) branches)
           phases (fromkeys phases);
    load_by_load_name :=
      foldl (λ d name_position, <[name_position.1 := name_position.2]> d)
            ∅ (zip load_names (seq 0 (length load_names)))
  |}.

End Index.

(** ** ElectricGridModel *)

Record ElectricGridModel := {
  index : ElectricGridIndex;
  node_admittance_matrix : dok_matrix Cx;
  node_transformation_matrix : dok_matrix Z;
  branch_admittance_1_matrix : dok_matrix Cx;
  branch_admittance_2_matrix : dok_matrix Cx;
  branch_incidence_1_matrix : dok_matrix Z;
  branch_incidence_2_matrix : dok_matrix Z;
  load_incidence_wye_matrix : dok_matrix Qc;
  load_incidence_delta_matrix : dok_matrix Qc
}.

(** In-place updates of the matrices owned by [self]. *)
Definition set_node_admittance_matrix (self : ElectricGridModel) m :=
  {| index := index self;
     node_admittance_matrix := m;
     node_transformation_matrix := node_transformation_matrix self;
     branch_admittance_1_matrix := branch_admittance_1_matrix self;
     branch_admittance_2_matrix := branch_admittance_2_matrix self;
     branch_incidence_1_matrix := branch_incidence_1_matrix self;
     branch_incidence_2_matrix := branch_incidence_2_matrix self;
     load_incidence_wye_matrix := load_incidence_wye_matrix self;
     load_incidence_delta_matrix := load_incidence_delta_matrix self |}.

Definition set_branch_admittance_1_matrix (self : ElectricGridModel) m :=
  {| index := index self;
     node_admittance_matrix := node_admittance_matrix self;
     node_transformation_matrix := node_transformation_matrix self;
     branch_admittance_1_matrix := m;
     branch_admittance_2_matrix := branch_admittance_2_matrix self;
     branch_incidence_1_matrix := branch_incidence_1_matrix self;
     branch_incidence_2_matrix := branch_incidence_2_matrix self;
     load_incidence_wye_matrix := load_incidence_wye_matrix self;
     load_incidence_delta_matrix := load_incidence_delta_matrix self |}.

Definition set_branch_admittance_2_matrix (self : ElectricGridModel) m :=
  {| index := index self;
     node_admittance_matrix := node_admittance_matrix self;
     node_transformation_matrix := node_transformation_matrix self;
     branch_admittance_1_matrix := branch_admittance_1_matrix self;
     branch_admittance_2_matrix := m;
     branch_incidence_1_matrix := branch_incidence_1_matrix self;
     branch_incidence_2_matrix := branch_incidence_2_matrix self;
     load_incidence_wye_matrix := load_incidence_wye_matrix self;
     load_incidence_delta_matrix := load_incidence_delta_matrix self |}.

Definition set_branch_incidence_1_matrix (self : ElectricGridModel) m :=
  {| index := index self;
     node_admittance_matrix := node_admittance_matrix self;
     node_transformation_matrix := node_transformation_matrix self;
     branch_admittance_1_matrix := branch_admittance_1_matrix self;
     branch_admittance_2_matrix := branch_admittance_2_matrix self;
     branch_incidence_1_matrix := m;
     branch_incidence_2_matrix := branch_incidence_2_matrix self;
     load_incidence_wye_matrix := load_incidence_wye_matrix self;
     load_incidence_delta_matrix := load_incidence_delta_matrix self |}.

Definition set_branch_incidence_2_matrix (self : ElectricGridModel) m :=
  {| index := index self;
     node_admittance_matrix := node_admittance_matrix self;
     node_transformation_matrix := node_transformation_matrix self;
     branch_admittance_1_matrix := branch_admittance_1_matrix self;
     branch_admittance_2_matrix := branch_admittance_2_matrix self;
     branch_incidence_1_matrix := branch_incidence_1_matrix self;
     branch_incidence_2_matrix := m;
     load_incidence_wye_matrix := load_incidence_wye_matrix self;
     load_incidence_delta_matrix := load_incidence_delta_matrix self |}.

(** [np.array([[1, 2, 4], [2, 3, 5], [4, 5, 6]]) - 1]. *)
Definition rxc_matrix_full_index : matrix nat :=
  mat_map (λ i, (i - 1)%nat) [[1; 2; 4]; [2; 3; 5]; [4; 5; 6]]%nat.

(** [np.pi]: the value of the [float64] constant. *)
Definition np_pi : Qc := Q2Qc (884279719003555 # 281474976710656).

Definition base_frequency : Qc := Q2Qc 60.

(** The four element matrices of a line. *)
Record line_admittance := {
  admittance_matrix_11 : matrix Cx;
  admittance_matrix_12 : matrix Cx;
  admittance_matrix_21 : matrix Cx;
  admittance_matrix_22 : matrix Cx
}.

Global Instance line_admittance_eq_dec : EqDecision line_admittance.
Proof. solve_decision. Defined.

(** The first part of the loop body of [ElectricGridModel.__init__]: from
    the line's type entries to its element admittance matrices. *)
Definition line_admittance_matrices
    (line_types_matrices : list line_type_matrix_record) (line : line_record)
  : result line_admittance :=
  (* Obtain line resistance and reactance matrix entries for the line. *)
  let rxc_matrix_entries :=
    filter (λ row, String.eqb (ltm_line_type row) (line_type line) = true)
           line_types_matrices in
  let r_matrix_entries := map r rxc_matrix_entries in
  let x_matrix_entries := map x rxc_matrix_entries in
  let c_matrix_entries := map c rxc_matrix_entries in
  (* rxc_matrix_full_index[:line['n_phases'], :line['n_phases']] *)
  let rxc_matrix_full_index :=
    map (slice_to (n_phases line)) (slice_to (n_phases line) rxc_matrix_full_index) in
  r_matrix ← np_take r_matrix_entries rxc_matrix_full_index;
  x_matrix ← np_take x_matrix_entries rxc_matrix_full_index;
  c_matrix ← np_take c_matrix_entries rxc_matrix_full_index;
  (* Construct line series admittance matrix. *)
  series_admittance_matrix ←
    inv (mat_map (Cscale (length_ line)) (mat_zip mkCx r_matrix x_matrix));
  (* Construct line shunt admittance. *)
  let shunt_admittance_matrix :=
    mat_map (λ c, mkCx (Q2Qc 0)
                       (c * Q2Qc 2 * np_pi * base_frequency * Q2Qc (1 # 1000000000)
                        * Q2Qc (1 # 2) * length_ line)%Qc)
            c_matrix in
  Ok {| admittance_matrix_11 :=
          mat_zip Cadd series_admittance_matrix shunt_admittance_matrix;
        admittance_matrix_12 := mat_map Copp series_admittance_matrix;
        admittance_matrix_21 := mat_map Copp series_admittance_matrix;
        admittance_matrix_22 :=
          mat_zip Cadd series_admittance_matrix shunt_admittance_matrix |}.

(** The loop body of [ElectricGridModel.__init__] for one line. *)
Definition add_line (electric_grid_data : ElectricGridData)
    (self : ElectricGridModel) (line : line_record) : result ElectricGridModel :=
  y ← line_admittance_matrices
        (electric_grid_line_types_matrices electric_grid_data) line;
  (* Obtain indexes for positioning the line element matrices. *)
  node_index_1 ← dict_get (node_by_node_name (index self)) (node_1_name line);
  node_index_2 ← dict_get (node_by_node_name (index self)) (node_2_name line);
  branch_index ← dict_get (branch_by_line_name (index self)) (line_name line);
  (* Add line element matrices to the nodal admittance matrix. *)
  m ← insert_sub_matrix (node_admittance_matrix self)
        (admittance_matrix_11 y) node_index_1 node_index_1;
  let self := set_node_admittance_matrix self m in
  m ← insert_sub_matrix (node_admittance_matrix self)
        (admittance_matrix_12 y) node_index_1 node_index_2;
  let self := set_node_admittance_matrix self m in
  m ← insert_sub_matrix (node_admittance_matrix self)
        (admittance_matrix_21 y) node_index_2 node_index_1;
  let self := set_node_admittance_matrix self m in
  m ← insert_sub_matrix (node_admittance_matrix self)
        (admittance_matrix_22 y) node_index_2 node_index_2;
  let self := set_node_admittance_matrix self m in
  (* Add line element matrices to the branch admittance matrices. *)
  m ← insert_sub_matrix (branch_admittance_1_matrix self)
        (admittance_matrix_11 y) branch_index node_index_1;
  let self := set_branch_admittance_1_matrix self m in
  m ← insert_sub_matrix (branch_admittance_1_matrix self)
        (admittance_matrix_12 y) branch_index node_index_2;
  let self := set_branch_admittance_1_matrix self m in
  m ← insert_sub_matrix (branch_admittance_2_matrix self)
        (admittance_matrix_21 y) branch_index node_index_1;
  let self := set_branch_admittance_2_matrix self m in
  m ← insert_sub_matrix (branch_admittance_2_matrix self)
        (admittance_matrix_22 y) branch_index node_index_2;
  let self := set_branch_admittance_2_matrix self m in
  (* Add line element matrices to the branch incidence matrices. *)
  m ← insert_sub_matrix (branch_incidence_1_matrix self)
        (identity (length branch_index)) branch_index node_index_1;
  let self := set_branch_incidence_1_matrix self m in
  m ← insert_sub_matrix (branch_incidence_2_matrix self)
        (identity (length branch_index)) branch_index node_index_2;
  let self := set_branch_incidence_2_matrix self m in
  Ok self.

(** [for item in items: state = body(state, item)], stopping at the first
    exception. *)
Fixpoint for_each {S A} (body : S → A → result S) (state : S) (items : list A)
  : result S :=
  match items with
  | [] => Ok state
  | item :: items' => state' ← body state item; for_each body state' items'
  end.

(** The allocation of the matrices in [ElectricGridModel.__init__]. *)
Definition allocate (index : ElectricGridIndex) : result ElectricGridModel :=
  let nd := node_dimension index in
  let bd := branch_dimension index in
  let ld := load_dimension index in
  node_admittance_matrix ← dok_new Cx nd nd;
  node_transformation_matrix ← dok_new Z nd nd;
  branch_admittance_1_matrix ← dok_new Cx bd nd;
  branch_admittance_2_matrix ← dok_new Cx bd nd;
  branch_incidence_1_matrix ← dok_new Z bd nd;
  branch_incidence_2_matrix ← dok_new Z bd nd;
  load_incidence_wye_matrix ← dok_new Qc nd ld;
  load_incidence_delta_matrix ← dok_new Qc nd ld;
  Ok {| index := index;
        node_admittance_matrix := node_admittance_matrix;
        node_transformation_matrix := node_transformation_matrix;
        branch_admittance_1_matrix := branch_admittance_1_matrix;
        branch_admittance_2_matrix := branch_admittance_2_matrix;
        branch_incidence_1_matrix := branch_incidence_1_matrix;
        branch_incidence_2_matrix := branch_incidence_2_matrix;
        load_incidence_wye_matrix := load_incidence_wye_matrix;
        load_incidence_delta_matrix := load_incidence_delta_matrix |}.

(** [ElectricGridModel.__init__]. *)
Definition ElectricGridModel_init (electric_grid_data : ElectricGridData)
  : result ElectricGridModel :=
  index ← ElectricGridIndex_init electric_grid_data;
  self ← allocate index;
  for_each (add_line electric_grid_data) self
           (electric_grid_lines electric_grid_data).

(** ** Well-formed input *)

(** A connection flag is boolean: 0 or 1. *)
Definition boolean (flag : Z) : Prop := flag = 0 ∨ flag = 1.

Definition boolean_rows {A} (f1 f2 f3 : A → Z) (rows : list A) : Prop :=
  Forall (λ row, boolean (f1 row) ∧ boolean (f2 row) ∧ boolean (f3 row)) rows.

Definition boolean_nodes (d : ElectricGridData) : Prop :=
  boolean_rows node_phase_1 node_phase_2 node_phase_3 (electric_grid_nodes d).

Definition boolean_branches (d : ElectricGridData) : Prop :=
  boolean_rows line_phase_1 line_phase_2 line_phase_3 (electric_grid_lines d)
  ∧ boolean_rows transformer_phase_1 transformer_phase_2 transformer_phase_3
                 (electric_grid_transformers d).

(** The number of connected phases of a node. *)
Definition node_phase_count (node : node_record) : Z :=
  node_phase_1 node + node_phase_2 node + node_phase_3 node.

(** A row all of whose entries read zero. *)
Definition zero_row `{Dtype A} (m : dok_matrix A) (row : nat) : Prop :=
  ∀ col, dok_get m row col = dzero.

Definition is_Ok {A} (res : result A) : bool :=
  match res with
  | Ok _ => true
  | Raise _ => false
  end.

(** Normal input: every connected phase of every node is a connected
    phase of a line that ends at the node. Lines are power-delivery
    elements, so that every node-phase is then attached to one. *)
Definition node_phase_on_a_line (lines : list line_record) (name : string)
    (node_flag : Z) (line_flag : line_record → Z) : bool :=
  negb (is_one node_flag)
  || existsb (λ line, (String.eqb (node_1_name line) name
                       || String.eqb (node_2_name line) name)
                      && is_one (line_flag line))
             lines.

Definition every_node_phase_on_a_line (d : ElectricGridData) : bool :=
  let lines := electric_grid_lines d in
  forallb (λ node,
             node_phase_on_a_line lines (node_name node) (node_phase_1 node)
                                  line_phase_1
             && node_phase_on_a_line lines (node_name node) (node_phase_2 node)
                                     line_phase_2
             && node_phase_on_a_line lines (node_name node) (node_phase_3 node)
                                     line_phase_3)
          (electric_grid_nodes d).

(** ** Accumulated contributions *)

(** The algebraic laws of exact addition. *)
Class DtypeLaws (A : Type) `{Dtype A} := {
  dadd_0_l : ∀ a : A, dadd dzero a = a;
  dadd_0_r : ∀ a : A, dadd a dzero = a;
  dadd_assoc : ∀ a b c : A, dadd a (dadd b c) = dadd (dadd a b) c;
  dadd_comm : ∀ a b : A, dadd a b = dadd b a
}.

(** What [insert_sub_row] adds to the entry [(i, j)]: the sum of the
    values it pairs with that position. *)
Fixpoint row_contribution `{Dtype A} (row : nat) (col_indexes : list nat)
    (sub_matrix_row : list A) (i j : nat) : A :=
  match col_indexes, sub_matrix_row with
  | col :: cols, value :: values =>
      dadd (if decide ((row, col) = (i, j)) then value else dzero)
           (row_contribution row cols values i j)
  | _, _ => dzero
  end.

(** What [insert_sub_matrix] adds to the entry [(i, j)]. *)
Fixpoint sub_matrix_contribution `{Dtype A} (sub_matrix : matrix A)
    (row_indexes col_indexes : list nat) (i j : nat) : A :=
  match row_indexes, sub_matrix with
  | row :: rows, sub_matrix_row :: sub_rows =>
      dadd (row_contribution row col_indexes sub_matrix_row i j)
           (sub_matrix_contribution sub_rows rows col_indexes i j)
  | _, _ => dzero
  end.

(** What one line adds to the entry [(i, j)] of the nodal admittance
    matrix: its four element matrices at the four combinations of its end
    nodes' positions. *)
Definition line_contribution (y : line_admittance)
    (node_index_1 node_index_2 : list nat) (i j : nat) : Cx :=
  Cadd (Cadd (Cadd
    (sub_matrix_contribution (admittance_matrix_11 y) node_index_1 node_index_1 i j)
    (sub_matrix_contribution (admittance_matrix_12 y) node_index_1 node_index_2 i j))
    (sub_matrix_contribution (admittance_matrix_21 y) node_index_2 node_index_1 i j))
    (sub_matrix_contribution (admittance_matrix_22 y) node_index_2 node_index_2 i j).

(** The shapes of the matrices that the line loop writes, as allocated
    from the dimensions of the index. *)
Definition allocated (self : ElectricGridModel) : Prop :=
  let nd := Z.to_nat (node_dimension (index self)) in
  let bd := Z.to_nat (branch_dimension (index self)) in
  (n_rows (node_admittance_matrix self) = nd
   ∧ n_cols (node_admittance_matrix self) = nd)
  ∧ (n_rows (branch_admittance_1_matrix self) = bd
     ∧ n_cols (branch_admittance_1_matrix self) = nd)
  ∧ (n_rows (branch_admittance_2_matrix self) = bd
     ∧ n_cols (branch_admittance_2_matrix self) = nd)
  ∧ (n_rows (branch_incidence_1_matrix self) = bd
     ∧ n_cols (branch_incidence_1_matrix self) = nd)
  ∧ (n_rows (branch_incidence_2_matrix self) = bd
     ∧ n_cols (branch_incidence_2_matrix self) = nd).

(** The position lists of the index stay within the dimensions. *)
Definition index_bounded (idx : ElectricGridIndex) : Prop :=
  (∀ name v, node_by_node_name idx !! name = Some v →
     ∃ positions, v = PyList positions
       ∧ Forall (λ p, (p < Z.to_nat (node_dimension idx))%nat) positions)
  ∧ (∀ name v, branch_by_line_name idx !! name = Some v →
       ∃ positions, v = PyList positions
         ∧ Forall (λ p, (p < Z.to_nat (branch_dimension idx))%nat) positions).

(** What the line [line] adds to the entry [(i, j)] of the nodal
    admittance matrix, given the dictionary [node_by_node_name]. *)
Definition line_entry (line_types_matrices : list line_type_matrix_record)
    (node_by_node_name : gmap string pyval) (line : line_record) (i j : nat) : Cx :=
  match line_admittance_matrices line_types_matrices line,
        dict_get node_by_node_name (node_1_name line),
        dict_get node_by_node_name (node_2_name line) with
  | Ok y, Ok node_index_1, Ok node_index_2 =>
      line_contribution y node_index_1 node_index_2 i j
  | _, _, _ => Czero
  end.

(** The grid data with another lines table. *)
Definition with_lines (d : ElectricGridData) (lines : list line_record)
  : ElectricGridData :=
  {| electric_grids := electric_grids d;
     electric_grid_nodes := electric_grid_nodes d;
     electric_grid_lines := lines;
     electric_grid_line_types_matrices := electric_grid_line_types_matrices d;
     electric_grid_transformers := electric_grid_transformers d;
     electric_grid_loads := electric_grid_loads d |}.

(** The entry [(i, j)] of the nodal admittance matrix of the grid built
    with [line] as its only line. *)
Definition entry_built_alone (d : ElectricGridData) (line : line_record)
    (i j : nat) : Cx :=
  match ElectricGridModel_init (with_lines d [line]) with
  | Ok model => dok_get (node_admittance_matrix model) i j
  | Raise _ => Czero
  end.

(** Subtraction, for the ring structure of [Cx]. *)
Definition Csub (a b : Cx) : Cx := Cadd a (Copp b).

(** A [k] × [k] dense matrix. *)
Definition square {A} (k : nat) (m : matrix A) : Prop :=
  length m = k ∧ Forall (λ row, length row = k) m.

(** The line joins the two named nodes, in either direction. *)
Definition joins (line : line_record) (name_1 name_2 : string) : Prop :=
  (node_1_name line = name_1 ∧ node_2_name line = name_2)
  ∨ (node_1_name line = name_2 ∧ node_2_name line = name_1).

(** ** Definitions for the further properties *)

(** The line with another [n_phases]. *)
Definition with_n_phases (line : line_record) (n : Z) : line_record :=
  {| line_name := line_name line; line_type := line_type line;
     node_1_name := node_1_name line; node_2_name := node_2_name line;
     line_phase_1 := line_phase_1 line; line_phase_2 := line_phase_2 line;
     line_phase_3 := line_phase_3 line;
     n_phases := n; length_ := length_ line |}.

(** The four matrices with a row per branch phase read the same at a
    row. *)
Definition same_branch_row (self self' : ElectricGridModel) (pos : nat) : Prop :=
  ∀ col,
    dok_get (branch_admittance_1_matrix self') pos col
    = dok_get (branch_admittance_1_matrix self) pos col
    ∧ dok_get (branch_admittance_2_matrix self') pos col
      = dok_get (branch_admittance_2_matrix self) pos col
    ∧ dok_get (branch_incidence_1_matrix self') pos col
      = dok_get (branch_incidence_1_matrix self) pos col
    ∧ dok_get (branch_incidence_2_matrix self') pos col
      = dok_get (branch_incidence_2_matrix self) pos col.

(** ** Example grids *)

Definition Qz (z : Z) : Qc := Q2Qc (inject_Z z).

Definition three_phase_node (name : string) : node_record :=
  {| node_name := name; node_phase_1 := 1; node_phase_2 := 1; node_phase_3 := 1 |}.

Definition three_phase_line (name type node_1 node_2 : string) (n : Z) : line_record :=
  {| line_name := name; line_type := type;
     node_1_name := node_1; node_2_name := node_2;
     line_phase_1 := 1; line_phase_2 := 1; line_phase_3 := 1;
     n_phases := n; length_ := Qz 1 |}.

(** A line type table: one row per upper-triangular entry, [c = 0]. *)
Definition line_type_rows (type : string) (rx : list Z) : list line_type_matrix_record :=
  map (λ v, {| ltm_line_type := type; r := Qz v; x := Qz v; c := Qz 0 |}) rx.

(** Two three-phase nodes joined by one three-phase line of length 1,
    with the given entries for [r] and [x]. *)
Definition two_node_grid (node_1 node_2 line type : string) (rx : list Z)
  : ElectricGridData :=
  {| electric_grids := [node_1];
     electric_grid_nodes := [three_phase_node node_1; three_phase_node node_2];
     electric_grid_lines := [three_phase_line line type node_1 node_2 3];
     electric_grid_line_types_matrices := line_type_rows type rx;
     electric_grid_transformers := [];
     electric_grid_loads := [] |}.

(** The entries that [rxc_matrix_full_index] places on the diagonal are
    the first, the third and the sixth. *)
Definition diagonal_entries : list Z := [1; 0; 1; 0; 0; 1].

(** The entries of the scenario of the specification. *)
Definition listed_entries : list Z := [1; 1; 1; 0; 0; 0].

Definition example_grid : ElectricGridData :=
  two_node_grid "n1" "n2" "L1" "T" diagonal_entries.

Definition listed_entries_grid : ElectricGridData :=
  two_node_grid "n1" "n2" "L1" "T" listed_entries.

(** The 3×3 matrix with [v] on the diagonal. *)
Definition diag3 (v : Cx) : matrix Cx :=
  [[v; Czero; Czero]; [Czero; v; Czero]; [Czero; Czero; v]].

(** [m[a][b]] for a dense matrix. *)
Definition entry {A} (m : list (list A)) (a b : nat) : option A :=
  row ← m !! a; row !! b.

(** Two parallel three-phase lines between the same two nodes. *)
Definition parallel_lines_grid : ElectricGridData :=
  with_lines example_grid
    [three_phase_line "L1" "T" "n1" "n2" 3; three_phase_line "L2" "T" "n1" "n2" 3].

(** A three-phase line between three-phase nodes whose [n_phases] is 1. *)
Definition mismatch_line : line_record := three_phase_line "L1" "T" "n1" "n2" 1.

Definition mismatch_grid : ElectricGridData :=
  with_lines example_grid [mismatch_line].

(** A line without connected phases whose type is in no row of the line
    type table. *)
Definition placeholder_line : line_record :=
  {| line_name := "L0"; line_type := "missing";
     node_1_name := "n1"; node_2_name := "n2";
     line_phase_1 := 0; line_phase_2 := 0; line_phase_3 := 0;
     n_phases := 0; length_ := Qz 1 |}.

Definition placeholder_grid : ElectricGridData :=
  with_lines example_grid
    [three_phase_line "L1" "T" "n1" "n2" 3; placeholder_line].

(** A three-phase line whose type is in no row of the line type table. *)
Definition untyped_line : line_record :=
  three_phase_line "L1" "missing" "n1" "n2" 3.

Definition untyped_grid : ElectricGridData :=
  with_lines example_grid [untyped_line].

(** A grid whose only power-delivery element is a two-winding transformer
    on phases 1 and 3. *)
Definition transformer_grid : ElectricGridData :=
  {| electric_grids := ["n1"%string];
     electric_grid_nodes := [three_phase_node "n1"; three_phase_node "n2"];
     electric_grid_lines := [];
     electric_grid_line_types_matrices := [];
     electric_grid_transformers :=
       [ {| transformer_name := "T1"; winding := 1;
            transformer_phase_1 := 1; transformer_phase_2 := 0;
            transformer_phase_3 := 1 |};
         {| transformer_name := "T1"; winding := 2;
            transformer_phase_1 := 1; transformer_phase_2 := 0;
            transformer_phase_3 := 1 |} ];
     electric_grid_loads :=
       [ {| load_name := "load1"; load_node_name := "n2";
            load_phase_1 := 1; load_phase_2 := 1; load_phase_3 := 1 |} ] |}.

(** The grid of the transformer example without a row in
    [electric_grids]. *)
Definition no_source_row_grid : ElectricGridData :=
  {| electric_grids := [];
     electric_grid_nodes := electric_grid_nodes transformer_grid;
     electric_grid_lines := electric_grid_lines transformer_grid;
     electric_grid_line_types_matrices := [];
     electric_grid_transformers := electric_grid_transformers transformer_grid;
     electric_grid_loads := electric_grid_loads transformer_grid |}.

(** A node whose first connection flag is 2. *)
Definition doubled_flag_grid : ElectricGridData :=
  {| electric_grids := ["n1"%string];
     electric_grid_nodes :=
       [ {| node_name := "n1"; node_phase_1 := 2; node_phase_2 := 0;
            node_phase_3 := 0 |} ];
     electric_grid_lines := [];
     electric_grid_line_types_matrices := [];
     electric_grid_transformers := [];
     electric_grid_loads := [] |}.

(** A line to a node that is not in the node table. *)
Definition dangling_line : line_record := three_phase_line "L1" "T" "n1" "n9" 3.

Definition dangling_grid : ElectricGridData :=
  with_lines example_grid [dangling_line].

(** A three-phase line of length zero. *)
Definition zero_length_line : line_record :=
  {| line_name := "L1"; line_type := "T";
     node_1_name := "n1"; node_2_name := "n2";
     line_phase_1 := 1; line_phase_2 := 1; line_phase_3 := 1;
     n_phases := 3; length_ := Qz 0 |}.

Definition zero_length_grid : ElectricGridData :=
  with_lines example_grid [zero_length_line].

(** A three-phase line whose [n_phases] is 4. *)
Definition surplus_phases_line : line_record :=
  three_phase_line "L1" "T" "n1" "n2" 4.

(** A three-phase source node with a two-phase lateral on phases 1 and 2
    to a two-phase node and a single-phase lateral on phase 3 to a
    single-phase node. *)
Definition lateral_grid : ElectricGridData :=
  {| electric_grids := ["n1"%string];
     electric_grid_nodes :=
       [ three_phase_node "n1";
         {| node_name := "n2"; node_phase_1 := 1; node_phase_2 := 1;
            node_phase_3 := 0 |};
         {| node_name := "n3"; node_phase_1 := 0; node_phase_2 := 0;
            node_phase_3 := 1 |} ];
     electric_grid_lines :=
       [ {| line_name := "L1"; line_type := "T";
            node_1_name := "n1"; node_2_name := "n2";
            line_phase_1 := 1; line_phase_2 := 1; line_phase_3 := 0;
            n_phases := 2; length_ := Qz 1 |};
         {| line_name := "L2"; line_type := "T";
            node_1_name := "n1"; node_2_name := "n3";
            line_phase_1 := 0; line_phase_2 := 0; line_phase_3 := 1;
            n_phases := 1; length_ := Qz 1 |} ];
     electric_grid_line_types_matrices := line_type_rows "T" diagonal_entries;
     electric_grid_transformers := [];
     electric_grid_loads := [] |}.

(** ** The result monad *)

Lemma bind_Ok {A B} (m : result A) (f : A → result B) (b : B) :
  (a ← m; f a) = Ok b → ∃ a, m = Ok a ∧ f a = Ok b.
Proof. destruct m as [a|e]; simpl; [eauto | discriminate]. Qed.

Lemma bind_Raise {A B} (m : result A) (f : A → result B) (e : exn) :
  m = Raise e → (a ← m; f a) = Raise e.
Proof. intros ->. reflexivity. Qed.

Lemma is_Ok_true {A} (res : result A) : is_Ok res = true → ∃ a, res = Ok a.
Proof. destruct res; simpl; [eauto | discriminate]. Qed.

(** Splits a hypothesis [(a ← m; f a) = Ok b] into its two steps. *)
Ltac bind_inv H :=
  let a := fresh "a" in
  let Ha := fresh "H" a in
  apply bind_Ok in H; destruct H as (a & Ha & H).

(** ** Counting connected phases *)

Lemma sum_Z_app (l k : list Z) : sum_Z (l ++ k) = sum_Z l + sum_Z k.
Proof. induction l as [|z l IH]; simpl; lia. Qed.

Lemma sum_Z_columns {A} (f1 f2 f3 : A → Z) (rows : list A) :
  flags_sum f1 f2 f3 rows = sum_Z (map (λ row, f1 row + f2 row + f3 row) rows).
Proof.
  unfold flags_sum. induction rows as [|row rows IH]; simpl in *; lia.
Qed.

Lemma select_length {A} (flag : A → Z) (name : A → string) (rows : list A) :
  length (select flag name rows) = count_ones flag rows.
Proof. unfold select, count_ones. apply length_map. Qed.

Lemma boolean_sum_count {A} (flag : A → Z) (rows : list A) :
  Forall (λ row, boolean (flag row)) rows →
  sum_Z (map flag rows) = Z.of_nat (count_ones flag rows).
Proof.
  unfold count_ones. induction 1 as [|row rows Hrow _ IH]; [reflexivity|].
  simpl. rewrite filter_cons.
  destruct (decide (is_one (flag row) = true)) as [E|E]; unfold is_one in E;
    destruct Hrow as [Hf | Hf]; rewrite Hf in *; simpl in *;
    try discriminate; try congruence; lia.
Qed.

Lemma boolean_flags_sum {A} (f1 f2 f3 : A → Z) (rows : list A) :
  boolean_rows f1 f2 f3 rows →
  flags_sum f1 f2 f3 rows
  = Z.of_nat (count_ones f1 rows + count_ones f2 rows + count_ones f3 rows).
Proof.
  intros Hb. unfold flags_sum. simpl.
  rewrite !boolean_sum_count; [lia | | |];
    (eapply Forall_impl; [| exact Hb]; simpl; tauto).
Qed.

Lemma frame_rows_exact (k : nat) : frame_rows (Z.of_nat k) k = k.
Proof. unfold frame_rows. destruct (Z.of_nat k <=? 0) eqn:E; lia. Qed.

Lemma nodes_node_name_length d :
  length (nodes_node_name d)
  = (count_ones node_phase_1 (electric_grid_nodes d)
     + count_ones node_phase_2 (electric_grid_nodes d)
     + count_ones node_phase_3 (electric_grid_nodes d))%nat.
Proof. unfold nodes_node_name. rewrite !length_app, !select_length. lia. Qed.

Lemma nodes_phase_length d : length (nodes_phase d) = length (nodes_node_name d).
Proof.
  rewrite nodes_node_name_length. unfold nodes_phase.
  rewrite !length_app, !length_replicate. lia.
Qed.

Lemma nodes_frame_length d nodes :
  nodes_frame d = Ok nodes → length nodes = length (nodes_node_name d).
Proof.
  unfold nodes_frame. intros H. bind_inv H. bind_inv H.
  injection H as <-. rewrite length_zip_with, nodes_phase_length. lia.
Qed.

Lemma check_length_refl (k : nat) : check_length k k = Ok ().
Proof. unfold check_length. by rewrite decide_True. Qed.

Lemma nodes_frame_total d :
  boolean_nodes d → electric_grids d ≠ [] → ∃ nodes, nodes_frame d = Ok nodes.
Proof.
  intros Hb Hs. unfold nodes_frame, node_dimension_of.
  rewrite (boolean_flags_sum _ _ _ _ Hb), <- nodes_node_name_length.
  rewrite frame_rows_exact, nodes_phase_length.
  unfold check_length. rewrite decide_True by reflexivity. simpl.
  destruct (electric_grids d); [congruence | simpl; eauto].
Qed.

(** ** Positions *)

Lemma nonzero_from_app {A} (p : A → bool) (i : nat) (l k : list A) :
  nonzero_from p i (l ++ k)
  = nonzero_from p i l ++ nonzero_from p (i + length l) k.
Proof.
  revert i. induction l as [|a l IH]; intros i; simpl.
  - by rewrite Nat.add_0_r.
  - rewrite IH, <- Nat.add_succ_comm. by destruct (p a).
Qed.

Lemma nonzero_from_all {A} (p : A → bool) (i : nat) (l : list A) :
  Forall (λ a, p a = true) l → nonzero_from p i l = seq i (length l).
Proof.
  intros H. revert i. induction H as [|a l Ha _ IH]; intros i; simpl; [done|].
  by rewrite Ha, IH.
Qed.

Lemma nonzero_from_none {A} (p : A → bool) (i : nat) (l : list A) :
  Forall (λ a, p a = false) l → nonzero_from p i l = [].
Proof.
  intros H. revert i. induction H as [|a l Ha _ IH]; intros i; simpl; [done|].
  by rewrite Ha, IH.
Qed.

Lemma nonzero_from_map {A B} (f : A → B) (p : B → bool) (i : nat) (l : list A) :
  nonzero_from (λ a, p (f a)) i l = nonzero_from p i (map f l).
Proof.
  revert i. induction l as [|a l IH]; intros i; simpl; [done|].
  by rewrite IH.
Qed.

Lemma nonzero_from_spec {A} (p : A → bool) (i : nat) (l : list A) (pos : nat) :
  pos ∈ nonzero_from p i l
  ↔ ∃ a, (i ≤ pos)%nat ∧ l !! (pos - i)%nat = Some a ∧ p a = true.
Proof.
  revert i. induction l as [|a l IH]; intros i; simpl.
  - split; [by intros ?%elem_of_nil | by intros (? & _ & ? & _)].
  - assert (pos ∈ nonzero_from p (S i) l
            ↔ ∃ b, (i < pos)%nat ∧ (a :: l) !! (pos - i)%nat = Some b ∧ p b = true)
      as Htail.
    { rewrite IH. split; intros (b & Hle & Hb & Hp); exists b.
      - replace (pos - i)%nat with (S (pos - S i)) by lia. auto with lia.
      - replace (pos - i)%nat with (S (pos - S i)) in Hb by lia. auto with lia. }
    destruct (p a) eqn:Hpa.
    + rewrite elem_of_cons, Htail. split.
      * intros [-> | (b & ? & ? & ?)].
        -- exists a. rewrite Nat.sub_diag. auto.
        -- exists b. auto with lia.
      * intros (b & Hle & Hb & Hp).
        destruct (decide (pos = i)) as [->|]; [by left|].
        right. exists b. auto with lia.
    + rewrite Htail. split; intros (b & Hle & Hb & Hp); exists b.
      * auto with lia.
      * destruct (decide (pos = i)) as [->|]; [|auto with lia].
        rewrite Nat.sub_diag in Hb. simpl in Hb. congruence.
Qed.

(** [np.nonzero] returns exactly the positions of the rows that satisfy
    the mask. *)
Lemma nonzero_spec {A} (p : A → bool) (l : list A) (pos : nat) :
  pos ∈ nonzero p l ↔ ∃ a, l !! pos = Some a ∧ p a = true.
Proof.
  unfold nonzero. rewrite nonzero_from_spec, Nat.sub_0_r.
  split; intros (a & H); exists a; intuition lia.
Qed.

Lemma nonzero_lt {A} (p : A → bool) (l : list A) (pos : nat) :
  pos ∈ nonzero p l → (pos < length l)%nat.
Proof. intros (a & Ha & _)%nonzero_spec. by eapply lookup_lt_Some. Qed.

(** ** Position dictionaries *)

Lemma fromkeys_from_lookup (names : list string) (d : gmap string pyval) (k : string) :
  foldl (λ d name, <[name := PyNone]> d) d names !! k
  = if decide (k ∈ names) then Some PyNone else d !! k.
Proof.
  revert d. induction names as [|name names IH]; intros d; cbn [foldl].
  - rewrite decide_False; [done | apply not_elem_of_nil].
  - rewrite IH. destruct (decide (k ∈ names)) as [Hin|Hin].
    + rewrite decide_True; [done | by right].
    + destruct (decide (k = name)) as [->|Hne].
      * rewrite decide_True by left. apply lookup_insert_eq.
      * rewrite decide_False, lookup_insert_ne; [done | congruence |].
        by intros [?|?]%elem_of_cons.
Qed.

Lemma fromkeys_lookup (names : list string) (k : string) :
  fromkeys names !! k = if decide (k ∈ names) then Some PyNone else None.
Proof. unfold fromkeys. by rewrite fromkeys_from_lookup, lookup_empty. Qed.

Lemma fill_lookup (f : string → list nat) (names : list string)
    (d : gmap string pyval) (k : string) :
  fill f names d !! k
  = if decide (k ∈ names) then Some (PyList (f k)) else d !! k.
Proof.
  unfold fill. revert d. induction names as [|name names IH]; intros d; cbn [foldl].
  - rewrite decide_False; [done | apply not_elem_of_nil].
  - rewrite IH. destruct (decide (k ∈ names)) as [Hin|Hin].
    + rewrite decide_True; [done | by right].
    + destruct (decide (k = name)) as [->|Hne].
      * rewrite decide_True by left. apply lookup_insert_eq.
      * rewrite decide_False, lookup_insert_ne; [done | congruence |].
        by intros [?|?]%elem_of_cons.
Qed.

(** Every name of the table gets its positions; other keys are absent. *)
Lemma fill_fromkeys_lookup (f : string → list nat) (names : list string) (k : string) :
  fill f names (fromkeys names) !! k
  = if decide (k ∈ names) then Some (PyList (f k)) else None.
Proof.
  rewrite fill_lookup, fromkeys_lookup. by destruct (decide (k ∈ names)).
Qed.

(** ** The flattened tables *)

Lemma nonzero_from_replicate_eq (s : string) (i k : nat) :
  nonzero_from (λ t, String.eqb t s) i (replicate k s) = seq i k.
Proof.
  rewrite nonzero_from_all.
  - by rewrite length_replicate.
  - apply Forall_replicate, String.eqb_refl.
Qed.

Lemma nonzero_from_replicate_ne (s t : string) (i k : nat) :
  t ≠ s → nonzero_from (λ u, String.eqb u s) i (replicate k t) = [].
Proof.
  intros Hne. apply nonzero_from_none, Forall_replicate.
  by apply String.eqb_neq.
Qed.

(** The positions of each phase label in a column made of a block of
    "1", a block of "2" and a block of "3". *)
Lemma nonzero_phase_blocks (k1 k2 k3 : nat) :
  let column := replicate k1 "1"%string ++ replicate k2 "2"%string
                ++ replicate k3 "3"%string in
  nonzero (λ t, String.eqb t "1") column = seq 0 k1
  ∧ nonzero (λ t, String.eqb t "2") column = seq k1 k2
  ∧ nonzero (λ t, String.eqb t "3") column = seq (k1 + k2) k3.
Proof.
  unfold nonzero. simpl. rewrite !nonzero_from_app, !length_replicate.
  rewrite !nonzero_from_replicate_eq.
  rewrite !nonzero_from_replicate_ne by discriminate.
  rewrite !app_nil_r. simpl. auto.
Qed.

Lemma nodes_frame_phase d frame :
  nodes_frame d = Ok frame → map nr_phase frame = nodes_phase d.
Proof.
  unfold nodes_frame. intros H. bind_inv H. bind_inv H. injection H as <-.
  pose proof (nodes_phase_length d) as Hlen.
  revert Hlen. generalize (nodes_phase d). generalize (nodes_node_name d).
  induction l as [|name names IH]; intros [|phase phases] Hlen;
    simpl in *; try discriminate; [done|].
  f_equal. apply IH. lia.
Qed.

Lemma nodes_frame_name d frame :
  nodes_frame d = Ok frame → map nr_node_name frame = nodes_node_name d.
Proof.
  unfold nodes_frame. intros H. bind_inv H. bind_inv H. injection H as <-.
  pose proof (nodes_phase_length d) as Hlen.
  revert Hlen. generalize (nodes_phase d). generalize (nodes_node_name d).
  induction l as [|name names IH]; intros [|phase phases] Hlen;
    simpl in *; try discriminate; [done|].
  f_equal. apply IH. lia.
Qed.

Lemma Index_init_inv d idx :
  ElectricGridIndex_init d = Ok idx →
  ∃ nodes branches,
    nodes_frame d = Ok nodes ∧ branches_frame d = Ok branches
    ∧ node_dimension idx = node_dimension_of d
    ∧ branch_dimension idx = branch_dimension_of d
    ∧ load_dimension idx = load_dimension_of d
    ∧ nodes_phases idx = map (λ row, (nr_node_name row, nr_phase row)) nodes
    ∧ node_by_node_name idx
      = fill (λ name, nonzero (λ row, String.eqb (nr_node_name row) name) nodes)
             (map node_name (electric_grid_nodes d))
             (fromkeys (map node_name (electric_grid_nodes d)))
    ∧ node_by_phase idx
      = fill (λ phase, nonzero (λ row, String.eqb (nr_phase row) phase) nodes)
             ["1"; "2"; "3"]%string (fromkeys ["1"; "2"; "3"]%string).
Proof.
  unfold ElectricGridIndex_init. intros H.
  apply bind_Ok in H as (nodes & Hn & H). apply bind_Ok in H as (branches & Hb & H).
  injection H as <-. exists nodes, branches. simpl. auto 10.
Qed.

(** When the dimension is positive and the frame is built, the length
    check of the phase column has compared the dimension with the number
    of selected names. *)
Lemma nodes_frame_rows_positive d nodes :
  0 < node_dimension_of d → nodes_frame d = Ok nodes →
  Z.of_nat (length nodes) = node_dimension_of d.
Proof.
  intros Hpos Hn. rewrite (nodes_frame_length _ _ Hn).
  unfold nodes_frame in Hn. apply bind_Ok in Hn as ([] & Hcheck & _).
  unfold check_length in Hcheck. case_decide as Hrows; [|discriminate].
  rewrite nodes_phase_length in Hrows. unfold frame_rows in Hrows.
  destruct (Z.leb_spec (node_dimension_of d) 0); lia.
Qed.

Lemma nodes_frame_rows d nodes :
  boolean_nodes d → nodes_frame d = Ok nodes →
  Z.of_nat (length nodes) = node_dimension_of d.
Proof.
  intros Hb Hn. rewrite (nodes_frame_length _ _ Hn), nodes_node_name_length.
  unfold node_dimension_of. by rewrite (boolean_flags_sum _ _ _ _ Hb).
Qed.

Lemma boolean_rows_filter {A} (f1 f2 f3 : A → Z) (P : A → Prop)
    `{∀ a, Decision (P a)} (rows : list A) :
  boolean_rows f1 f2 f3 rows → boolean_rows f1 f2 f3 (filter P rows).
Proof.
  unfold boolean_rows. induction 1 as [|row rows Hrow _ IH]; [constructor|].
  rewrite filter_cons. destruct (decide (P row)); [constructor|]; done.
Qed.

Lemma line_dimension_count d :
  boolean_branches d →
  line_dimension d
  = Z.of_nat (count_ones line_phase_1 (electric_grid_lines d)
              + count_ones line_phase_2 (electric_grid_lines d)
              + count_ones line_phase_3 (electric_grid_lines d)).
Proof. intros [Hl _]. by apply boolean_flags_sum. Qed.

Lemma transformer_dimension_count d :
  boolean_branches d →
  transformer_dimension d
  = Z.of_nat (count_ones transformer_phase_1 (electric_grid_transformers_one_winding d)
              + count_ones transformer_phase_2 (electric_grid_transformers_one_winding d)
              + count_ones transformer_phase_3 (electric_grid_transformers_one_winding d)).
Proof.
  intros [_ Ht]. apply boolean_flags_sum.
  unfold electric_grid_transformers_one_winding. by apply boolean_rows_filter.
Qed.

Lemma np_repeat_nat {A} (v : A) (k : nat) :
  np_repeat v (Z.of_nat k) = Ok (replicate k v).
Proof.
  unfold np_repeat. destruct (Z.ltb_spec (Z.of_nat k) 0); [lia|].
  by rewrite Nat2Z.id.
Qed.

Lemma branches_branch_name_length d :
  length (branches_branch_name d) = length (branches_phase d).
Proof.
  unfold branches_branch_name, branches_phase.
  by rewrite !length_app, !select_length, !length_replicate.
Qed.

Lemma branches_phase_length d :
  boolean_branches d →
  Z.of_nat (length (branches_phase d)) = branch_dimension_of d.
Proof.
  intros Hb. unfold branch_dimension_of, branches_phase.
  rewrite (line_dimension_count _ Hb), (transformer_dimension_count _ Hb).
  rewrite !length_app, !length_replicate. lia.
Qed.

(** With boolean flags the frame [branches] is the row-wise zip of its
    three columns, the type column being a block of "line" and a block of
    "transformer". *)
Lemma branches_frame_boolean d :
  boolean_branches d →
  let lines := electric_grid_lines d in
  let transformers := electric_grid_transformers_one_winding d in
  branches_frame d
  = Ok (zip3 (λ name phase type,
                {| br_branch_name := name; br_phase := phase; br_branch_type := type |})
             (branches_branch_name d) (branches_phase d)
             (replicate (count_ones line_phase_1 lines + count_ones line_phase_2 lines
                         + count_ones line_phase_3 lines) "line"%string
              ++ replicate (count_ones transformer_phase_1 transformers
                            + count_ones transformer_phase_2 transformers
                            + count_ones transformer_phase_3 transformers)
                           "transformer"%string)).
Proof.
  intros Hb lines transformers. unfold branches_frame.
  rewrite branches_branch_name_length, <- (branches_phase_length _ Hb).
  rewrite frame_rows_exact, check_length_refl. simpl.
  unfold branches_branch_type.
  rewrite (line_dimension_count _ Hb), (transformer_dimension_count _ Hb).
  rewrite !np_repeat_nat. simpl.
  unfold check_length. rewrite decide_True; [done|].
  unfold branches_phase. rewrite !length_app, !length_replicate.
  fold lines transformers. lia.
Qed.

Lemma Index_init_total d :
  boolean_nodes d → boolean_branches d → electric_grids d ≠ [] →
  ∃ idx, ElectricGridIndex_init d = Ok idx.
Proof.
  intros Hn Hb Hs. unfold ElectricGridIndex_init.
  destruct (nodes_frame_total _ Hn Hs) as [nodes ->].
  rewrite (branches_frame_boolean _ Hb). simpl. eauto.
Qed.

(** C8. [node_dimension] is the sum over the nodes of their
    connected-phase flags, and it is the number of rows of the flattened
    node table [nodes], whose rows the index keeps as [nodes_phases]:
    for flags that are 0 or 1, and for any integer flags whose sum is
    positive. For flags that are 0 or 1 and a declared source node the
    table is built, with that many rows, and so is the index. *)
Theorem node_dimension_counts_node_phases (d : ElectricGridData) :
  boolean_nodes d ∨ 0 < node_dimension_of d →
  node_dimension_of d = sum_Z (map node_phase_count (electric_grid_nodes d))
  ∧ (∀ nodes, nodes_frame d = Ok nodes →
       Z.of_nat (length nodes) = node_dimension_of d)
  ∧ (∀ idx, ElectricGridIndex_init d = Ok idx →
       node_dimension idx = sum_Z (map node_phase_count (electric_grid_nodes d))
       ∧ Z.of_nat (length (nodes_phases idx)) = node_dimension idx)
  ∧ (boolean_nodes d → electric_grids d ≠ [] →
     ∃ nodes, nodes_frame d = Ok nodes
       ∧ Z.of_nat (length nodes)
         = sum_Z (map node_phase_count (electric_grid_nodes d)))
  ∧ (boolean_nodes d → boolean_branches d → electric_grids d ≠ [] →
     ∃ idx, ElectricGridIndex_init d = Ok idx
       ∧ node_dimension idx
         = sum_Z (map node_phase_count (electric_grid_nodes d))
       ∧ Z.of_nat (length (nodes_phases idx)) = node_dimension idx).
Proof.
  intros Hd.
  assert (node_dimension_of d = sum_Z (map node_phase_count (electric_grid_nodes d)))
    as Hsum by apply sum_Z_columns.
  assert (∀ nodes, nodes_frame d = Ok nodes →
            Z.of_nat (length nodes) = node_dimension_of d) as Hrows.
  { intros nodes Hn. destruct Hd as [Hb|Hpos].
    - by apply nodes_frame_rows.
    - by apply nodes_frame_rows_positive. }
  assert (∀ idx, ElectricGridIndex_init d = Ok idx →
            node_dimension idx
            = sum_Z (map node_phase_count (electric_grid_nodes d))
            ∧ Z.of_nat (length (nodes_phases idx)) = node_dimension idx) as Hindex.
  { intros idx Hidx.
    apply Index_init_inv in Hidx as (nodes & ? & Hn & _ & -> & _ & _ & -> & _).
    split; [done|]. rewrite length_map. auto. }
  do 3 (split; [done|]). split.
  - intros Hb Hs. destruct (nodes_frame_total _ Hb Hs) as [nodes Hn].
    exists nodes. split; [done|]. rewrite <- Hsum. auto.
  - intros Hb Hbr Hs.
    destruct (Index_init_total _ Hb Hbr Hs) as [idx Hidx].
    exists idx. split; [done|]. auto.
Qed.

Lemma zip3_app {A B C D} (f : A → B → C → D)
    (l1 l2 : list A) (k1 k2 : list B) (m1 m2 : list C) :
  length l1 = length k1 → length l1 = length m1 →
  zip3 f (l1 ++ l2) (k1 ++ k2) (m1 ++ m2) = zip3 f l1 k1 m1 ++ zip3 f l2 k2 m2.
Proof.
  intros H1 H2. unfold zip3.
  rewrite zip_with_app by done.
  rewrite zip_with_app; [done|]. rewrite length_zip_with. lia.
Qed.

Lemma zip3_columns {A B C D} (f : A → B → C → D)
    (g1 : D → A) (g2 : D → B) (g3 : D → C)
    (l : list A) (k : list B) (m : list C) :
  (∀ a b c, g1 (f a b c) = a) → (∀ a b c, g2 (f a b c) = b) →
  (∀ a b c, g3 (f a b c) = c) →
  length l = length k → length l = length m →
  map g1 (zip3 f l k m) = l ∧ map g2 (zip3 f l k m) = k ∧ map g3 (zip3 f l k m) = m.
Proof.
  intros Hg1 Hg2 Hg3. unfold zip3. revert k m.
  induction l as [|a l IH]; intros [|b k] [|c m] Hk Hm;
    simpl in *; try discriminate; [done|].
  rewrite Hg1, Hg2, Hg3.
  destruct (IH k m) as (-> & -> & ->); [lia | lia | done].
Qed.

Lemma app_assoc3 {A} (l1 l2 l3 rest : list A) :
  l1 ++ l2 ++ l3 ++ rest = (l1 ++ l2 ++ l3) ++ rest.
Proof. by rewrite <- !app_assoc. Qed.

Lemma zip3_branch_type (l k : list string) (n : nat) (s : string) :
  Forall (λ row, br_branch_type row = s)
         (zip3 (λ name phase type,
                  {| br_branch_name := name; br_phase := phase;
                     br_branch_type := type |})
               l k (replicate n s)).
Proof.
  unfold zip3. revert k n.
  induction l as [|a l IH]; intros [|b k] [|n]; simpl; constructor; auto.
Qed.

(** C7. With boolean connection flags: in the flattened node table the
    phase column is a block of "1", then a block of "2", then a block of
    "3", so that the [node_by_phase] position lists are the consecutive
    ranges that cover 0 .. node_dimension - 1; and the flattened branch
    table is the line rows, in the same per-phase order, followed by the
    rows of the one-winding transformers. *)
Theorem flattened_tables_ordered_by_phase (d : ElectricGridData) :
  boolean_nodes d → boolean_branches d →
  let nodes := electric_grid_nodes d in
  let lines := electric_grid_lines d in
  let transformers := electric_grid_transformers_one_winding d in
  let k1 := count_ones node_phase_1 nodes in
  let k2 := count_ones node_phase_2 nodes in
  let k3 := count_ones node_phase_3 nodes in
  (∀ frame, nodes_frame d = Ok frame →
     map nr_phase frame
     = replicate k1 "1"%string ++ replicate k2 "2"%string ++ replicate k3 "3"%string)
  ∧ (∀ idx, ElectricGridIndex_init d = Ok idx →
       node_by_phase idx !! "1"%string = Some (PyList (seq 0 k1))
       ∧ node_by_phase idx !! "2"%string = Some (PyList (seq k1 k2))
       ∧ node_by_phase idx !! "3"%string = Some (PyList (seq (k1 + k2) k3))
       ∧ seq 0 k1 ++ seq k1 k2 ++ seq (k1 + k2) k3
         = seq 0 (Z.to_nat (node_dimension idx)))
  ∧ (∀ frame, branches_frame d = Ok frame →
       ∃ line_rows transformer_rows,
         frame = line_rows ++ transformer_rows
         ∧ Forall (λ row, br_branch_type row = "line"%string) line_rows
         ∧ Forall (λ row, br_branch_type row = "transformer"%string) transformer_rows
         ∧ map br_branch_name line_rows
           = select line_phase_1 line_name lines
             ++ select line_phase_2 line_name lines
             ++ select line_phase_3 line_name lines
         ∧ map br_phase line_rows
           = replicate (count_ones line_phase_1 lines) "1"%string
             ++ replicate (count_ones line_phase_2 lines) "2"%string
             ++ replicate (count_ones line_phase_3 lines) "3"%string
         ∧ map br_branch_name transformer_rows
           = select transformer_phase_1 transformer_name transformers
             ++ select transformer_phase_2 transformer_name transformers
             ++ select transformer_phase_3 transformer_name transformers
         ∧ map br_phase transformer_rows
           = replicate (count_ones transformer_phase_1 transformers) "1"%string
             ++ replicate (count_ones transformer_phase_2 transformers) "2"%string
             ++ replicate (count_ones transformer_phase_3 transformers) "3"%string).
Proof.
  intros Hn Hb nodes lines transformers k1 k2 k3.
  subst nodes lines transformers k1 k2 k3.
  split; [|split].
  - intros frame Hf. by rewrite (nodes_frame_phase _ _ Hf).
  - intros idx Hidx.
    apply Index_init_inv in Hidx
      as (frame & ? & Hf & _ & Hdim & _ & _ & _ & _ & Hphase).
    rewrite Hphase, !fill_fromkeys_lookup.
    rewrite !decide_True by (rewrite !elem_of_cons; auto).
    assert (∀ s, nonzero (λ row, String.eqb (nr_phase row) s) frame
                 = nonzero (λ t, String.eqb t s) (nodes_phase d)) as Hpos.
    { intros s. unfold nonzero.
      rewrite (nonzero_from_map nr_phase (λ t, String.eqb t s)).
      by rewrite (nodes_frame_phase _ _ Hf). }
    rewrite !Hpos. unfold nodes_phase.
    match goal with
    | |- context [replicate ?a "1"%string ++ replicate ?b "2"%string
                  ++ replicate ?c "3"%string] =>
        destruct (nonzero_phase_blocks a b c) as (-> & -> & ->)
    end.
    repeat split.
    rewrite Hdim. unfold node_dimension_of.
    rewrite (boolean_flags_sum _ _ _ _ Hn), Nat2Z.id.
    rewrite !seq_app. by rewrite <- app_assoc.
  - intros frame Hf. rewrite (branches_frame_boolean _ Hb) in Hf.
    injection Hf as <-.
    unfold branches_branch_name, branches_phase.
    rewrite (app_assoc3 (select line_phase_1 line_name _)).
    rewrite (app_assoc3 (replicate (count_ones line_phase_1 _) "1"%string)).
    rewrite zip3_app
      by (rewrite !length_app, ?select_length, ?length_replicate; lia).
    eexists _, _. split; [reflexivity|].
    split; [apply zip3_branch_type|]. split; [apply zip3_branch_type|].
    match goal with
    | |- context [zip3 ?f ?l ?k (replicate ?n "line"%string)] =>
        destruct (zip3_columns f br_branch_name br_phase br_branch_type
                    l k (replicate n "line"%string)) as (Hl1 & Hl2 & Hl3);
        [done | done | done
        | rewrite !length_app, ?select_length, ?length_replicate; lia
        | rewrite !length_app, ?select_length, ?length_replicate; lia |]
    end.
    match goal with
    | |- context [zip3 ?f ?l ?k (replicate ?n "transformer"%string)] =>
        destruct (zip3_columns f br_branch_name br_phase br_branch_type
                    l k (replicate n "transformer"%string)) as (Ht1 & Ht2 & Ht3);
        [done | done | done
        | rewrite !length_app, ?select_length, ?length_replicate; lia
        | rewrite !length_app, ?select_length, ?length_replicate; lia |]
    end.
    done.
Qed.

(** ** Sparse matrices *)

Global Instance complex_laws : DtypeLaws Cx.
Proof.
  split; simpl.
  - intros [a b]. unfold Cadd, Czero. simpl. f_equal; apply Qcplus_0_l.
  - intros [a b]. unfold Cadd, Czero. simpl. f_equal; apply Qcplus_0_r.
  - intros. unfold Cadd. simpl. f_equal; apply Qcplus_assoc.
  - intros. unfold Cadd. f_equal; apply Qcplus_comm.
Qed.

Lemma Cadd_0_l (a : Cx) : Cadd Czero a = a.
Proof. exact (dadd_0_l (A := Cx) a). Qed.

Lemma Cadd_0_r (a : Cx) : Cadd a Czero = a.
Proof. exact (dadd_0_r (A := Cx) a). Qed.

Lemma Cadd_assoc (a b c : Cx) : Cadd a (Cadd b c) = Cadd (Cadd a b) c.
Proof. exact (dadd_assoc (A := Cx) a b c). Qed.

Lemma Cadd_comm (a b : Cx) : Cadd a b = Cadd b a.
Proof. exact (dadd_comm (A := Cx) a b). Qed.

Global Instance int_laws : DtypeLaws Z.
Proof. split; simpl; intros; lia. Qed.

Global Instance float_laws : DtypeLaws Qc.
Proof.
  split; simpl.
  - apply Qcplus_0_l.
  - apply Qcplus_0_r.
  - apply Qcplus_assoc.
  - apply Qcplus_comm.
Qed.

Section Dok.

Context `{DtypeLaws A}.

Lemma dok_get_set (m : dok_matrix A) (row col : nat) (v : A) (i j : nat) :
  dok_get (dok_set m row col v) i j
  = if decide ((row, col) = (i, j)) then v else dok_get m i j.
Proof.
  unfold dok_get, dok_set. simpl.
  destruct (decide (v = dzero)) as [->|Hv];
    destruct (decide ((row, col) = (i, j))) as [<-|Hne].
  - by rewrite lookup_delete_eq.
  - by rewrite lookup_delete_ne.
  - by rewrite lookup_insert_eq.
  - by rewrite lookup_insert_ne.
Qed.

Lemma dok_new_get (r c : Z) (m : dok_matrix A) (i j : nat) :
  dok_new A r c = Ok m → dok_get m i j = dzero.
Proof.
  unfold dok_new. destruct (_ || _); [discriminate|].
  intros [= <-]. unfold dok_get. simpl. by rewrite lookup_empty.
Qed.

Lemma dok_add_inv (m m' : dok_matrix A) (row col : nat) (v : A) :
  dok_add m row col v = Ok m' →
  n_rows m' = n_rows m ∧ n_cols m' = n_cols m
  ∧ ∀ i j, dok_get m' i j
           = dadd (dok_get m i j) (if decide ((row, col) = (i, j)) then v else dzero).
Proof.
  unfold dok_add. repeat case_decide; try discriminate.
  intros [= <-]. repeat split. intros i j. rewrite dok_get_set.
  case_decide as Heq.
  - by injection Heq as <- <-.
  - by rewrite dadd_0_r.
Qed.

Lemma dok_add_ok (m : dok_matrix A) (row col : nat) (v : A) :
  (row < n_rows m)%nat → (col < n_cols m)%nat → ∃ m', dok_add m row col v = Ok m'.
Proof. intros. unfold dok_add. rewrite !decide_True by done. eauto. Qed.

Lemma insert_sub_row_inv (m m' : dok_matrix A) (row : nat)
    (cols : list nat) (values : list A) :
  insert_sub_row m row cols values = Ok m' →
  n_rows m' = n_rows m ∧ n_cols m' = n_cols m
  ∧ ∀ i j, dok_get m' i j
           = dadd (dok_get m i j) (row_contribution row cols values i j).
Proof.
  revert m values. induction cols as [|col cols IH]; intros m [|v values] Hins;
    simpl in *; try (injection Hins as <-; repeat split; intros;
                     by rewrite dadd_0_r).
  bind_inv Hins. apply dok_add_inv in Ha as (Hr & Hc & Hget).
  apply IH in Hins as (Hr' & Hc' & Hget').
  repeat split; [congruence | congruence |].
  intros i j. by rewrite Hget', Hget, dadd_assoc.
Qed.

Lemma insert_sub_matrix_inv (m m' : dok_matrix A) (sub : matrix A)
    (rows cols : list nat) :
  insert_sub_matrix m sub rows cols = Ok m' →
  n_rows m' = n_rows m ∧ n_cols m' = n_cols m
  ∧ ∀ i j, dok_get m' i j
           = dadd (dok_get m i j) (sub_matrix_contribution sub rows cols i j).
Proof.
  revert m sub. induction rows as [|row rows IH]; intros m [|sub_row sub] Hins;
    simpl in *; try (injection Hins as <-; repeat split; intros;
                     by rewrite dadd_0_r).
  bind_inv Hins. apply insert_sub_row_inv in Ha as (Hr & Hc & Hget).
  apply IH in Hins as (Hr' & Hc' & Hget').
  repeat split; [congruence | congruence |].
  intros i j. by rewrite Hget', Hget, dadd_assoc.
Qed.

Lemma insert_sub_row_ok (m : dok_matrix A) (row : nat)
    (cols : list nat) (values : list A) :
  (row < n_rows m)%nat → Forall (λ col, (col < n_cols m)%nat) cols →
  ∃ m', insert_sub_row m row cols values = Ok m'.
Proof.
  intros Hrow Hcols.
  remember (n_rows m) as nr eqn:Hnr. remember (n_cols m) as nc eqn:Hnc.
  revert m values Hnr Hnc.
  induction Hcols as [|col cols Hcol _ IH]; intros m [|v values] -> ->;
    simpl; eauto.
  destruct (dok_add_ok m row col v) as [m1 Hm1]; [done | done |].
  rewrite Hm1. simpl. apply dok_add_inv in Hm1 as (Hr & Hc & _).
  by apply IH.
Qed.

Lemma insert_sub_matrix_ok (m : dok_matrix A) (sub : matrix A)
    (rows cols : list nat) :
  Forall (λ row, (row < n_rows m)%nat) rows →
  Forall (λ col, (col < n_cols m)%nat) cols →
  ∃ m', insert_sub_matrix m sub rows cols = Ok m'.
Proof.
  intros Hrows Hcols.
  remember (n_rows m) as nr eqn:Hnr. remember (n_cols m) as nc eqn:Hnc.
  revert m sub Hnr Hnc.
  induction Hrows as [|row rows Hrow _ IH]; intros m [|sub_row sub] -> ->;
    simpl; eauto.
  destruct (insert_sub_row_ok m row cols sub_row) as [m1 Hm1]; [done | done |].
  rewrite Hm1. simpl. apply insert_sub_row_inv in Hm1 as (Hr & Hc & _).
  by apply IH.
Qed.

(** The two [zip]s pair positions with rows and columns of the sub-matrix
    and drop what is left over on either side. *)
Lemma insert_sub_row_pairs_by_zip (m : dok_matrix A) (row : nat)
    (cols : list nat) (values : list A) :
  insert_sub_row m row cols values
  = insert_sub_row m row (take (length values) cols) (take (length cols) values).
Proof.
  revert m values. induction cols as [|col cols IH]; intros m [|v values];
    simpl; try done.
  destruct (dok_add m row col v); simpl; [apply IH | done].
Qed.

Lemma insert_sub_row_take_values (m : dok_matrix A) (row : nat)
    (cols : list nat) (values : list A) :
  insert_sub_row m row cols values
  = insert_sub_row m row cols (take (length cols) values).
Proof.
  revert m values. induction cols as [|col cols IH]; intros m [|v values];
    simpl; try done.
  destruct (dok_add m row col v); simpl; [apply IH | done].
Qed.

Lemma insert_sub_matrix_pairs_by_zip (m : dok_matrix A) (sub : matrix A)
    (rows cols : list nat) :
  insert_sub_matrix m sub rows cols
  = insert_sub_matrix m (take (length rows) (map (take (length cols)) sub))
                      (take (length sub) rows) cols.
Proof.
  revert m sub. induction rows as [|row rows IH]; intros m [|sub_row sub];
    simpl; try done.
  rewrite (insert_sub_row_take_values m row cols sub_row).
  destruct (insert_sub_row _ _ _ _); simpl; [apply IH | done].
Qed.

Lemma insert_sub_matrix_fits (m : dok_matrix A) (sub : matrix A)
    (rows cols : list nat) (nr nc : nat) :
  n_rows m = nr → n_cols m = nc →
  Forall (λ row, (row < nr)%nat) rows → Forall (λ col, (col < nc)%nat) cols →
  ∃ m', insert_sub_matrix m sub rows cols = Ok m'
        ∧ n_rows m' = nr ∧ n_cols m' = nc.
Proof.
  intros <- <- Hrows Hcols.
  destruct (insert_sub_matrix_ok m sub rows cols) as [m' Hm']; [done | done |].
  exists m'. split; [done|].
  by apply insert_sub_matrix_inv in Hm' as (? & ? & _).
Qed.

End Dok.

(** ** The line loop *)

(** What a successful pass of the loop body did. *)
Lemma add_line_inv d self line self' :
  add_line d self line = Ok self' →
  ∃ y node_index_1 node_index_2 branch_index,
    line_admittance_matrices (electric_grid_line_types_matrices d) line = Ok y
    ∧ dict_get (node_by_node_name (index self)) (node_1_name line) = Ok node_index_1
    ∧ dict_get (node_by_node_name (index self)) (node_2_name line) = Ok node_index_2
    ∧ dict_get (branch_by_line_name (index self)) (line_name line) = Ok branch_index
    ∧ index self' = index self
    ∧ (∀ i j, dok_get (node_admittance_matrix self') i j
              = Cadd (dok_get (node_admittance_matrix self) i j)
                     (line_contribution y node_index_1 node_index_2 i j))
    ∧ node_transformation_matrix self' = node_transformation_matrix self
    ∧ load_incidence_wye_matrix self' = load_incidence_wye_matrix self
    ∧ load_incidence_delta_matrix self' = load_incidence_delta_matrix self
    ∧ (allocated self → allocated self').
Proof.
  unfold add_line. intros H.
  apply bind_Ok in H as (y & Hy & H).
  apply bind_Ok in H as (n1 & Hn1 & H).
  apply bind_Ok in H as (n2 & Hn2 & H).
  apply bind_Ok in H as (bi & Hbi & H).
  apply bind_Ok in H as (m1 & Hm1 & H).
  apply bind_Ok in H as (m2 & Hm2 & H).
  apply bind_Ok in H as (m3 & Hm3 & H).
  apply bind_Ok in H as (m4 & Hm4 & H).
  apply bind_Ok in H as (m5 & Hm5 & H).
  apply bind_Ok in H as (m6 & Hm6 & H).
  apply bind_Ok in H as (m7 & Hm7 & H).
  apply bind_Ok in H as (m8 & Hm8 & H).
  apply bind_Ok in H as (m9 & Hm9 & H).
  apply bind_Ok in H as (m10 & Hm10 & H).
  injection H as <-. simpl in *.
  apply insert_sub_matrix_inv in Hm1 as (R1 & C1' & G1).
  apply insert_sub_matrix_inv in Hm2 as (R2 & C2' & G2).
  apply insert_sub_matrix_inv in Hm3 as (R3 & C3' & G3).
  apply insert_sub_matrix_inv in Hm4 as (R4 & C4' & G4).
  apply insert_sub_matrix_inv in Hm5 as (R5 & C5' & _).
  apply insert_sub_matrix_inv in Hm6 as (R6 & C6' & _).
  apply insert_sub_matrix_inv in Hm7 as (R7 & C7' & _).
  apply insert_sub_matrix_inv in Hm8 as (R8 & C8' & _).
  apply insert_sub_matrix_inv in Hm9 as (R9 & C9' & _).
  apply insert_sub_matrix_inv in Hm10 as (R10 & C10' & _).
  exists y, n1, n2, bi. do 5 (split; [done|]).
  split; [|do 3 (split; [done|])].
  - intros i j. rewrite G4, G3, G2, G1. unfold line_contribution.
    simpl. by rewrite !Cadd_assoc.
  - intros Ha. unfold allocated in *. simpl. intuition congruence.
Qed.

Lemma add_line_total d self line y node_index_1 node_index_2 branch_index :
  allocated self →
  line_admittance_matrices (electric_grid_line_types_matrices d) line = Ok y →
  dict_get (node_by_node_name (index self)) (node_1_name line) = Ok node_index_1 →
  dict_get (node_by_node_name (index self)) (node_2_name line) = Ok node_index_2 →
  dict_get (branch_by_line_name (index self)) (line_name line) = Ok branch_index →
  Forall (λ p, (p < Z.to_nat (node_dimension (index self)))%nat) node_index_1 →
  Forall (λ p, (p < Z.to_nat (node_dimension (index self)))%nat) node_index_2 →
  Forall (λ p, (p < Z.to_nat (branch_dimension (index self)))%nat) branch_index →
  ∃ self', add_line d self line = Ok self'.
Proof.
  intros Ha Hy Hn1 Hn2 Hbi B1 B2 Bb.
  unfold add_line. rewrite Hy, Hn1, Hn2, Hbi. simpl.
  destruct Ha as ((R1 & C1') & (R2 & C2') & (R3 & C3') & (R4 & C4') & (R5 & C5')).
  repeat match goal with
  | |- ∃ s, (insert_sub_matrix ?m ?sub ?rows ?cols ≫= _) = Ok s =>
      let m' := fresh "m" in
      let Hm := fresh "Hm" in
      let Hr := fresh "Hr" in
      let Hc := fresh "Hc" in
      edestruct (insert_sub_matrix_fits m sub rows cols) as (m' & Hm & Hr & Hc);
      [ eassumption | eassumption | eassumption | eassumption | ];
      rewrite Hm; simpl
  end.
  eauto.
Qed.

Lemma for_each_ind {S A} (body : S → A → result S) (P : S → Prop) :
  (∀ s a s', P s → body s a = Ok s' → P s') →
  ∀ items s s', P s → for_each body s items = Ok s' → P s'.
Proof.
  intros Hstep. induction items as [|a items IH]; intros s s' Hs H; simpl in H.
  - by injection H as <-.
  - bind_inv H. eauto.
Qed.

Lemma for_each_app {S A} (body : S → A → result S) (s : S) (l k : list A) :
  for_each body s (l ++ k) = (s' ← for_each body s l; for_each body s' k).
Proof.
  revert s. induction l as [|a l IH]; intros s; simpl; [done|].
  destruct (body s a); simpl; [apply IH | done].
Qed.

Lemma allocate_inv idx self :
  allocate idx = Ok self →
  index self = idx ∧ allocated self
  ∧ (∀ i j, dok_get (node_admittance_matrix self) i j = Czero)
  ∧ stored (load_incidence_wye_matrix self) = ∅
  ∧ stored (load_incidence_delta_matrix self) = ∅
  ∧ n_rows (load_incidence_wye_matrix self) = Z.to_nat (node_dimension idx)
  ∧ n_cols (load_incidence_wye_matrix self) = Z.to_nat (load_dimension idx)
  ∧ n_rows (load_incidence_delta_matrix self) = Z.to_nat (node_dimension idx)
  ∧ n_cols (load_incidence_delta_matrix self) = Z.to_nat (load_dimension idx).
Proof.
  unfold allocate, dok_new.
  destruct (node_dimension idx <? 0), (branch_dimension idx <? 0),
    (load_dimension idx <? 0); simpl; try discriminate.
  intros [= <-]. unfold allocated. simpl.
  repeat split.
Qed.

Lemma allocate_total idx :
  0 ≤ node_dimension idx → 0 ≤ branch_dimension idx → 0 ≤ load_dimension idx →
  ∃ self, allocate idx = Ok self.
Proof.
  intros Hn Hb Hl. unfold allocate, dok_new.
  assert ((node_dimension idx <? 0) = false) as -> by lia.
  assert ((branch_dimension idx <? 0) = false) as -> by lia.
  assert ((load_dimension idx <? 0) = false) as -> by lia.
  simpl. eauto.
Qed.

Lemma Csum_cons (a : Cx) (l : list Cx) : Csum (a :: l) = Cadd a (Csum l).
Proof. reflexivity. Qed.

Lemma for_each_add_line_inv d lines self self' :
  for_each (add_line d) self lines = Ok self' →
  index self' = index self
  ∧ (allocated self → allocated self')
  ∧ load_incidence_wye_matrix self' = load_incidence_wye_matrix self
  ∧ load_incidence_delta_matrix self' = load_incidence_delta_matrix self
  ∧ Forall (λ line, is_Ok (line_admittance_matrices
                             (electric_grid_line_types_matrices d) line) = true
                    ∧ is_Ok (dict_get (node_by_node_name (index self))
                                      (node_1_name line)) = true
                    ∧ is_Ok (dict_get (node_by_node_name (index self))
                                      (node_2_name line)) = true) lines
  ∧ ∀ i j, dok_get (node_admittance_matrix self') i j
           = Cadd (dok_get (node_admittance_matrix self) i j)
                  (Csum (map (λ line,
                     line_entry (electric_grid_line_types_matrices d)
                                (node_by_node_name (index self)) line i j) lines)).
Proof.
  revert self. induction lines as [|line lines IH]; intros self H; simpl in H.
  - injection H as <-. do 4 (split; [done|]). split; [constructor|].
    intros i j. simpl. by rewrite Cadd_0_r.
  - apply bind_Ok in H as (self1 & Hline & H).
    apply add_line_inv in Hline
      as (y & n1 & n2 & bi & Hy & Hn1 & Hn2 & _ & Hidx & Hget & _ & Hw & Hd & Hal).
    apply IH in H as (Hidx' & Hal' & Hw' & Hd' & Hall & Hget').
    rewrite Hidx in *.
    split; [congruence|]. split; [auto|].
    split; [congruence|]. split; [congruence|].
    split.
    + constructor; [|done]. by rewrite Hy, Hn1, Hn2.
    + intros i j. rewrite Hget', Hget, map_cons, Csum_cons.
      unfold line_entry at 2. rewrite Hy, Hn1, Hn2.
      by rewrite Cadd_assoc.
Qed.

(** C6. Whenever the construction returns, both load incidence matrices
    are as allocated: of shape node_dimension × load_dimension, with no
    stored entry, so that every entry reads zero, whatever loads the data
    declares. *)
Theorem load_incidence_matrices_stay_zero (d : ElectricGridData)
    (model : ElectricGridModel) :
  ElectricGridModel_init d = Ok model →
  stored (load_incidence_wye_matrix model) = ∅
  ∧ stored (load_incidence_delta_matrix model) = ∅
  ∧ (∀ i j, dok_get (load_incidence_wye_matrix model) i j = Q2Qc 0
            ∧ dok_get (load_incidence_delta_matrix model) i j = Q2Qc 0)
  ∧ n_rows (load_incidence_wye_matrix model) = Z.to_nat (node_dimension (index model))
  ∧ n_cols (load_incidence_wye_matrix model) = Z.to_nat (load_dimension (index model))
  ∧ n_rows (load_incidence_delta_matrix model) = Z.to_nat (node_dimension (index model))
  ∧ n_cols (load_incidence_delta_matrix model)
    = Z.to_nat (load_dimension (index model)).
Proof.
  unfold ElectricGridModel_init. intros H.
  apply bind_Ok in H as (idx & Hidx & H).
  apply bind_Ok in H as (self & Hself & H).
  apply allocate_inv in Hself
    as (Hi & _ & _ & Hw & Hd & Hwr & Hwc & Hdr & Hdc).
  apply for_each_add_line_inv in H as (Hi' & _ & Hw' & Hd' & _).
  rewrite Hw', Hd', Hi', Hi.
  do 2 (split; [done|]). split; [|done].
  intros i j. unfold dok_get. by rewrite Hw, Hd, lookup_empty.
Qed.

(** ** The index stays within the dimensions *)

Lemma branches_frame_rows d branches :
  boolean_branches d → branches_frame d = Ok branches →
  Z.of_nat (length branches) = branch_dimension_of d.
Proof.
  intros Hb Hf. rewrite (branches_frame_boolean _ Hb) in Hf. injection Hf as <-.
  unfold zip3. rewrite !length_zip_with, branches_branch_name_length.
  rewrite <- (branches_phase_length _ Hb).
  rewrite length_app, !length_replicate.
  unfold branches_phase. rewrite !length_app, !length_replicate. lia.
Qed.

Lemma Index_init_branch_inv d idx :
  ElectricGridIndex_init d = Ok idx →
  ∃ branches,
    branches_frame d = Ok branches
    ∧ line_names idx = map line_name (electric_grid_lines d)
    ∧ transformer_names idx
      = map transformer_name (electric_grid_transformers_one_winding d)
    ∧ branch_by_transformer_name idx
      = fromkeys (map transformer_name (electric_grid_transformers_one_winding d))
    ∧ branch_by_line_name idx
      = fill (λ name, nonzero (λ row, String.eqb (br_branch_name row) name
                                      && String.eqb (br_branch_type row) "transformer")
                              branches)
             (map transformer_name (electric_grid_transformers_one_winding d))
             (fill (λ name, nonzero (λ row, String.eqb (br_branch_name row) name
                                            && String.eqb (br_branch_type row) "line")
                                    branches)
                   (map line_name (electric_grid_lines d))
                   (fromkeys (map line_name (electric_grid_lines d)))).
Proof.
  unfold ElectricGridIndex_init. intros H.
  apply bind_Ok in H as (nodes & Hn & H). apply bind_Ok in H as (branches & Hb & H).
  injection H as <-. exists branches. simpl. auto.
Qed.

Lemma Forall_nonzero_lt {A} (p : A → bool) (rows : list A) (n : Z) :
  Z.of_nat (length rows) = n →
  Forall (λ pos, (pos < Z.to_nat n)%nat) (nonzero p rows).
Proof.
  intros <-. rewrite Nat2Z.id. apply list.Forall_forall. intros pos.
  apply nonzero_lt.
Qed.

Lemma Index_init_bounded d idx :
  boolean_nodes d → boolean_branches d →
  ElectricGridIndex_init d = Ok idx → index_bounded idx.
Proof.
  intros Hn Hb Hidx.
  destruct (Index_init_inv _ _ Hidx)
    as (nodes & ? & Hnodes & _ & Hnd & Hbd & _ & _ & Hnbn & _).
  destruct (Index_init_branch_inv _ _ Hidx) as (branches & Hbranches & _ & _ & _ & Hbln).
  split.
  - intros name v. rewrite Hnbn, fill_fromkeys_lookup.
    case_decide; [|discriminate]. intros [= <-].
    eexists. split; [reflexivity|]. apply Forall_nonzero_lt.
    rewrite Hnd. by apply nodes_frame_rows.
  - intros name v. rewrite Hbln, !fill_lookup, fromkeys_lookup.
    pose proof (branches_frame_rows _ _ Hb Hbranches) as Hrows.
    rewrite <- Hbd in Hrows.
    repeat case_decide; try discriminate; intros [= <-];
      (eexists; split; [reflexivity|]; by apply Forall_nonzero_lt).
Qed.

Lemma dict_get_bounded (d : gmap string pyval) (key : string)
    (positions : list nat) (P : list nat → Prop) :
  (∀ name v, d !! name = Some v → ∃ l, v = PyList l ∧ P l) →
  dict_get d key = Ok positions → P positions.
Proof.
  intros Hd. unfold dict_get. destruct (d !! key) as [v|] eqn:E; [|discriminate].
  destruct (Hd _ _ E) as (l & -> & Hl). by intros [= <-].
Qed.

Lemma dict_get_is_Ok (d : gmap string pyval) (key : string) (l : list nat) :
  d !! key = Some (PyList l) → dict_get d key = Ok l.
Proof. unfold dict_get. by intros ->. Qed.

(** ** Completion of the construction *)

Lemma dimensions_nonneg d idx :
  boolean_nodes d → boolean_branches d → ElectricGridIndex_init d = Ok idx →
  0 ≤ node_dimension idx ∧ 0 ≤ branch_dimension idx ∧ 0 ≤ load_dimension idx.
Proof.
  intros Hn Hb Hidx.
  destruct (Index_init_inv _ _ Hidx) as (? & ? & _ & _ & -> & -> & -> & _).
  unfold node_dimension_of, branch_dimension_of, load_dimension_of.
  rewrite (boolean_flags_sum _ _ _ _ Hn).
  rewrite (line_dimension_count _ Hb), (transformer_dimension_count _ Hb). lia.
Qed.

Lemma branch_by_line_name_has_lines d idx line :
  ElectricGridIndex_init d = Ok idx → line ∈ electric_grid_lines d →
  ∃ positions, branch_by_line_name idx !! line_name line = Some (PyList positions).
Proof.
  intros Hidx Hin.
  destruct (Index_init_branch_inv _ _ Hidx) as (branches & _ & _ & _ & _ & ->).
  rewrite !fill_lookup, fromkeys_lookup.
  assert (line_name line ∈ map line_name (electric_grid_lines d))
    by (apply list_elem_of_fmap; eauto).
  case_decide; [eauto|]. rewrite decide_True by done. eauto.
Qed.

Lemma node_by_node_name_has_nodes d idx name :
  ElectricGridIndex_init d = Ok idx →
  name ∈ map node_name (electric_grid_nodes d) →
  ∃ positions, node_by_node_name idx !! name = Some (PyList positions).
Proof.
  intros Hidx Hin.
  destruct (Index_init_inv _ _ Hidx) as (? & ? & _ & _ & _ & _ & _ & _ & -> & _).
  rewrite fill_fromkeys_lookup, decide_True by done. eauto.
Qed.

Lemma for_each_add_line_total d lines idx self :
  index self = idx → allocated self → index_bounded idx →
  Forall (λ line,
            is_Ok (line_admittance_matrices
                     (electric_grid_line_types_matrices d) line) = true
            ∧ is_Ok (dict_get (node_by_node_name idx) (node_1_name line)) = true
            ∧ is_Ok (dict_get (node_by_node_name idx) (node_2_name line)) = true
            ∧ is_Ok (dict_get (branch_by_line_name idx) (line_name line)) = true)
         lines →
  ∃ self', for_each (add_line d) self lines = Ok self'.
Proof.
  intros Hi Ha Hb Hlines. revert self Hi Ha.
  induction Hlines as [|line lines (Hy & H1 & H2 & H3) _ IH]; intros self Hi Ha;
    simpl; [eauto|].
  apply is_Ok_true in Hy as [y Hy]. apply is_Ok_true in H1 as [n1 H1].
  apply is_Ok_true in H2 as [n2 H2]. apply is_Ok_true in H3 as [bi H3].
  subst idx.
  destruct (add_line_total d self line y n1 n2 bi) as [self1 Hself1]; try done.
  - eapply dict_get_bounded; [apply Hb | done].
  - eapply dict_get_bounded; [apply Hb | done].
  - eapply dict_get_bounded; [apply Hb | done].
  - rewrite Hself1. simpl.
    apply add_line_inv in Hself1
      as (_ & _ & _ & _ & _ & _ & _ & _ & Hidx & _ & _ & _ & _ & Hal).
    apply IH; auto.
Qed.

Lemma Model_init_total_with d idx :
  boolean_nodes d → boolean_branches d →
  ElectricGridIndex_init d = Ok idx →
  Forall (λ line,
            is_Ok (line_admittance_matrices
                     (electric_grid_line_types_matrices d) line) = true
            ∧ is_Ok (dict_get (node_by_node_name idx) (node_1_name line)) = true
            ∧ is_Ok (dict_get (node_by_node_name idx) (node_2_name line)) = true)
         (electric_grid_lines d) →
  ∃ model, ElectricGridModel_init d = Ok model.
Proof.
  intros Hn Hb Hidx Hlines. unfold ElectricGridModel_init. rewrite Hidx. simpl.
  destruct (dimensions_nonneg _ _ Hn Hb Hidx) as (? & ? & ?).
  destruct (allocate_total idx) as [self Hself]; [done..|].
  rewrite Hself. simpl.
  apply allocate_inv in Hself as (Hi & Ha & _).
  eapply for_each_add_line_total; [done | done | by eapply Index_init_bounded |].
  apply list.Forall_forall. intros line Hin.
  rewrite list.Forall_forall in Hlines.
  destruct (Hlines _ Hin) as (? & ? & ?). do 3 (split; [done|]).
  destruct (branch_by_line_name_has_lines _ _ _ Hidx Hin) as [positions Hp].
  by rewrite (dict_get_is_Ok _ _ _ Hp).
Qed.

(** C4, as the code has it. The construction compares the number of
    connected phases of a line with nothing: it completes for every grid
    with boolean flags and a declared source node in which each line's
    type entries give an invertible [n_phases] × [n_phases] block and both
    end nodes are in the node table, whether or not [n_phases] is the
    number of connected phases of the line or of its end nodes. An
    insertion pairs the positions with the rows and columns of the
    sub-matrix and drops what is left over on either side. *)
Theorem construction_completes_without_phase_count_check (d : ElectricGridData) :
  boolean_nodes d → boolean_branches d → electric_grids d ≠ [] →
  Forall (λ line,
            is_Ok (line_admittance_matrices
                     (electric_grid_line_types_matrices d) line) = true
            ∧ node_1_name line ∈ map node_name (electric_grid_nodes d)
            ∧ node_2_name line ∈ map node_name (electric_grid_nodes d))
         (electric_grid_lines d) →
  (∃ model, ElectricGridModel_init d = Ok model)
  ∧ ∀ (m : dok_matrix Cx) sub_matrix row_indexes col_indexes,
      insert_sub_matrix m sub_matrix row_indexes col_indexes
      = insert_sub_matrix m
          (take (length row_indexes) (map (take (length col_indexes)) sub_matrix))
          (take (length sub_matrix) row_indexes) col_indexes.
Proof.
  intros Hn Hb Hs Hlines.
  split; [|intros; apply insert_sub_matrix_pairs_by_zip].
  destruct (Index_init_total _ Hn Hb Hs) as [idx Hidx].
  apply (Model_init_total_with d idx); try done.
  eapply Forall_impl; [|exact Hlines]. simpl. intros line (Hy & H1 & H2).
  split; [done|].
  destruct (node_by_node_name_has_nodes _ _ _ Hidx H1) as [p1 Hp1].
  destruct (node_by_node_name_has_nodes _ _ _ Hidx H2) as [p2 Hp2].
  by rewrite (dict_get_is_Ok _ _ _ Hp1), (dict_get_is_Ok _ _ _ Hp2).
Qed.

(** ** Additive accumulation *)

Lemma Model_init_inv d model :
  ElectricGridModel_init d = Ok model →
  ∃ idx, ElectricGridIndex_init d = Ok idx ∧ index model = idx
    ∧ Forall (λ line,
                is_Ok (line_admittance_matrices
                         (electric_grid_line_types_matrices d) line) = true
                ∧ is_Ok (dict_get (node_by_node_name idx) (node_1_name line)) = true
                ∧ is_Ok (dict_get (node_by_node_name idx) (node_2_name line)) = true)
             (electric_grid_lines d)
    ∧ ∀ i j, dok_get (node_admittance_matrix model) i j
             = Csum (map (λ line,
                  line_entry (electric_grid_line_types_matrices d)
                             (node_by_node_name idx) line i j)
                  (electric_grid_lines d)).
Proof.
  unfold ElectricGridModel_init. intros H.
  apply bind_Ok in H as (idx & Hidx & H).
  apply bind_Ok in H as (self & Hself & H).
  apply allocate_inv in Hself as (Hi & _ & Hzero & _).
  apply for_each_add_line_inv in H as (Hi' & _ & _ & _ & Hall & Hget).
  rewrite Hi in *. exists idx. do 3 (split; [done|]).
  intros i j. by rewrite Hget, Hzero, Cadd_0_l.
Qed.

Lemma with_lines_node_by_node_name d lines idx idx' :
  ElectricGridIndex_init d = Ok idx →
  ElectricGridIndex_init (with_lines d lines) = Ok idx' →
  node_by_node_name idx' = node_by_node_name idx.
Proof.
  intros H H'.
  destruct (Index_init_inv _ _ H) as (n & ? & Hn & _ & _ & _ & _ & _ & -> & _).
  destruct (Index_init_inv _ _ H') as (n' & ? & Hn' & _ & _ & _ & _ & _ & -> & _).
  change (nodes_frame (with_lines d lines)) with (nodes_frame d) in Hn'.
  rewrite Hn in Hn'. by injection Hn' as <-.
Qed.

(** A line that the construction accepted among others is accepted as the
    only line, and then the nodal admittance matrix holds its
    contribution. *)
Lemma built_alone d idx line :
  boolean_nodes d → boolean_branches d →
  ElectricGridIndex_init d = Ok idx →
  line ∈ electric_grid_lines d →
  is_Ok (line_admittance_matrices (electric_grid_line_types_matrices d) line) = true →
  is_Ok (dict_get (node_by_node_name idx) (node_1_name line)) = true →
  is_Ok (dict_get (node_by_node_name idx) (node_2_name line)) = true →
  ∃ model, ElectricGridModel_init (with_lines d [line]) = Ok model
    ∧ ∀ i j, dok_get (node_admittance_matrix model) i j
             = line_entry (electric_grid_line_types_matrices d)
                          (node_by_node_name idx) line i j.
Proof.
  intros Hn Hb Hidx Hin Hy H1 H2.
  assert (boolean_branches (with_lines d [line])) as Hb'.
  { destruct Hb as [Hl Ht]. split; [|done]. simpl.
    unfold boolean_rows in *. rewrite list.Forall_forall in Hl.
    constructor; [auto | constructor]. }
  assert (electric_grids d ≠ []) as Hs.
  { destruct (Index_init_inv _ _ Hidx) as (? & ? & Hf & _).
    unfold nodes_frame in Hf. bind_inv Hf. bind_inv Hf.
    destruct (electric_grids d); [discriminate | done]. }
  destruct (Index_init_total (with_lines d [line])) as [idx' Hidx']; [done..|].
  pose proof (with_lines_node_by_node_name _ _ _ _ Hidx Hidx') as Hsame.
  destruct (Model_init_total_with (with_lines d [line]) idx') as [model Hm];
    [done | done | done | | ].
  { simpl. constructor; [|constructor]. by rewrite Hsame. }
  exists model. split; [done|].
  apply Model_init_inv in Hm as (idx'' & Hidx'' & _ & _ & Hget).
  rewrite Hidx' in Hidx''. injection Hidx'' as <-.
  intros i j. rewrite Hget. simpl. by rewrite Hsame, Cadd_0_r.
Qed.

(** C3. A sub-matrix insertion adds to what each entry held. Every entry
    of the nodal admittance matrix is the sum, over the lines of the grid,
    of the entry that the line gives when the grid is built with it alone;
    each such build succeeds. For two lines, parallel or not, the entry is
    the sum of the two. *)
Theorem node_admittance_adds_line_contributions (d : ElectricGridData)
    (model : ElectricGridModel) :
  boolean_nodes d → boolean_branches d →
  ElectricGridModel_init d = Ok model →
  (∀ (m m' : dok_matrix Cx) sub_matrix row_indexes col_indexes,
     insert_sub_matrix m sub_matrix row_indexes col_indexes = Ok m' →
     ∀ i j, dok_get m' i j
            = Cadd (dok_get m i j)
                   (sub_matrix_contribution sub_matrix row_indexes col_indexes i j))
  ∧ (∀ line, line ∈ electric_grid_lines d →
       is_Ok (ElectricGridModel_init (with_lines d [line])) = true)
  ∧ (∀ i j, dok_get (node_admittance_matrix model) i j
            = Csum (map (λ line, entry_built_alone d line i j)
                        (electric_grid_lines d)))
  ∧ (∀ line_1 line_2, electric_grid_lines d = [line_1; line_2] →
       ∃ model_1 model_2,
         ElectricGridModel_init (with_lines d [line_1]) = Ok model_1
         ∧ ElectricGridModel_init (with_lines d [line_2]) = Ok model_2
         ∧ ∀ i j, dok_get (node_admittance_matrix model) i j
                  = Cadd (dok_get (node_admittance_matrix model_1) i j)
                         (dok_get (node_admittance_matrix model_2) i j)).
Proof.
  intros Hn Hb Hm.
  apply Model_init_inv in Hm as (idx & Hidx & _ & Hall & Hget).
  rewrite list.Forall_forall in Hall.
  assert (∀ line, line ∈ electric_grid_lines d →
            ∃ model_l, ElectricGridModel_init (with_lines d [line]) = Ok model_l
              ∧ ∀ i j, dok_get (node_admittance_matrix model_l) i j
                       = line_entry (electric_grid_line_types_matrices d)
                                    (node_by_node_name idx) line i j) as Halone.
  { intros line Hin. destruct (Hall _ Hin) as (? & ? & ?).
    by apply built_alone. }
  split; [|split; [|split]].
  - intros m m' sub rows cols Hins.
    by apply insert_sub_matrix_inv in Hins as (_ & _ & Hins).
  - intros line Hin. destruct (Halone _ Hin) as (model_l & -> & _). done.
  - intros i j. rewrite Hget. f_equal. apply map_ext_in.
    intros line Hin%list_elem_of_In.
    destruct (Halone _ Hin) as (model_l & Hl & Hget_l).
    unfold entry_built_alone. by rewrite Hl, Hget_l.
  - intros line_1 line_2 Hlines.
    destruct (Halone line_1) as (model_1 & H1 & G1);
      [rewrite Hlines; by left|].
    destruct (Halone line_2) as (model_2 & H2 & G2);
      [rewrite Hlines; right; by left|].
    exists model_1, model_2. do 2 (split; [done|]).
    intros i j. rewrite Hget, Hlines, G1, G2. simpl. by rewrite Cadd_0_r.
Qed.

(** ** The transformer loop of the index *)

(** The loop over the transformer names assigns into
    [branch_by_line_name]: every key of [branch_by_transformer_name] keeps
    the [None] of [dict.fromkeys]. *)
Lemma branch_by_transformer_name_is_never_filled d idx name :
  ElectricGridIndex_init d = Ok idx →
  name ∈ transformer_names idx →
  branch_by_transformer_name idx !! name = Some PyNone.
Proof.
  intros Hidx Hin.
  destruct (Index_init_branch_inv _ _ Hidx) as (? & _ & _ & Ht & -> & _).
  rewrite Ht in Hin. by rewrite fromkeys_lookup, decide_True.
Qed.

(** C1, at a grid with one transformer "T1" on phases 1 and 3. The rows
    of the flattened branch table named "T1" of type "transformer" are at
    positions 0 and 1; the lookup [branch_by_transformer_name] maps "T1"
    to [None], and the positions are under "T1" in
    [branch_by_line_name]. *)
Theorem branch_by_transformer_name_holds_None :
  ∃ idx branches,
    ElectricGridIndex_init transformer_grid = Ok idx
    ∧ branches_frame transformer_grid = Ok branches
    ∧ "T1"%string ∈ transformer_names idx
    ∧ nonzero (λ row, String.eqb (br_branch_name row) "T1"
                      && String.eqb (br_branch_type row) "transformer") branches
      = [0; 1]%nat
    ∧ branch_by_transformer_name idx !! "T1"%string = Some PyNone
    ∧ branch_by_line_name idx !! "T1"%string = Some (PyList [0; 1]%nat).
Proof.
  eexists _, _. split; [vm_compute; reflexivity|].
  split; [vm_compute; reflexivity|].
  split; [by left|].
  split; [reflexivity|].
  split; vm_compute; reflexivity.
Qed.

(** ** The two-node, one-line scenario *)

(** Decides a closed equation between values with decidable equality. *)
Ltac decide_by_computation :=
  apply (bool_decide_unpack _); vm_compute; exact I.

Lemma filter_line_type_rows (type : string) (rx : list Z) :
  filter (λ row, String.eqb (ltm_line_type row) type = true) (line_type_rows type rx)
  = line_type_rows type rx.
Proof.
  unfold line_type_rows. induction rx as [|v rx IH]; [done|].
  simpl. rewrite filter_cons. simpl.
  rewrite decide_True by apply String.eqb_refl. by rewrite IH.
Qed.

Lemma line_type_rows_columns (type : string) (rx : list Z) :
  map r (line_type_rows type rx) = map Qz rx
  ∧ map x (line_type_rows type rx) = map Qz rx
  ∧ map c (line_type_rows type rx) = map (λ _, Qz 0) rx.
Proof.
  unfold line_type_rows. rewrite !map_map. simpl. auto.
Qed.

(** The element matrices depend on the names of the scenario in no way. *)
Lemma line_admittance_matrices_names (line type node_1 node_2 : string)
    (line' type' node_1' node_2' : string) (rx : list Z) (n : Z) :
  line_admittance_matrices (line_type_rows type rx)
    (three_phase_line line type node_1 node_2 n)
  = line_admittance_matrices (line_type_rows type' rx)
      (three_phase_line line' type' node_1' node_2' n).
Proof.
  unfold line_admittance_matrices. simpl line_type.
  rewrite !filter_line_type_rows.
  destruct (line_type_rows_columns type rx) as (-> & -> & ->).
  destruct (line_type_rows_columns type' rx) as (-> & -> & ->).
  reflexivity.
Qed.

(** C2, at the grid of the scenario with the entries as listed. The
    index map puts the second listed entry off the diagonal: the expanded
    matrix is [[1, 1, 0], [1, 1, 0], [0, 0, 0]], it is singular, and the
    construction raises [LinAlgError]. *)
Lemma listed_entries_give_a_singular_matrix :
  np_take (map r (electric_grid_line_types_matrices listed_entries_grid))
       (map (slice_to 3) (slice_to 3 rxc_matrix_full_index))
  = Ok [[Qz 1; Qz 1; Qz 0]; [Qz 1; Qz 1; Qz 0]; [Qz 0; Qz 0; Qz 0]]
  ∧ line_admittance_matrices
      (electric_grid_line_types_matrices listed_entries_grid)
      (three_phase_line "L1" "T" "n1" "n2" 3) = Raise LinAlgError
  ∧ ElectricGridModel_init listed_entries_grid = Raise LinAlgError.
Proof.
  split; [decide_by_computation|].
  split; vm_compute; reflexivity.
Qed.

(** Proves that the flags of a given table are boolean. *)
Ltac boolean_flags :=
  repeat first [ apply Forall_nil | apply Forall_cons | split
               | (left; reflexivity) | (right; reflexivity) ].

Lemma two_node_grid_boolean (node_1 node_2 line type : string) (rx : list Z) :
  boolean_nodes (two_node_grid node_1 node_2 line type rx)
  ∧ boolean_branches (two_node_grid node_1 node_2 line type rx).
Proof.
  unfold boolean_nodes, boolean_branches, boolean_rows, boolean. simpl.
  boolean_flags.
Qed.

Lemma two_node_grid_positions (node_1 node_2 line type : string) (rx : list Z) idx :
  node_1 ≠ node_2 →
  ElectricGridIndex_init (two_node_grid node_1 node_2 line type rx) = Ok idx →
  dict_get (node_by_node_name idx) node_1 = Ok [0; 2; 4]%nat
  ∧ dict_get (node_by_node_name idx) node_2 = Ok [1; 3; 5]%nat.
Proof.
  intros Hne Hidx.
  destruct (Index_init_inv _ _ Hidx) as (nodes & ? & Hn & _ & _ & _ & _ & _ & -> & _).
  assert ((node_1 =? node_2)%string = false) as E12 by by apply String.eqb_neq.
  assert ((node_2 =? node_1)%string = false) as E21
    by (apply String.eqb_neq; congruence).
  unfold nodes_frame in Hn. simpl in Hn. injection Hn as <-.
  unfold dict_get. rewrite !fill_fromkeys_lookup. simpl.
  rewrite !decide_True by (rewrite !elem_of_cons; auto).
  unfold nonzero. simpl. rewrite !String.eqb_refl, E12, E21. done.
Qed.

(** C2, with the diagonal entries where the index map reads them. For two
    three-phase nodes joined by one three-phase line of length 1 whose
    line type has r = x = [1, 0, 1, 0, 0, 1] and c = 0: Y11 = Y22 is the
    3×3 matrix diag(0.5 - 0.5j), Y12 = Y21 is diag(-0.5 + 0.5j), and the
    nodal admittance matrix holds Y11 at (node 1, node 1), Y12 at
    (node 1, node 2), Y21 at (node 2, node 1) and Y22 at (node 2, node 2),
    the positions of node 1 being 0, 2, 4 and those of node 2 being
    1, 3, 5. *)
Theorem two_node_line_blocks (node_1 node_2 line type : string) :
  node_1 ≠ node_2 →
  let d := two_node_grid node_1 node_2 line type diagonal_entries in
  let y_11 := diag3 (mkCx (Q2Qc (1 # 2)) (Q2Qc (-1 # 2))) in
  let y_12 := diag3 (mkCx (Q2Qc (-1 # 2)) (Q2Qc (1 # 2))) in
  ∃ y model,
    line_admittance_matrices (electric_grid_line_types_matrices d)
      (three_phase_line line type node_1 node_2 3) = Ok y
    ∧ admittance_matrix_11 y = y_11 ∧ admittance_matrix_22 y = y_11
    ∧ admittance_matrix_12 y = y_12 ∧ admittance_matrix_21 y = y_12
    ∧ ElectricGridModel_init d = Ok model
    ∧ dict_get (node_by_node_name (index model)) node_1 = Ok [0; 2; 4]%nat
    ∧ dict_get (node_by_node_name (index model)) node_2 = Ok [1; 3; 5]%nat
    ∧ (∀ i j, dok_get (node_admittance_matrix model) i j
              = line_contribution y [0; 2; 4]%nat [1; 3; 5]%nat i j)
    ∧ (∀ a b, (a < 3)%nat → (b < 3)%nat →
         Some (dok_get (node_admittance_matrix model) (2 * a) (2 * b))
         = entry y_11 a b
         ∧ Some (dok_get (node_admittance_matrix model) (2 * a) (2 * b + 1))
           = entry y_12 a b
         ∧ Some (dok_get (node_admittance_matrix model) (2 * a + 1) (2 * b))
           = entry y_12 a b
         ∧ Some (dok_get (node_admittance_matrix model) (2 * a + 1) (2 * b + 1))
           = entry y_11 a b).
Proof.
  intros Hne d y_11 y_12.
  set (y := {| admittance_matrix_11 := y_11; admittance_matrix_12 := y_12;
               admittance_matrix_21 := y_12; admittance_matrix_22 := y_11 |}).
  assert (line_admittance_matrices (electric_grid_line_types_matrices d)
            (three_phase_line line type node_1 node_2 3) = Ok y) as Hy.
  { change (electric_grid_line_types_matrices d)
      with (line_type_rows type diagonal_entries).
    rewrite (line_admittance_matrices_names line type node_1 node_2
               "L1" "T" "n1" "n2").
    decide_by_computation. }
  destruct (two_node_grid_boolean node_1 node_2 line type diagonal_entries)
    as [Hbn Hbb].
  destruct (Index_init_total d) as [idx Hidx]; [done | done | done |].
  destruct (two_node_grid_positions _ _ _ _ _ _ Hne Hidx) as [Hp1 Hp2].
  destruct (Model_init_total_with d idx) as [model Hm]; [done | done | done | |].
  { constructor; [|constructor]. simpl node_1_name. simpl node_2_name.
    by rewrite Hy, Hp1, Hp2. }
  destruct (Model_init_inv _ _ Hm) as (idx' & Hidx' & Hi & _ & Hget).
  rewrite Hidx in Hidx'. injection Hidx' as <-.
  assert (∀ i j, dok_get (node_admittance_matrix model) i j
                 = line_contribution y [0; 2; 4]%nat [1; 3; 5]%nat i j) as Hget'.
  { intros i j. rewrite Hget.
    change (electric_grid_lines d)
      with [three_phase_line line type node_1 node_2 3].
    cbn [map]. unfold line_entry.
    change (node_1_name (three_phase_line line type node_1 node_2 3)) with node_1.
    change (node_2_name (three_phase_line line type node_1 node_2 3)) with node_2.
    by rewrite Hy, Hp1, Hp2, Csum_cons, Cadd_0_r. }
  exists y, model. rewrite Hi. do 8 (split; [done|]). split; [done|].
  intros a b Ha Hb.
  destruct a as [|[|[|a]]]; [| | |lia]; destruct b as [|[|[|b]]]; try lia;
    rewrite !Hget'; repeat split; decide_by_computation.
Qed.

(** ** A line type that is not in the table *)

Lemma slice_stop_positive (n : Z) :
  1 ≤ n ∨ -3 < n < 0 → ∃ k, slice_stop 3 n = S k.
Proof.
  intros Hn. unfold slice_stop.
  destruct (Z.ltb_spec n 0).
  - exists (Z.to_nat (3 + n - 1)). simpl Z.of_nat. lia.
  - exists (Z.to_nat (Z.min n 3 - 1)). simpl Z.of_nat. lia.
Qed.

Lemma unknown_line_type_IndexError
    (line_types_matrices : list line_type_matrix_record) (line : line_record) :
  filter (λ row, String.eqb (ltm_line_type row) (line_type line) = true)
         line_types_matrices = [] →
  1 ≤ n_phases line ∨ -3 < n_phases line < 0 →
  line_admittance_matrices line_types_matrices line = Raise (IndexError 0 0).
Proof.
  intros Hfilter Hn. unfold line_admittance_matrices. rewrite Hfilter.
  destruct (slice_stop_positive _ Hn) as [k Hk].
  unfold slice_to, rxc_matrix_full_index. simpl length. rewrite Hk. simpl.
  rewrite Hk. reflexivity.
Qed.

(** C9, as the code has it. A line whose type is in no row of the line
    type table, and whose [n_phases] selects a non-empty block of the
    index map, makes NumPy's indexing raise [IndexError] for index 0 and
    size 0 when the loop reaches it; the exception names no element. The
    construction of a grid with such a line never returns a model. *)
Theorem unknown_line_type_raises_IndexError (d : ElectricGridData)
    (line : line_record) :
  filter (λ row, String.eqb (ltm_line_type row) (line_type line) = true)
         (electric_grid_line_types_matrices d) = [] →
  1 ≤ n_phases line ∨ -3 < n_phases line < 0 →
  line_admittance_matrices (electric_grid_line_types_matrices d) line
  = Raise (IndexError 0 0)
  ∧ (∀ self, add_line d self line = Raise (IndexError 0 0))
  ∧ exn_name (IndexError 0 0) = None
  ∧ (line ∈ electric_grid_lines d → ∃ e, ElectricGridModel_init d = Raise e)
  ∧ (∀ before after idx self self',
       electric_grid_lines d = before ++ line :: after →
       ElectricGridIndex_init d = Ok idx →
       allocate idx = Ok self →
       for_each (add_line d) self before = Ok self' →
       ElectricGridModel_init d = Raise (IndexError 0 0)).
Proof.
  intros Hfilter Hn.
  pose proof (unknown_line_type_IndexError _ _ Hfilter Hn) as Hy.
  assert (∀ self, add_line d self line = Raise (IndexError 0 0)) as Hadd.
  { intros self. unfold add_line. by rewrite Hy. }
  do 3 (split; [done|]). split.
  - intros Hin. destruct (ElectricGridModel_init d) as [model|e] eqn:Hm; [|eauto].
    apply Model_init_inv in Hm as (idx & _ & _ & Hall & _).
    rewrite list.Forall_forall in Hall. destruct (Hall _ Hin) as [Hok _].
    rewrite Hy in Hok. discriminate.
  - intros before after idx self self' Hlines Hidx Hself Hbefore.
    unfold ElectricGridModel_init. rewrite Hidx. simpl. rewrite Hself. simpl.
    rewrite Hlines, for_each_app, Hbefore. simpl. by rewrite Hadd.
Qed.

(** ** Rows without a line *)

Section Contributions.

Context `{DtypeLaws A}.

Lemma row_contribution_other_row (row : nat) (cols : list nat) (values : list A)
    (i j : nat) :
  row ≠ i → row_contribution row cols values i j = dzero.
Proof.
  intros Hne. revert values.
  induction cols as [|col cols IH]; intros [|v values]; simpl; try done.
  rewrite decide_False by congruence. by rewrite IH, dadd_0_l.
Qed.

Lemma row_contribution_other_col (row : nat) (cols : list nat) (values : list A)
    (i j : nat) :
  j ∉ cols → row_contribution row cols values i j = dzero.
Proof.
  revert values. induction cols as [|col cols IH]; intros [|v values] Hj;
    simpl; try done.
  apply not_elem_of_cons in Hj as [Hne Hj].
  rewrite decide_False by congruence. by rewrite IH, dadd_0_l.
Qed.

Lemma sub_matrix_contribution_other_row (sub : matrix A) (rows cols : list nat)
    (i j : nat) :
  i ∉ rows → sub_matrix_contribution sub rows cols i j = dzero.
Proof.
  revert sub. induction rows as [|row rows IH]; intros [|sub_row sub] Hi;
    simpl; try done.
  apply not_elem_of_cons in Hi as [Hne Hi].
  rewrite row_contribution_other_row by congruence.
  by rewrite IH, dadd_0_l.
Qed.

Lemma sub_matrix_contribution_other_col (sub : matrix A) (rows cols : list nat)
    (i j : nat) :
  j ∉ cols → sub_matrix_contribution sub rows cols i j = dzero.
Proof.
  intros Hj. revert sub. induction rows as [|row rows IH]; intros [|sub_row sub];
    simpl; try done.
  rewrite row_contribution_other_col by done. by rewrite IH, dadd_0_l.
Qed.

End Contributions.

(** The positions under a name in a dictionary; none for a missing key. *)
Lemma line_entry_other_row line_types_matrices
    (node_by_node_name : gmap string pyval) (line : line_record) (i j : nat) :
  (∀ positions, dict_get node_by_node_name (node_1_name line) = Ok positions →
                i ∉ positions) →
  (∀ positions, dict_get node_by_node_name (node_2_name line) = Ok positions →
                i ∉ positions) →
  line_entry line_types_matrices node_by_node_name line i j = Czero.
Proof.
  intros H1 H2. unfold line_entry.
  destruct (line_admittance_matrices _ _) as [y|]; [|done].
  destruct (dict_get _ (node_1_name line)) as [p1|]; [|done].
  destruct (dict_get _ (node_2_name line)) as [p2|]; [|done].
  unfold line_contribution.
  rewrite !sub_matrix_contribution_other_row by auto.
  by rewrite !Cadd_0_l.
Qed.

Lemma Csum_zero (l : list Cx) : Forall (λ v, v = Czero) l → Csum l = Czero.
Proof.
  induction 1 as [|v l -> _ IH]; [done|]. by rewrite Csum_cons, IH, Cadd_0_l.
Qed.

(** The construction writes the rows of the end nodes of the lines, and
    no other row. *)
Lemma rows_off_the_lines_are_zero d model (row : nat) :
  ElectricGridModel_init d = Ok model →
  (∀ line positions, line ∈ electric_grid_lines d →
     dict_get (node_by_node_name (index model)) (node_1_name line) = Ok positions
     ∨ dict_get (node_by_node_name (index model)) (node_2_name line) = Ok positions →
     row ∉ positions) →
  zero_row (node_admittance_matrix model) row.
Proof.
  intros Hm Hrow col.
  apply Model_init_inv in Hm as (idx & _ & <- & _ & Hget).
  rewrite Hget. apply Csum_zero. apply Forall_map, list.Forall_forall.
  intros line Hin. apply line_entry_other_row; eauto.
Qed.

Lemma transformer_grid_boolean :
  boolean_nodes transformer_grid ∧ boolean_branches transformer_grid.
Proof.
  unfold boolean_nodes, boolean_branches, boolean_rows. simpl.
  split; [|split]; boolean_flags.
Qed.

(** ** Rows of the end nodes of a line *)

Lemma Q_sum_squares (a b : Q) : (a * a + b * b == 0 → a == 0 ∧ b == 0)%Q.
Proof. intros H. split; nra. Qed.

Lemma Qc_sum_squares (a b : Qc) :
  (a * a + b * b)%Qc = Q2Qc 0 → a = Q2Qc 0 ∧ b = Q2Qc 0.
Proof.
  intros H.
  assert (this (a * a + b * b)%Qc == 0)%Q as HQ by (rewrite H; reflexivity).
  unfold Qcplus, Qcmult, Q2Qc in HQ. cbn [this] in HQ.
  rewrite !Qred_correct in HQ.
  apply Q_sum_squares in HQ as [Ha Hb].
  split; apply Qc_is_canon; simpl; assumption.
Qed.

Lemma Cx_ring_theory : ring_theory Czero Cone Cadd Cmul Csub Copp eq.
Proof.
  split; intros; unfold Csub, Cadd, Cmul, Copp, Czero, Cone;
    repeat match goal with a : Cx |- _ => destruct a end; simpl;
    try reflexivity; f_equal; ring.
Qed.

Add Ring Cx_ring : Cx_ring_theory.

Lemma Cnorm2_nonzero (d : Cx) : d ≠ Czero → Cnorm2 d ≠ Q2Qc 0.
Proof.
  destruct d as [a b]. unfold Cnorm2, Czero. simpl. intros Hd Hn.
  apply Qc_sum_squares in Hn as [-> ->]. done.
Qed.

Lemma Cmul_Cinv (d : Cx) : d ≠ Czero → Cmul d (Cinv d) = Cone.
Proof.
  intros Hd. pose proof (Cnorm2_nonzero d Hd) as Hn.
  destruct d as [a b]. unfold Cmul, Cinv, Cone, Cnorm2 in *. simpl in *.
  f_equal; field; exact Hn.
Qed.

Lemma Czero_ne_Cone : Czero ≠ Cone.
Proof. intros H. apply (f_equal (λ v, this (re v))) in H. discriminate. Qed.

Lemma Csum_zero_products (ya col : list Cx) :
  Forall (λ v, v = Czero) ya → Csum (zip_with Cmul ya col) = Czero.
Proof.
  intros Hz. revert col. induction Hz as [|v ya -> _ IH]; intros [|w col];
    simpl; try done.
  rewrite IH. unfold Csum. simpl. ring.
Qed.

(** A row whose products with some column sum to one has a non-zero
    entry. *)
Lemma row_with_unit_product (ya col : list Cx) :
  Csum (zip_with Cmul ya col) = Cone → ∃ b v, ya !! b = Some v ∧ v ≠ Czero.
Proof.
  intros Hone.
  destruct (decide (Forall (λ v, v = Czero) ya)) as [Hz|Hnz].
  - exfalso. apply Czero_ne_Cone. by rewrite <- Hone, Csum_zero_products.
  - apply not_Forall_Exists in Hnz; [|apply _].
    apply list.Exists_exists in Hnz as (v & Hin & Hv).
    apply list_elem_of_lookup in Hin as [b Hb]. eauto.
Qed.

Lemma inv_rows_nonzero (m ys : matrix Cx) (k : nat) :
  square k m → (k ≤ 3)%nat → inv m = Ok ys →
  ∀ a, (a < k)%nat → ∃ b v, (b < k)%nat ∧ entry ys a b = Some v ∧ v ≠ Czero.
Proof.
  intros [Hlen Hrows] Hk Hinv a Ha.
  unfold inv in Hinv. rewrite Hlen in Hinv.
  destruct (decide (det m = Czero)) as [|Hd]; [discriminate|].
  injection Hinv as <-.
  pose proof (Cmul_Cinv _ Hd) as Hone.
  set (i := Cinv (det m)) in *.
  assert (∀ ys ya col, ys !! a = Some ya → length ya = k →
            Csum (zip_with Cmul ya col) = Cmul (det m) i →
            ∃ b v, (b < k)%nat ∧ entry ys a b = Some v ∧ v ≠ Czero) as Hrow.
  { intros ys ya col Hya Hlen_ya Hid. rewrite Hone in Hid.
    destruct (row_with_unit_product _ _ Hid) as (b & v & Hb & Hv).
    exists b, v. split; [|split; [|done]].
    - rewrite <- Hlen_ya. by eapply lookup_lt_Some.
    - unfold entry. by rewrite Hya. }
  destruct k as [|[|[|[|k]]]]; try lia.
  - destruct m as [|r0 [|]]; try discriminate Hlen.
    apply Forall_cons_1 in Hrows as [H0 _].
    destruct r0 as [|m00 [|]]; try discriminate H0.
    destruct a as [|a]; [|lia].
    eapply (Hrow _ _ [m00]); [reflexivity | reflexivity |].
    unfold det, minor. cbn. ring.
  - destruct m as [|r0 [|r1 [|]]]; try discriminate Hlen.
    apply Forall_cons_1 in Hrows as [H0 Hrows].
    apply Forall_cons_1 in Hrows as [H1 _].
    destruct r0 as [|m00 [|m01 [|]]]; try discriminate H0.
    destruct r1 as [|m10 [|m11 [|]]]; try discriminate H1.
    destruct a as [|[|a]]; [| |lia].
    + eapply (Hrow _ _ [m00; m10]); [reflexivity | reflexivity |].
      unfold det, minor. cbn. ring.
    + eapply (Hrow _ _ [m01; m11]); [reflexivity | reflexivity |].
      unfold det, minor. cbn. ring.
  - destruct m as [|r0 [|r1 [|r2 [|]]]]; try discriminate Hlen.
    apply Forall_cons_1 in Hrows as [H0 Hrows].
    apply Forall_cons_1 in Hrows as [H1 Hrows].
    apply Forall_cons_1 in Hrows as [H2 _].
    destruct r0 as [|m00 [|m01 [|m02 [|]]]]; try discriminate H0.
    destruct r1 as [|m10 [|m11 [|m12 [|]]]]; try discriminate H1.
    destruct r2 as [|m20 [|m21 [|m22 [|]]]]; try discriminate H2.
    destruct a as [|[|[|a]]]; [| | |lia].
    + eapply (Hrow _ _ [m00; m10; m20]); [reflexivity | reflexivity |].
      unfold det, minor. cbn. ring.
    + eapply (Hrow _ _ [m01; m11; m21]); [reflexivity | reflexivity |].
      unfold det, minor. cbn. ring.
    + eapply (Hrow _ _ [m02; m12; m22]); [reflexivity | reflexivity |].
      unfold det, minor. cbn. ring.
Qed.

(** *** The shape of the element matrices *)

Lemma np_take_row_length {A} (a : list A) (ix : list nat) (row : list A) :
  np_take_row a ix = Ok row → length row = length ix.
Proof.
  revert row. induction ix as [|i ix IH]; intros row H; simpl in H.
  - by injection H as <-.
  - bind_inv H. bind_inv H. injection H as <-. simpl. f_equal. by apply IH.
Qed.

Lemma np_take_shape {A} (a : list A) (ix : matrix nat) (m : matrix A) (cols : nat) :
  Forall (λ row, length row = cols) ix → np_take a ix = Ok m →
  length m = length ix ∧ Forall (λ row, length row = cols) m.
Proof.
  intros Hrows. revert m.
  induction Hrows as [|r ix Hr _ IH]; intros m H; simpl in H.
  - injection H as <-. split; [done | constructor].
  - apply bind_Ok in H as (row & Hrow & H).
    apply bind_Ok in H as (m' & Hm' & H). injection H as <-.
    destruct (IH m' Hm') as [Hl Hf].
    split; [simpl; lia|].
    constructor; [by rewrite (np_take_row_length _ _ _ Hrow)|done].
Qed.

Lemma np_take_square {A} (a : list A) (ix : matrix nat) (m : matrix A) (k : nat) :
  square k ix → np_take a ix = Ok m → square k m.
Proof.
  intros [Hlen Hrows] H. destruct (np_take_shape _ _ _ _ Hrows H) as [Hl Hf].
  split; [lia | done].
Qed.

Lemma slice_stop_le (len : nat) (n : Z) : (slice_stop len n ≤ len)%nat.
Proof. unfold slice_stop. destruct (Z.ltb_spec n 0); lia. Qed.

(** The block of the index map selected by [n_phases]. *)
Lemma sliced_index_square (n : Z) :
  square (slice_stop 3 n) (map (slice_to n) (slice_to n rxc_matrix_full_index)).
Proof.
  pose proof (slice_stop_le 3 n) as Hle.
  unfold slice_to. simpl length. unfold square.
  rewrite length_map, length_take. simpl length.
  split; [lia|].
  apply Forall_map, list.Forall_forall. intros row Hin.
  apply elem_of_take in Hin as (i & Hrow & _).
  assert (length row = 3%nat) as Hlen.
  { destruct i as [|[|[|i]]]; simpl in Hrow; try discriminate;
      by injection Hrow as <-. }
  cbv beta. rewrite length_take, Hlen. lia.
Qed.

Lemma mat_map_square {A B} (f : A → B) (m : matrix A) (k : nat) :
  square k m → square k (mat_map f m).
Proof.
  intros [Hlen Hrows]. unfold mat_map. split; [by rewrite length_map|].
  apply Forall_map. eapply Forall_impl; [|exact Hrows].
  intros row Hrow. simpl. by rewrite length_map.
Qed.

Lemma mat_zip_square {A B C} (f : A → B → C) (m1 : matrix A) (m2 : matrix B)
    (k : nat) :
  square k m1 → square k m2 → square k (mat_zip f m1 m2).
Proof.
  intros [Hl1 Hr1] [Hl2 Hr2]. unfold mat_zip.
  split; [rewrite length_zip_with; lia|].
  clear Hl1 Hl2. revert m2 Hr2.
  induction Hr1 as [|r1 m1 H1 _ IH]; intros m2 Hr2; [constructor|].
  destruct Hr2 as [|r2 m2 H2 Hr2]; [constructor|].
  simpl. constructor; [rewrite length_zip_with; lia | by apply IH].
Qed.

Lemma lookup_map {A B} (f : A → B) (l : list A) (i : nat) :
  map f l !! i = f <$> l !! i.
Proof.
  revert i. induction l as [|a l IH]; intros [|i]; simpl; try done.
Qed.

Lemma entry_mat_map {A B} (f : A → B) (m : list (list A)) (a b : nat) :
  entry (mat_map f m) a b = f <$> entry m a b.
Proof.
  unfold entry, mat_map. rewrite lookup_map.
  destruct (m !! a) as [row|]; simpl; [|done].
  by rewrite lookup_map.
Qed.

Lemma Copp_nonzero (v : Cx) : v ≠ Czero → Copp v ≠ Czero.
Proof.
  intros Hv Hz. apply Hv. transitivity (Copp (Copp v)); [ring|].
  rewrite Hz. ring.
Qed.

(** The off-diagonal element matrices of a line have the size selected by
    [n_phases], and no row of them is zero. *)
Lemma line_admittance_matrices_rows line_types_matrices line y :
  line_admittance_matrices line_types_matrices line = Ok y →
  admittance_matrix_21 y = admittance_matrix_12 y
  ∧ ∀ a, (a < slice_stop 3 (n_phases line))%nat →
      ∃ b v, (b < slice_stop 3 (n_phases line))%nat
        ∧ entry (admittance_matrix_12 y) a b = Some v ∧ v ≠ Czero.
Proof.
  unfold line_admittance_matrices. intros H.
  apply bind_Ok in H as (rm & Hrm & H).
  apply bind_Ok in H as (xm & Hxm & H).
  apply bind_Ok in H as (cm & Hcm & H).
  apply bind_Ok in H as (ys & Hys & H). injection H as <-. simpl.
  split; [done|]. intros a Ha.
  pose proof (sliced_index_square (n_phases line)) as Hsq.
  pose proof (np_take_square _ _ _ _ Hsq Hrm) as Hr.
  pose proof (np_take_square _ _ _ _ Hsq Hxm) as Hx.
  destruct (inv_rows_nonzero _ _ _
              (mat_map_square (Cscale (length_ line)) _ _
                 (mat_zip_square mkCx _ _ _ Hr Hx))
              (slice_stop_le 3 _) Hys a Ha) as (b & v & Hb & Hv & Hnz).
  exists b, (Copp v). split; [done|].
  rewrite entry_mat_map, Hv. split; [done | by apply Copp_nonzero].
Qed.

(** *** The entry at a pair of positions *)

Section At.

Context `{DtypeLaws A}.

Lemma row_contribution_at (cols : list nat) (values : list A)
    (b i j : nat) (v : A) :
  NoDup cols → cols !! b = Some j → values !! b = Some v →
  row_contribution i cols values i j = v.
Proof.
  intros Hnd. revert values b.
  induction Hnd as [|col cols Hcol Hnd IH]; intros [|w values] [|b] Hj Hv;
    simpl in *; try discriminate.
  - injection Hj as ->. injection Hv as ->.
    rewrite decide_True by done.
    by rewrite row_contribution_other_col, dadd_0_r.
  - assert (col ≠ j) as Hne.
    { intros ->. apply Hcol. by eapply list_elem_of_lookup_2. }
    rewrite decide_False by congruence.
    rewrite dadd_0_l. by eapply IH.
Qed.

Lemma sub_matrix_contribution_at (sub : list (list A)) (rows cols : list nat)
    (a b i j : nat) (v : A) :
  NoDup rows → NoDup cols →
  rows !! a = Some i → cols !! b = Some j → entry sub a b = Some v →
  sub_matrix_contribution sub rows cols i j = v.
Proof.
  intros Hnd Hndc. revert sub a.
  induction Hnd as [|row rows Hrow Hnd IH]; intros [|sub_row sub] [|a] Hi Hj Hv;
    simpl in *; try discriminate.
  - injection Hi as ->. unfold entry in Hv. simpl in Hv.
    rewrite (row_contribution_at cols sub_row b i j v) by done.
    by rewrite sub_matrix_contribution_other_row, dadd_0_r.
  - assert (row ≠ i) as Hne.
    { intros ->. apply Hrow. by eapply list_elem_of_lookup_2. }
    rewrite row_contribution_other_row by done.
    rewrite dadd_0_l. by eapply IH.
Qed.

End At.

Lemma nonzero_from_ge {A} (p : A → bool) (i : nat) (l : list A) (pos : nat) :
  pos ∈ nonzero_from p i l → (i ≤ pos)%nat.
Proof. by intros (a & Hle & _)%nonzero_from_spec. Qed.

Lemma nonzero_from_NoDup {A} (p : A → bool) (i : nat) (l : list A) :
  NoDup (nonzero_from p i l).
Proof.
  revert i. induction l as [|a l IH]; intros i; simpl; [constructor|].
  destruct (p a); [|apply IH].
  constructor; [|apply IH].
  intros Hin%nonzero_from_ge. lia.
Qed.

(** The positions of two different names are disjoint. *)
Lemma node_positions_disjoint (nodes : list node_row) (name_1 name_2 : string)
    (pos : nat) :
  pos ∈ nonzero (λ row, String.eqb (nr_node_name row) name_1) nodes →
  pos ∈ nonzero (λ row, String.eqb (nr_node_name row) name_2) nodes →
  name_1 = name_2.
Proof.
  intros (row1 & Hr1 & H1%String.eqb_eq)%nonzero_spec
         (row2 & Hr2 & H2%String.eqb_eq)%nonzero_spec.
  congruence.
Qed.

(** The position lists of [node_by_node_name] are those of the frame
    [nodes]. *)
Lemma node_by_node_name_positions d idx :
  ElectricGridIndex_init d = Ok idx →
  ∃ nodes, ∀ name positions,
    dict_get (node_by_node_name idx) name = Ok positions →
    positions = nonzero (λ row, String.eqb (nr_node_name row) name) nodes.
Proof.
  intros Hidx.
  destruct (Index_init_inv _ _ Hidx) as (nodes & ? & _ & _ & _ & _ & _ & _ & -> & _).
  exists nodes. intros name positions. unfold dict_get.
  rewrite fill_fromkeys_lookup. case_decide; [|discriminate]. by intros [= <-].
Qed.

Lemma sub_matrix_contribution_off `{DtypeLaws A} (sub : matrix A)
    (rows cols : list nat) (i j : nat) :
  ¬ (i ∈ rows ∧ j ∈ cols) → sub_matrix_contribution sub rows cols i j = dzero.
Proof.
  intros Hoff. destruct (decide (i ∈ rows)) as [Hi|Hi].
  - apply sub_matrix_contribution_other_col. tauto.
  - by apply sub_matrix_contribution_other_row.
Qed.

(** A line that does not join the two nodes adds nothing to an entry
    whose row is a position of the one and whose column is a position of
    the other. *)
Lemma line_entry_other_pair line_types_matrices
    (node_by_node_name : gmap string pyval) (nodes : list node_row)
    (other : line_record) (name_1 name_2 : string) (i j : nat) :
  (∀ name positions, dict_get node_by_node_name name = Ok positions →
     positions = nonzero (λ row, String.eqb (nr_node_name row) name) nodes) →
  name_1 ≠ name_2 → ¬ joins other name_1 name_2 →
  i ∈ nonzero (λ row, String.eqb (nr_node_name row) name_1) nodes →
  j ∈ nonzero (λ row, String.eqb (nr_node_name row) name_2) nodes →
  line_entry line_types_matrices node_by_node_name other i j = Czero.
Proof.
  intros Hpos Hne Hjoin Hi Hj. unfold line_entry.
  destruct (line_admittance_matrices _ _) as [y|]; [|done].
  destruct (dict_get _ (node_1_name other)) as [p1|] eqn:Hp1; [|done].
  destruct (dict_get _ (node_2_name other)) as [p2|] eqn:Hp2; [|done].
  apply Hpos in Hp1, Hp2. subst p1 p2.
  unfold line_contribution, joins in *.
  rewrite !(sub_matrix_contribution_off (A := Cx)); [by rewrite !Cadd_0_l|..];
    intros [Hi' Hj'];
    pose proof (node_positions_disjoint _ _ _ _ Hi Hi');
    pose proof (node_positions_disjoint _ _ _ _ Hj Hj');
    subst; tauto.
Qed.

Lemma Csum_app (l k : list Cx) : Csum (l ++ k) = Cadd (Csum l) (Csum k).
Proof.
  induction l as [|v l IH].
  - simpl. by rewrite Cadd_0_l.
  - change (Csum ((v :: l) ++ k)) with (Cadd v (Csum (l ++ k))).
    rewrite IH, Csum_cons. apply Cadd_assoc.
Qed.

Lemma Csum_only {B} (f : B → Cx) (before after : list B) (b : B) :
  (∀ other, other ∈ before ++ after → f other = Czero) →
  Csum (map f (before ++ b :: after)) = f b.
Proof.
  intros Hz. rewrite map_app, Csum_app, map_cons, Csum_cons.
  rewrite !Csum_zero.
  - by rewrite Cadd_0_l, Cadd_0_r.
  - apply Forall_map, list.Forall_forall. intros o Ho. apply Hz.
    apply elem_of_app. by right.
  - apply Forall_map, list.Forall_forall. intros o Ho. apply Hz.
    apply elem_of_app. by left.
Qed.

Lemma slice_stop_exact (n : Z) : 0 ≤ n ≤ 3 → slice_stop 3 n = Z.to_nat n.
Proof. intros Hn. unfold slice_stop. destruct (Z.ltb_spec n 0); lia. Qed.

(** C5, as the code has it. The construction accumulates lines only. A
    row at a position of no end node of any line is zero, whatever
    transformers the grid has. A row at a position of an end node of a
    line is not zero when the line joins two different nodes, no other
    line joins the same two nodes, both nodes have [n_phases] positions
    and [n_phases] is at most 3. *)
Theorem rows_of_line_ends (d : ElectricGridData) (model : ElectricGridModel) :
  ElectricGridModel_init d = Ok model →
  let positions := dict_get (node_by_node_name (index model)) in
  (∀ row,
     (∀ line p, line ∈ electric_grid_lines d →
        positions (node_1_name line) = Ok p ∨ positions (node_2_name line) = Ok p →
        row ∉ p) →
     zero_row (node_admittance_matrix model) row)
  ∧ (∀ before line after p1 p2,
       electric_grid_lines d = before ++ line :: after →
       node_1_name line ≠ node_2_name line →
       (∀ other, other ∈ before ++ after →
          ¬ joins other (node_1_name line) (node_2_name line)) →
       positions (node_1_name line) = Ok p1 →
       positions (node_2_name line) = Ok p2 →
       Z.of_nat (length p1) = n_phases line →
       Z.of_nat (length p2) = n_phases line →
       n_phases line ≤ 3 →
       ∀ row, row ∈ p1 ++ p2 →
         ∃ col, dok_get (node_admittance_matrix model) row col ≠ Czero).
Proof.
  intros Hm positions. split.
  { intros row Hrow. by eapply rows_off_the_lines_are_zero. }
  intros before line after p1 p2 Hlines Hne Hsole Hp1 Hp2 Hl1 Hl2 Hn row Hrow.
  apply Model_init_inv in Hm as (idx & Hidx & Hi & Hall & Hget).
  subst positions. rewrite Hi in *.
  destruct (node_by_node_name_positions _ _ Hidx) as (nodes & Hpos).
  rewrite list.Forall_forall in Hall.
  destruct (Hall line) as ([y Hy]%is_Ok_true & _).
  { rewrite Hlines. apply elem_of_app. right. by left. }
  destruct (line_admittance_matrices_rows _ _ _ Hy) as [H21 Hrows].
  rewrite slice_stop_exact in Hrows by lia.
  pose proof (Hpos _ _ Hp1) as E1. pose proof (Hpos _ _ Hp2) as E2.
  assert (NoDup p1) as Hnd1 by (rewrite E1; apply nonzero_from_NoDup).
  assert (NoDup p2) as Hnd2 by (rewrite E2; apply nonzero_from_NoDup).
  assert (∀ pos, pos ∈ p1 → pos ∉ p2) as Hdisj.
  { intros pos H1 H2. rewrite E1 in H1. rewrite E2 in H2.
    by pose proof (node_positions_disjoint _ _ _ _ H1 H2). }
  assert (∀ i j, i ∈ p1 → j ∈ p2 →
            dok_get (node_admittance_matrix model) i j
            = line_contribution y p1 p2 i j
            ∧ dok_get (node_admittance_matrix model) j i
              = line_contribution y p1 p2 j i) as Hentry.
  { intros i j Hin1 Hin2. rewrite !Hget, Hlines.
    rewrite !Csum_only.
    - unfold line_entry. by rewrite Hy, Hp1, Hp2.
    - intros other Hother. rewrite E1 in Hin1. rewrite E2 in Hin2.
      eapply (line_entry_other_pair _ _ nodes other
                (node_2_name line) (node_1_name line)); eauto.
      intros [[? ?]|[? ?]]; eapply Hsole; eauto; unfold joins; tauto.
    - intros other Hother. rewrite E1 in Hin1. rewrite E2 in Hin2.
      eapply line_entry_other_pair; eauto. }
  apply elem_of_app in Hrow as [Hrow|Hrow].
  - apply list_elem_of_lookup in Hrow as [a Ha].
    destruct (Hrows a) as (b & v & Hb & Hv & Hnz).
    { apply lookup_lt_Some in Ha. lia. }
    destruct (lookup_lt_is_Some_2 p2 b) as [col Hcol]; [lia|].
    exists col.
    destruct (Hentry row col) as [-> _];
      [by eapply list_elem_of_lookup_2 | by eapply list_elem_of_lookup_2 |].
    assert (row ∉ p2) as Hr2 by (apply Hdisj; by eapply list_elem_of_lookup_2).
    assert (col ∉ p1) as Hc1.
    { intros Hc. eapply Hdisj; [exact Hc|]. by eapply list_elem_of_lookup_2. }
    unfold line_contribution.
    rewrite (sub_matrix_contribution_at (A := Cx) _ p1 p2 a b row col v) by done.
    rewrite (sub_matrix_contribution_other_col (A := Cx) _ p1 p1) by done.
    rewrite !(sub_matrix_contribution_other_row (A := Cx) _ p2) by done.
    simpl. by rewrite Cadd_0_l, !Cadd_0_r.
  - apply list_elem_of_lookup in Hrow as [a Ha].
    destruct (Hrows a) as (b & v & Hb & Hv & Hnz).
    { apply lookup_lt_Some in Ha. lia. }
    destruct (lookup_lt_is_Some_2 p1 b) as [col Hcol]; [lia|].
    exists col.
    destruct (Hentry col row) as [_ ->];
      [by eapply list_elem_of_lookup_2 | by eapply list_elem_of_lookup_2 |].
    assert (row ∉ p1) as Hr1.
    { intros Hc. eapply Hdisj; [exact Hc|]. by eapply list_elem_of_lookup_2. }
    assert (col ∉ p2) as Hc2 by (apply Hdisj; by eapply list_elem_of_lookup_2).
    unfold line_contribution. rewrite H21.
    rewrite (sub_matrix_contribution_at (A := Cx) _ p2 p1 a b row col v) by done.
    rewrite !(sub_matrix_contribution_other_row (A := Cx) _ p1) by done.
    rewrite (sub_matrix_contribution_other_col (A := Cx) _ p2 p2) by done.
    simpl. by rewrite !Cadd_0_l, Cadd_0_r.
Qed.

(** ** The theorems at the example grids *)

(** ** Rows beyond the block of a line *)

(** The zip of an insertion stops at the last row of the sub-matrix: a
    position after that gets nothing. *)
Lemma sub_matrix_contribution_beyond `{DtypeLaws A} (sub : matrix A)
    (rows cols : list nat) (i j : nat) :
  i ∉ take (length sub) rows → sub_matrix_contribution sub rows cols i j = dzero.
Proof.
  revert sub. induction rows as [|row rows IH]; intros [|sub_row sub] Hi;
    simpl in *; try done.
  apply not_elem_of_cons in Hi as [Hne Hi].
  rewrite row_contribution_other_row by congruence.
  rewrite IH by done. apply dadd_0_l.
Qed.

(** The four element matrices have as many rows as [n_phases] selects. *)
Lemma line_admittance_matrices_lengths line_types_matrices line y :
  line_admittance_matrices line_types_matrices line = Ok y →
  length (admittance_matrix_11 y) = slice_stop 3 (n_phases line)
  ∧ length (admittance_matrix_12 y) = slice_stop 3 (n_phases line)
  ∧ length (admittance_matrix_21 y) = slice_stop 3 (n_phases line)
  ∧ length (admittance_matrix_22 y) = slice_stop 3 (n_phases line).
Proof.
  unfold line_admittance_matrices. intros H.
  apply bind_Ok in H as (rm & Hrm & H).
  apply bind_Ok in H as (xm & Hxm & H).
  apply bind_Ok in H as (cm & Hcm & H).
  apply bind_Ok in H as (ys & Hys & H). injection H as <-. simpl.
  pose proof (sliced_index_square (n_phases line)) as Hsq.
  pose proof (np_take_square _ _ _ _ Hsq Hrm) as [Hr _].
  pose proof (np_take_square _ _ _ _ Hsq Hxm) as [Hx _].
  pose proof (np_take_square _ _ _ _ Hsq Hcm) as [Hc _].
  assert (length ys = slice_stop 3 (n_phases line)) as Hy.
  { unfold inv in Hys. destruct (decide _); [discriminate|].
    injection Hys as <-. rewrite length_map, length_seq.
    unfold mat_map, mat_zip. rewrite length_map, length_zip_with. lia. }
  unfold mat_map, mat_zip.
  rewrite !length_zip_with, !length_map. lia.
Qed.

(** A line adds nothing to a row at a position of an end node that lies
    beyond the block that [n_phases] selects. *)
Lemma line_entry_beyond_block line_types_matrices
    (node_by_node_name : gmap string pyval) (line : line_record) (i j : nat) :
  (∀ positions, dict_get node_by_node_name (node_1_name line) = Ok positions →
                i ∉ take (slice_stop 3 (n_phases line)) positions) →
  (∀ positions, dict_get node_by_node_name (node_2_name line) = Ok positions →
                i ∉ take (slice_stop 3 (n_phases line)) positions) →
  line_entry line_types_matrices node_by_node_name line i j = Czero.
Proof.
  intros H1 H2. unfold line_entry.
  destruct (line_admittance_matrices _ _) as [y|] eqn:Hy; [|done].
  destruct (dict_get _ (node_1_name line)) as [p1|]; [|done].
  destruct (dict_get _ (node_2_name line)) as [p2|]; [|done].
  destruct (line_admittance_matrices_lengths _ _ _ Hy) as (L11 & L12 & L21 & L22).
  specialize (H1 p1 eq_refl). specialize (H2 p2 eq_refl).
  unfold line_contribution.
  rewrite !(sub_matrix_contribution_beyond (A := Cx))
    by (rewrite ?L11, ?L12, ?L21, ?L22; assumption).
  by rewrite !Cadd_0_l.
Qed.

Lemma lateral_grid_positions idx :
  ElectricGridIndex_init lateral_grid = Ok idx →
  dict_get (node_by_node_name idx) "n1" = Ok [0; 2; 4]%nat
  ∧ dict_get (node_by_node_name idx) "n2" = Ok [1; 3]%nat
  ∧ dict_get (node_by_node_name idx) "n3" = Ok [5%nat]
  ∧ nodes_phases idx !! 4%nat = Some ("n1", "3")%string
  ∧ node_dimension idx = 6.
Proof.
  intros H. vm_compute in H. injection H as <-.
  repeat split; vm_compute; reflexivity.
Qed.

(** C5, at a grid of normal input. Every connected phase of every node is
    a connected phase of a line that ends there, and [n_phases] of each
    line is the number of its connected phases. The construction
    completes and the row of phase 3 of the source node is zero: the
    1 × 1 block of the single-phase lateral is paired with the first
    position of the node, that of phase 1. *)
Lemma lateral_phase_row_is_zero :
  every_node_phase_on_a_line lateral_grid = true
  ∧ Forall (λ line, n_phases line
                    = line_phase_1 line + line_phase_2 line + line_phase_3 line)
           (electric_grid_lines lateral_grid)
  ∧ boolean_nodes lateral_grid ∧ boolean_branches lateral_grid
  ∧ ∃ model,
      ElectricGridModel_init lateral_grid = Ok model
      ∧ node_dimension (index model) = 6
      ∧ nodes_phases (index model) !! 4%nat = Some ("n1", "3")%string
      ∧ zero_row (node_admittance_matrix model) 4.
Proof.
  split; [reflexivity|].
  split; [repeat constructor|].
  split; [unfold boolean_nodes, boolean_rows; simpl; boolean_flags|].
  split; [unfold boolean_branches, boolean_rows; simpl; boolean_flags|].
  destruct (is_Ok_true (ElectricGridModel_init lateral_grid)) as [model Hm];
    [vm_compute; reflexivity|].
  exists model. split; [exact Hm|].
  destruct (Model_init_inv _ _ Hm) as (idx & Hidx & Hi & _ & Hget).
  destruct (lateral_grid_positions idx Hidx) as (P1 & P2 & P3 & Hrow & Hdim).
  rewrite Hi. split; [exact Hdim|]. split; [exact Hrow|].
  intros col. rewrite Hget. apply Csum_zero.
  apply Forall_map, list.Forall_forall. intros line Hin.
  apply line_entry_beyond_block; intros positions Hp;
    apply elem_of_cons in Hin as [->|Hin];
    [|apply list_elem_of_singleton in Hin as ->
     | |apply list_elem_of_singleton in Hin as ->];
    simpl in Hp; rewrite ?P1, ?P2, ?P3 in Hp; injection Hp as <-;
    decide_by_computation.
Qed.

Lemma example_grid_boolean :
  boolean_nodes example_grid ∧ boolean_branches example_grid.
Proof. apply two_node_grid_boolean. Qed.

Lemma with_lines_boolean d lines :
  boolean_nodes d → boolean_branches d →
  boolean_rows line_phase_1 line_phase_2 line_phase_3 lines →
  boolean_nodes (with_lines d lines) ∧ boolean_branches (with_lines d lines).
Proof. intros Hn [_ Ht] Hl. by repeat split. Qed.

Lemma node_dimension_counts_node_phases_witness :
  boolean_nodes example_grid ∧ boolean_branches example_grid
  ∧ electric_grids example_grid ≠ []
  ∧ sum_Z (map node_phase_count (electric_grid_nodes example_grid)) = 6
  ∧ (∃ nodes, nodes_frame example_grid = Ok nodes ∧ Z.of_nat (length nodes) = 6)
  ∧ (∃ idx, ElectricGridIndex_init example_grid = Ok idx
       ∧ node_dimension idx = 6
       ∧ Z.of_nat (length (nodes_phases idx)) = 6).
Proof.
  destruct example_grid_boolean as [Hn Hb].
  assert (electric_grids example_grid ≠ []) as Hs by discriminate.
  split; [exact Hn|]. split; [exact Hb|]. split; [exact Hs|].
  split; [reflexivity|].
  destruct (node_dimension_counts_node_phases example_grid (or_introl Hn))
    as (_ & _ & _ & Hframe & Hindex).
  split.
  - destruct (Hframe Hn Hs) as (nodes & Hnodes & Hrows).
    exists nodes. split; [exact Hnodes | exact Hrows].
  - destruct (Hindex Hn Hb Hs) as (idx & Hidx & Hdim & Hrows).
    exists idx. split; [exact Hidx|]. rewrite Hrows. split; exact Hdim.
Defined.

Lemma flattened_tables_ordered_by_phase_witness :
  boolean_nodes transformer_grid ∧ boolean_branches transformer_grid
  ∧ ∃ idx, ElectricGridIndex_init transformer_grid = Ok idx
      ∧ node_by_phase idx !! "1"%string = Some (PyList [0; 1]%nat)
      ∧ node_by_phase idx !! "2"%string = Some (PyList [2; 3]%nat)
      ∧ node_by_phase idx !! "3"%string = Some (PyList [4; 5]%nat).
Proof.
  destruct transformer_grid_boolean as [Hn Hb].
  do 2 (split; [done|]).
  destruct (is_Ok_true (ElectricGridIndex_init transformer_grid)) as [idx Hidx];
    [vm_compute; reflexivity|].
  exists idx. split; [done|].
  destruct (flattened_tables_ordered_by_phase transformer_grid Hn Hb)
    as (_ & Hphase & _).
  destruct (Hphase idx Hidx) as (H1 & H2 & H3 & _).
  rewrite H1, H2, H3. done.
Defined.

Lemma load_incidence_matrices_stay_zero_witness :
  ∃ model,
    ElectricGridModel_init transformer_grid = Ok model
    ∧ load_dimension (index model) = 1
    ∧ stored (load_incidence_wye_matrix model) = ∅
    ∧ stored (load_incidence_delta_matrix model) = ∅.
Proof.
  destruct (is_Ok_true (ElectricGridModel_init transformer_grid)) as [model Hm];
    [vm_compute; reflexivity|].
  exists model. split; [done|].
  destruct (load_incidence_matrices_stay_zero transformer_grid model Hm)
    as (Hw & Hd & _).
  split; [|done].
  apply Model_init_inv in Hm as (idx & Hidx & Hi & _).
  rewrite Hi. vm_compute in Hidx. by injection Hidx as <-.
Defined.

Lemma node_admittance_adds_line_contributions_witness :
  boolean_nodes parallel_lines_grid ∧ boolean_branches parallel_lines_grid
  ∧ ∃ model model_1 model_2,
      ElectricGridModel_init parallel_lines_grid = Ok model
      ∧ ElectricGridModel_init
          (with_lines parallel_lines_grid [three_phase_line "L1" "T" "n1" "n2" 3])
        = Ok model_1
      ∧ ElectricGridModel_init
          (with_lines parallel_lines_grid [three_phase_line "L2" "T" "n1" "n2" 3])
        = Ok model_2
      ∧ ∀ i j, dok_get (node_admittance_matrix model) i j
               = Cadd (dok_get (node_admittance_matrix model_1) i j)
                      (dok_get (node_admittance_matrix model_2) i j).
Proof.
  assert (boolean_nodes parallel_lines_grid ∧ boolean_branches parallel_lines_grid)
    as [Hn Hb].
  { destruct example_grid_boolean. apply with_lines_boolean; [done | done |].
    unfold boolean_rows. simpl. boolean_flags. }
  do 2 (split; [done|]).
  destruct (is_Ok_true (ElectricGridModel_init parallel_lines_grid)) as [model Hm];
    [vm_compute; reflexivity|].
  destruct (node_admittance_adds_line_contributions parallel_lines_grid model
              Hn Hb Hm) as (_ & _ & _ & Htwo).
  destruct (Htwo (three_phase_line "L1" "T" "n1" "n2" 3)
                 (three_phase_line "L2" "T" "n1" "n2" 3) eq_refl)
    as (model_1 & model_2 & H1 & H2 & Hsum).
  exists model, model_1, model_2.
  split; [exact Hm|]. split; [exact H1|]. split; [exact H2|]. exact Hsum.
Defined.

Lemma construction_completes_without_phase_count_check_witness :
  boolean_nodes mismatch_grid ∧ boolean_branches mismatch_grid
  ∧ line_phase_1 mismatch_line + line_phase_2 mismatch_line
    + line_phase_3 mismatch_line = 3
  ∧ n_phases mismatch_line = 1
  ∧ ∃ model, ElectricGridModel_init mismatch_grid = Ok model.
Proof.
  assert (boolean_nodes mismatch_grid ∧ boolean_branches mismatch_grid) as [Hn Hb].
  { destruct example_grid_boolean. apply with_lines_boolean; [done | done |].
    unfold boolean_rows. simpl. boolean_flags. }
  do 4 (split; [done|]).
  apply (construction_completes_without_phase_count_check mismatch_grid Hn Hb).
  - discriminate.
  - constructor; [|constructor].
    split; [vm_compute; reflexivity|].
    split; decide_by_computation.
Defined.

(** C4, at a grid with a three-phase line between three-phase nodes whose
    [n_phases] is 1. The construction completes; the 1 × 1 element
    matrices are paired with the first position of each node only, so
    that the nodal admittance matrix stores four entries. *)
Lemma phase_count_mismatch_is_accepted :
  mismatch_line ∈ electric_grid_lines mismatch_grid
  ∧ line_phase_1 mismatch_line + line_phase_2 mismatch_line
    + line_phase_3 mismatch_line = 3
  ∧ n_phases mismatch_line = 1
  ∧ ∃ model,
      ElectricGridModel_init mismatch_grid = Ok model
      ∧ dict_get (node_by_node_name (index model)) "n1" = Ok [0; 2; 4]%nat
      ∧ dict_get (node_by_node_name (index model)) "n2" = Ok [1; 3; 5]%nat
      ∧ dict_get (branch_by_line_name (index model)) "L1" = Ok [0; 1; 2]%nat
      ∧ size (stored (node_admittance_matrix model)) = 4%nat.
Proof.
  split; [by left|]. do 2 (split; [done|]).
  destruct (ElectricGridModel_init mismatch_grid) as [model|e] eqn:Hm;
    [|vm_compute in Hm; discriminate].
  exists model. split; [done|].
  vm_compute in Hm. injection Hm as <-.
  repeat split; vm_compute; reflexivity.
Qed.

Lemma two_node_line_blocks_witness :
  "n1"%string ≠ "n2"%string
  ∧ ∃ y model,
      line_admittance_matrices (electric_grid_line_types_matrices example_grid)
        (three_phase_line "L1" "T" "n1" "n2" 3) = Ok y
      ∧ admittance_matrix_11 y = diag3 (mkCx (Q2Qc (1 # 2)) (Q2Qc (-1 # 2)))
      ∧ admittance_matrix_12 y = diag3 (mkCx (Q2Qc (-1 # 2)) (Q2Qc (1 # 2)))
      ∧ ElectricGridModel_init example_grid = Ok model
      ∧ ∀ i j, dok_get (node_admittance_matrix model) i j
               = line_contribution y [0; 2; 4]%nat [1; 3; 5]%nat i j.
Proof.
  assert ("n1"%string ≠ "n2"%string) as Hne by discriminate.
  split; [done|].
  destruct (two_node_line_blocks "n1" "n2" "L1" "T" Hne)
    as (y & model & Hy & H11 & _ & H12 & _ & Hm & _ & _ & Hget & _).
  exists y, model.
  split; [exact Hy|]. split; [exact H11|]. split; [exact H12|].
  split; [exact Hm | exact Hget].
Defined.

Lemma unknown_line_type_raises_IndexError_witness :
  filter (λ row, String.eqb (ltm_line_type row) (line_type untyped_line) = true)
         (electric_grid_line_types_matrices untyped_grid) = []
  ∧ (1 ≤ n_phases untyped_line ∨ -3 < n_phases untyped_line < 0)
  ∧ untyped_line ∈ electric_grid_lines untyped_grid
  ∧ ElectricGridModel_init untyped_grid = Raise (IndexError 0 0).
Proof.
  assert (1 ≤ n_phases untyped_line ∨ -3 < n_phases untyped_line < 0) as Hn
    by (left; simpl; lia).
  assert (filter (λ row, String.eqb (ltm_line_type row) (line_type untyped_line) = true)
                 (electric_grid_line_types_matrices untyped_grid) = []) as Hf
    by reflexivity.
  do 2 (split; [done|]). split; [by left|].
  destruct (unknown_line_type_raises_IndexError untyped_grid untyped_line Hf Hn)
    as (_ & _ & _ & _ & Hfirst).
  destruct (is_Ok_true (ElectricGridIndex_init untyped_grid)) as [idx Hidx];
    [vm_compute; reflexivity|].
  destruct (is_Ok_true (allocate idx)) as [self Hself].
  { vm_compute in Hidx. injection Hidx as <-. vm_compute. reflexivity. }
  by apply (Hfirst [] [] idx self self).
Defined.

(** C9, at two grids. A line without connected phases and with
    [n_phases = 0] whose type is in no row of the table is accepted: its
    element matrices are empty and the construction completes. A
    three-phase line of an unknown type raises [IndexError], which carries
    the index and the size, and no element name. *)
Lemma unknown_line_type_can_pass_unnoticed :
  placeholder_line ∈ electric_grid_lines placeholder_grid
  ∧ filter (λ row, String.eqb (ltm_line_type row) (line_type placeholder_line) = true)
           (electric_grid_line_types_matrices placeholder_grid) = []
  ∧ line_admittance_matrices (electric_grid_line_types_matrices placeholder_grid)
      placeholder_line
    = Ok {| admittance_matrix_11 := []; admittance_matrix_12 := [];
            admittance_matrix_21 := []; admittance_matrix_22 := [] |}
  ∧ is_Ok (ElectricGridModel_init placeholder_grid) = true
  ∧ ElectricGridModel_init untyped_grid = Raise (IndexError 0 0)
  ∧ exn_name (IndexError 0 0) = None.
Proof.
  split; [right; by left|]. split; [reflexivity|].
  repeat split; vm_compute; reflexivity.
Qed.

Lemma rows_of_line_ends_witness :
  ∃ model,
    ElectricGridModel_init example_grid = Ok model
    ∧ ∀ row, row ∈ [0; 2; 4; 1; 3; 5]%nat →
        ∃ col, dok_get (node_admittance_matrix model) row col ≠ Czero.
Proof.
  destruct (is_Ok_true (ElectricGridModel_init example_grid)) as [model Hm];
    [vm_compute; reflexivity|].
  exists model. split; [exact Hm|].
  destruct (rows_of_line_ends example_grid model Hm) as [_ Hends].
  destruct (Model_init_inv _ _ Hm) as (idx & Hidx & Hi & _).
  assert ("n1"%string ≠ "n2"%string) as Hne by discriminate.
  destruct (two_node_grid_positions "n1" "n2" "L1" "T" diagonal_entries idx
              Hne Hidx) as [Hp1 Hp2].
  rewrite <- Hi in Hp1, Hp2.
  apply (Hends [] (three_phase_line "L1" "T" "n1" "n2" 3) []
               [0; 2; 4]%nat [1; 3; 5]%nat).
  - reflexivity.
  - exact Hne.
  - intros other Hother. exfalso. exact (not_elem_of_nil other Hother).
  - exact Hp1.
  - exact Hp2.
  - reflexivity.
  - reflexivity.
  - simpl. lia.
Defined.

(** * Further properties of the index and of the model *)

(** ** The node dictionaries *)

(** The fields of a built index, in terms of the two frames. *)
Lemma Index_init_fields d idx :
  ElectricGridIndex_init d = Ok idx →
  ∃ nodes branches,
    nodes_frame d = Ok nodes ∧ branches_frame d = Ok branches
    ∧ nodes_phases idx = map (λ row, (nr_node_name row, nr_phase row)) nodes
    ∧ branches_phases idx
      = map (λ row, (br_branch_name row, br_phase row, br_branch_type row)) branches
    ∧ node_names idx = map node_name (electric_grid_nodes d)
    ∧ load_names idx = map load_name (electric_grid_loads d)
    ∧ node_by_node_name idx
      = fill (λ name, nonzero (λ row, String.eqb (nr_node_name row) name) nodes)
             (map node_name (electric_grid_nodes d))
             (fromkeys (map node_name (electric_grid_nodes d)))
    ∧ node_by_node_type idx
      = fill (λ type, nonzero (λ row, String.eqb (nr_node_type row) type) nodes)
             ["source"; "no_source"]%string (fromkeys ["source"; "no_source"]%string)
    ∧ node_by_load_name idx
      = fill (node_positions_of_load d nodes)
             (map load_name (electric_grid_loads d))
             (fromkeys (map load_name (electric_grid_loads d)))
    ∧ branch_by_phase idx
      = fill (λ phase, nonzero (λ row, String.eqb (br_phase row) phase) branches)
             ["1"; "2"; "3"]%string (fromkeys ["1"; "2"; "3"]%string)
    ∧ load_by_load_name idx
      = foldl (λ m name_position, <[name_position.1 := name_position.2]> m) ∅
              (zip (map load_name (electric_grid_loads d))
                   (seq 0 (length (map load_name (electric_grid_loads d))))).
Proof.
  unfold ElectricGridIndex_init. intros H.
  apply bind_Ok in H as (nodes & Hn & H). apply bind_Ok in H as (branches & Hb & H).
  injection H as <-. exists nodes, branches. simpl. auto 15.
Qed.

Lemma nonzero_from_sorted {A} (p : A → bool) (i : nat) (l : list A) :
  StronglySorted lt (nonzero_from p i l).
Proof.
  revert i. induction l as [|a l IH]; intros i; simpl; [constructor|].
  destruct (p a); [|apply IH].
  constructor; [apply IH|].
  apply list.Forall_forall. intros pos Hpos%nonzero_from_ge. lia.
Qed.

Lemma select_subseteq {A} (flag : A → Z) (name : A → string) (rows : list A) s :
  s ∈ select flag name rows → s ∈ map name rows.
Proof.
  unfold select. intros (row & -> & Hrow)%list_elem_of_fmap.
  apply list_elem_of_fmap. exists row. split; [done|].
  by apply list_elem_of_filter in Hrow as [_ ?].
Qed.

(** Every name in the frame [nodes] is the name of a node. *)
Lemma nodes_frame_names_are_nodes d nodes row :
  nodes_frame d = Ok nodes → row ∈ nodes →
  nr_node_name row ∈ map node_name (electric_grid_nodes d).
Proof.
  intros Hn Hrow.
  assert (nr_node_name row ∈ map nr_node_name nodes) as Hin
    by (apply list_elem_of_fmap; eauto).
  rewrite (nodes_frame_name _ _ Hn) in Hin. unfold nodes_node_name in Hin.
  rewrite !elem_of_app in Hin.
  destruct Hin as [?|[?|?]]; by eapply select_subseteq.
Qed.

Lemma nonzero_name_spec (nodes : list node_row) (name : string) (pos : nat) :
  pos ∈ nonzero (λ row, String.eqb (nr_node_name row) name) nodes
  ↔ ∃ phase, map (λ row, (nr_node_name row, nr_phase row)) nodes !! pos
             = Some (name, phase).
Proof.
  rewrite nonzero_spec, lookup_map. split.
  - intros (row & -> & <-%String.eqb_eq). by exists (nr_phase row).
  - intros (phase & Hrow). destruct (nodes !! pos) as [row|]; [|done].
    injection Hrow as <- <-. exists row. split; [done | apply String.eqb_refl].
Qed.

(** X1. [node_by_node_name] lists every position of the flattened node
    table under the name of its row and under no other name; its keys are
    the node names, a node without connected phase having the empty list;
    each list is in ascending order. *)
Theorem node_by_node_name_partitions_positions (d : ElectricGridData)
    (idx : ElectricGridIndex) :
  ElectricGridIndex_init d = Ok idx →
  (∀ name, name ∈ map node_name (electric_grid_nodes d) ↔
           is_Some (node_by_node_name idx !! name))
  ∧ (∀ name v, node_by_node_name idx !! name = Some v →
       ∃ positions, v = PyList positions ∧ StronglySorted lt positions
         ∧ ∀ pos, pos ∈ positions
                  ↔ ∃ phase, nodes_phases idx !! pos = Some (name, phase))
  ∧ (∀ pos name phase, nodes_phases idx !! pos = Some (name, phase) →
       ∃ positions, node_by_node_name idx !! name = Some (PyList positions)
                    ∧ pos ∈ positions).
Proof.
  intros H.
  destruct (Index_init_fields _ _ H)
    as (nodes & branches & Hn & Hb & -> & _ & _ & _ & -> & _).
  split; [|split].
  - intros name. rewrite fill_fromkeys_lookup. case_decide; split; try done.
  - intros name v. rewrite fill_fromkeys_lookup.
    case_decide; [|discriminate]. intros [= <-].
    eexists. split; [reflexivity|]. split; [apply nonzero_from_sorted|].
    intros pos. apply nonzero_name_spec.
  - intros pos name phase Hpos.
    assert (name ∈ map node_name (electric_grid_nodes d)) as Hname.
    { rewrite lookup_map in Hpos.
      destruct (nodes !! pos) as [row|] eqn:Hrow; [|done].
      injection Hpos as <- <-.
      eapply nodes_frame_names_are_nodes; [done|].
      by eapply list_elem_of_lookup_2. }
    rewrite fill_fromkeys_lookup, decide_True by done.
    eexists. split; [reflexivity|]. apply nonzero_name_spec. eauto.
Qed.

Lemma nodes_frame_type d nodes source rest row :
  nodes_frame d = Ok nodes → electric_grids d = source :: rest → row ∈ nodes →
  nr_node_type row
  = if String.eqb (nr_node_name row) source then "source"%string
    else "no_source"%string.
Proof.
  unfold nodes_frame. intros H Hs Hrow. rewrite Hs in H.
  apply bind_Ok in H as (? & _ & H). simpl in H. injection H as <-.
  apply list_elem_of_lookup in Hrow as [i Hi].
  apply lookup_zip_with_Some in Hi as (name & phase & -> & _ & _). done.
Qed.

Lemma nonzero_ext_in {A} (p q : A → bool) (l : list A) :
  (∀ a, a ∈ l → p a = q a) → nonzero p l = nonzero q l.
Proof.
  unfold nonzero. generalize 0%nat.
  induction l as [|a l IH]; intros i Hpq; simpl; [done|].
  rewrite (Hpq a) by left. rewrite IH; [done|].
  intros b Hb. apply Hpq. by right.
Qed.

(** X2. [node_by_node_type] splits the positions of the flattened node
    table in two: "source" lists the rows named as the source node in the
    first row of [electric_grids], the same list as [node_by_node_name]
    has for that name, and "no_source" lists all other rows. A source
    name that is the name of no node is not detected: the index is built
    and "source" is the empty list. *)
Theorem node_by_node_type_splits_positions (d : ElectricGridData)
    (idx : ElectricGridIndex) (source : string) (rest : list string) :
  ElectricGridIndex_init d = Ok idx →
  electric_grids d = source :: rest →
  ∃ source_positions other_positions,
    node_by_node_type idx !! "source"%string = Some (PyList source_positions)
    ∧ node_by_node_type idx !! "no_source"%string = Some (PyList other_positions)
    ∧ (∀ pos, pos ∈ source_positions
              ↔ ∃ phase, nodes_phases idx !! pos = Some (source, phase))
    ∧ (∀ pos, pos ∈ other_positions
              ↔ ∃ name phase, nodes_phases idx !! pos = Some (name, phase)
                              ∧ name ≠ source)
    ∧ (∀ positions, node_by_node_name idx !! source = Some (PyList positions) →
         positions = source_positions)
    ∧ (source ∉ map node_name (electric_grid_nodes d) → source_positions = []).
Proof.
  intros H Hs.
  destruct (Index_init_fields _ _ H)
    as (nodes & branches & Hn & Hb & -> & _ & _ & _ & -> & -> & _).
  rewrite !fill_fromkeys_lookup.
  rewrite !decide_True by (rewrite !elem_of_cons; auto).
  assert (nonzero (λ row, String.eqb (nr_node_type row) "source") nodes
          = nonzero (λ row, String.eqb (nr_node_name row) source) nodes) as Es.
  { apply nonzero_ext_in. intros row Hrow.
    rewrite (nodes_frame_type _ _ _ _ _ Hn Hs Hrow).
    by destruct (String.eqb (nr_node_name row) source). }
  assert (nonzero (λ row, String.eqb (nr_node_type row) "no_source") nodes
          = nonzero (λ row, negb (String.eqb (nr_node_name row) source)) nodes) as En.
  { apply nonzero_ext_in. intros row Hrow.
    rewrite (nodes_frame_type _ _ _ _ _ Hn Hs Hrow).
    by destruct (String.eqb (nr_node_name row) source). }
  rewrite Es, En. eexists _, _. do 2 (split; [reflexivity|]).
  split; [|split; [|split]].
  - intros pos. apply nonzero_name_spec.
  - intros pos. rewrite nonzero_spec, lookup_map. split.
    + intros (row & -> & Hne%negb_true_iff%String.eqb_neq).
      by exists (nr_node_name row), (nr_phase row).
    + intros (name & phase & Hrow & Hne).
      destruct (nodes !! pos) as [row|]; [|done]. injection Hrow as <- <-.
      exists row. split; [done|]. by apply negb_true_iff, String.eqb_neq.
  - intros positions. case_decide; [|discriminate]. by intros [= <-].
  - intros Hnot. apply list.elem_of_nil_inv. intros pos Hpos.
    apply nonzero_spec in Hpos as (row & Hrow & <-%String.eqb_eq).
    apply Hnot. eapply nodes_frame_names_are_nodes; [done|].
    by eapply list_elem_of_lookup_2.
Qed.

(** ** The branch dictionaries *)

Lemma nonzero_branch_spec (branches : list branch_row) (name type : string)
    (pos : nat) :
  pos ∈ nonzero (λ row, String.eqb (br_branch_name row) name
                        && String.eqb (br_branch_type row) type) branches
  ↔ ∃ phase,
      map (λ row, (br_branch_name row, br_phase row, br_branch_type row)) branches
      !! pos = Some (name, phase, type).
Proof.
  rewrite nonzero_spec, lookup_map. split.
  - intros (row & -> & [<-%String.eqb_eq <-%String.eqb_eq]%andb_true_iff).
    by exists (br_phase row).
  - intros (phase & Hrow). destruct (branches !! pos) as [row|]; [|done].
    injection Hrow as <- <- <-. exists row. split; [done|].
    by rewrite !String.eqb_refl.
Qed.

(** X3. The keys of [branch_by_line_name] are the line names and the names
    of the one-winding transformers. A name of a transformer has the
    positions of the transformer rows of that name, also when it is the
    name of a line, whose rows are then under no key; any other line name
    has the positions of the line rows of that name. Each list is in
    ascending order. *)
Theorem branch_by_line_name_holds_lines_and_transformers (d : ElectricGridData)
    (idx : ElectricGridIndex) :
  ElectricGridIndex_init d = Ok idx →
  (∀ name, is_Some (branch_by_line_name idx !! name)
           ↔ name ∈ line_names idx ∨ name ∈ transformer_names idx)
  ∧ (∀ name v, branch_by_line_name idx !! name = Some v →
       ∃ positions, v = PyList positions ∧ StronglySorted lt positions
         ∧ ∀ pos, pos ∈ positions
                  ↔ ∃ phase, branches_phases idx !! pos
                             = Some (name, phase,
                                     if decide (name ∈ transformer_names idx)
                                     then "transformer"%string else "line"%string)).
Proof.
  intros H.
  destruct (Index_init_fields _ _ H)
    as (nodes & branches & _ & Hb & _ & -> & _).
  destruct (Index_init_branch_inv _ _ H) as (branches' & Hb' & -> & -> & _ & ->).
  rewrite Hb in Hb'. injection Hb' as <-.
  split.
  - intros name. rewrite !fill_lookup, fromkeys_lookup.
    repeat case_decide; split; intros; try done; try tauto.
  - intros name v. rewrite !fill_lookup, fromkeys_lookup.
    repeat case_decide; try discriminate; intros [= <-];
      (eexists; split; [reflexivity|]; split; [apply nonzero_from_sorted|];
       intros pos; apply nonzero_branch_spec).
Qed.

Lemma branches_frame_columns d branches :
  branches_frame d = Ok branches →
  map br_branch_name branches = branches_branch_name d
  ∧ map br_phase branches = branches_phase d
  ∧ branches_branch_type d = Ok (map br_branch_type branches)
  ∧ length branches = length (branches_phase d).
Proof.
  unfold branches_frame. intros H.
  apply bind_Ok in H as ([] & Hc1 & H).
  apply bind_Ok in H as (types & Ht & H).
  apply bind_Ok in H as ([] & Hc2 & H). injection H as <-.
  unfold check_length in Hc1, Hc2. repeat case_decide; try discriminate.
  pose proof (branches_branch_name_length d) as Hlen.
  destruct (zip3_columns
              (λ name phase type,
                 {| br_branch_name := name; br_phase := phase;
                    br_branch_type := type |})
              br_branch_name br_phase br_branch_type
              (branches_branch_name d) (branches_phase d) types)
    as (-> & -> & ->); try done; try congruence.
  rewrite Ht. repeat split.
  unfold zip3. rewrite !length_zip_with. lia.
Qed.

(** X4. In [branch_by_phase] the positions of a phase are two ranges: the
    rows of that phase among the lines, and the rows of that phase among
    the one-winding transformers, which come after all line rows. *)
Theorem branch_by_phase_is_two_ranges (d : ElectricGridData)
    (idx : ElectricGridIndex) :
  ElectricGridIndex_init d = Ok idx →
  let lines := electric_grid_lines d in
  let transformers := electric_grid_transformers_one_winding d in
  let l1 := count_ones line_phase_1 lines in
  let l2 := count_ones line_phase_2 lines in
  let l3 := count_ones line_phase_3 lines in
  let t1 := count_ones transformer_phase_1 transformers in
  let t2 := count_ones transformer_phase_2 transformers in
  let t3 := count_ones transformer_phase_3 transformers in
  let l := (l1 + l2 + l3)%nat in
  branch_by_phase idx !! "1"%string
  = Some (PyList (seq 0 l1 ++ seq l t1))
  ∧ branch_by_phase idx !! "2"%string
    = Some (PyList (seq l1 l2 ++ seq (l + t1) t2))
  ∧ branch_by_phase idx !! "3"%string
    = Some (PyList (seq (l1 + l2) l3 ++ seq (l + t1 + t2) t3)).
Proof.
  intros H lines transformers l1 l2 l3 t1 t2 t3 l.
  destruct (Index_init_fields _ _ H)
    as (nodes & branches & _ & Hb & _ & _ & _ & _ & _ & _ & _ & -> & _).
  rewrite !fill_fromkeys_lookup.
  rewrite !decide_True by (rewrite !elem_of_cons; auto).
  destruct (branches_frame_columns _ _ Hb) as (_ & Hphase & _).
  assert (∀ s, nonzero (λ row, String.eqb (br_phase row) s) branches
               = nonzero (λ t, String.eqb t s) (branches_phase d)) as Hpos.
  { intros s. unfold nonzero.
    rewrite (nonzero_from_map br_phase (λ t, String.eqb t s)).
    by rewrite Hphase. }
  rewrite !Hpos. unfold branches_phase, nonzero.
  fold lines transformers. fold l1 l2 l3 t1 t2 t3.
  rewrite !nonzero_from_app, !length_replicate.
  rewrite !nonzero_from_replicate_eq.
  rewrite !nonzero_from_replicate_ne by discriminate.
  rewrite !app_nil_r. simpl. unfold l.
  repeat split; repeat f_equal; lia.
Qed.

(** ** Dimensions and outcome of the index construction *)

(** X5. With boolean flags, [branch_dimension] is the number of connected
    phases of the lines plus that of the transformer rows of winding 1,
    rows of other windings not counting, and it is the number of rows of
    the flattened branch table; [load_dimension] is the number of
    loads. *)
Theorem branch_dimension_counts_branch_phases (d : ElectricGridData)
    (idx : ElectricGridIndex) :
  boolean_branches d →
  ElectricGridIndex_init d = Ok idx →
  branch_dimension idx
  = sum_Z (map (λ line, line_phase_1 line + line_phase_2 line + line_phase_3 line)
               (electric_grid_lines d))
    + sum_Z (map (λ t, if decide (winding t = 1)
                       then transformer_phase_1 t + transformer_phase_2 t
                            + transformer_phase_3 t
                       else 0)
                 (electric_grid_transformers d))
  ∧ Z.of_nat (length (branches_phases idx)) = branch_dimension idx
  ∧ Z.of_nat (length (branch_names idx)) = branch_dimension idx
  ∧ load_dimension idx = Z.of_nat (length (load_names idx)).
Proof.
  intros Hbool H.
  destruct (Index_init_inv _ _ H) as (nodes & branches & _ & Hb & _ & Hbd & Hld & _).
  destruct (Index_init_fields _ _ H)
    as (? & branches' & _ & Hb' & _ & Hbp & _ & Hln & _).
  rewrite Hb in Hb'. injection Hb' as <-.
  assert (branch_names idx = map br_branch_name branches) as Hbn.
  { unfold ElectricGridIndex_init in H.
    apply bind_Ok in H as (? & _ & H). rewrite Hb in H. simpl in H.
    by injection H as <-. }
  rewrite Hbd, Hld, Hbp, Hln, Hbn, !length_map.
  rewrite (branches_frame_rows _ _ Hbool Hb).
  split; [|done].
  unfold branch_dimension_of, line_dimension, transformer_dimension.
  rewrite !sum_Z_columns. f_equal.
  unfold electric_grid_transformers_one_winding.
  induction (electric_grid_transformers d) as [|t ts IH]; [done|].
  rewrite filter_cons. simpl. destruct (decide (winding t = 1)); simpl; lia.
Qed.

(** X6. With boolean flags the index construction fails in one case only:
    when [electric_grids] has no row, reading the source node name raises
    [KeyError] for the label 0. *)
Theorem index_construction_needs_a_source_row (d : ElectricGridData) :
  boolean_nodes d → boolean_branches d →
  (electric_grids d = [] → ElectricGridIndex_init d = Raise (KeyError (KInt 0)))
  ∧ (electric_grids d ≠ [] → ∃ idx, ElectricGridIndex_init d = Ok idx).
Proof.
  intros Hn Hb. split; [|by apply Index_init_total].
  intros Hs. unfold ElectricGridIndex_init, nodes_frame, node_dimension_of.
  rewrite (boolean_flags_sum _ _ _ _ Hn), <- nodes_node_name_length.
  rewrite frame_rows_exact, nodes_phase_length, check_length_refl, Hs.
  reflexivity.
Qed.

(** X7. Node flags whose sum is positive and differs from the number of
    flags equal to 1, as with a flag of 2, make the index construction
    raise [ValueError]: the phase column has another length than the
    frame [nodes]. *)
Theorem index_construction_rejects_other_flags (d : ElectricGridData) :
  0 < node_dimension_of d →
  node_dimension_of d
  ≠ Z.of_nat (count_ones node_phase_1 (electric_grid_nodes d)
              + count_ones node_phase_2 (electric_grid_nodes d)
              + count_ones node_phase_3 (electric_grid_nodes d)) →
  ElectricGridIndex_init d = Raise ValueError.
Proof.
  intros Hpos Hne. unfold ElectricGridIndex_init, nodes_frame.
  rewrite nodes_phase_length, nodes_node_name_length.
  unfold frame_rows, check_length.
  destruct (Z.leb_spec (node_dimension_of d) 0); [lia|].
  rewrite decide_False by lia. reflexivity.
Qed.

(** ** The load dictionaries *)

Lemma dict_of_zip_lookup (names : list string) (name : string) (pos : nat) :
  foldl (λ (m : gmap string nat) name_position,
           <[name_position.1 := name_position.2]> m)
        ∅ (zip names (seq 0 (length names))) !! name = Some pos
  ↔ names !! pos = Some name
    ∧ ∀ later, (pos < later)%nat → names !! later ≠ Some name.
Proof.
  revert pos. induction names as [|a names IH] using rev_ind; intros pos.
  { simpl. rewrite lookup_empty. split; [done|]. by intros [? _]. }
  rewrite length_app, seq_app. simpl.
  rewrite zip_with_app by by rewrite length_seq.
  rewrite foldl_app. simpl.
  destruct (decide (a = name)) as [->|Hne].
  - rewrite lookup_insert_eq. split.
    + intros [= <-]. split.
      * rewrite lookup_app_r by lia. by rewrite Nat.sub_diag.
      * intros later Hlater. rewrite lookup_ge_None_2; [done|].
        rewrite length_app. simpl. lia.
    + intros [Hpos Hlast]. f_equal.
      apply lookup_lt_Some in Hpos as Hlt. rewrite length_app in Hlt. simpl in Hlt.
      destruct (decide (pos = length names)) as [|Hd]; [done|].
      exfalso. apply (Hlast (length names)); [lia|].
      rewrite lookup_app_r by lia. by rewrite Nat.sub_diag.
  - rewrite lookup_insert_ne by done. rewrite IH. split.
    + intros [Hpos Hlast]. apply lookup_lt_Some in Hpos as Hlt. split.
      * by rewrite lookup_app_l.
      * intros later Hlater.
        destruct (decide (later < length names)%nat).
        -- rewrite lookup_app_l by done. by apply Hlast.
        -- rewrite lookup_app_r by lia.
           destruct (later - length names)%nat; simpl; [congruence|done].
    + intros [Hpos Hlast].
      assert (pos < length names)%nat as Hlt.
      { apply lookup_lt_Some in Hpos as Hlt. rewrite length_app in Hlt.
        simpl in Hlt. destruct (decide (pos = length names)) as [->|]; [|lia].
        rewrite lookup_app_r, Nat.sub_diag in Hpos by lia. simpl in Hpos.
        congruence. }
      rewrite lookup_app_l in Hpos by done. split; [done|].
      intros later Hlater.
      destruct (decide (later < length names)%nat).
      * specialize (Hlast later Hlater). by rewrite lookup_app_l in Hlast.
      * by rewrite lookup_ge_None_2 by lia.
Qed.

(** X8. [load_by_load_name] maps a load name to the position of its last
    occurrence in [load_names]: its keys are the load names, and for
    names without duplicates it inverts [load_names]. *)
Theorem load_by_load_name_is_last_position (d : ElectricGridData)
    (idx : ElectricGridIndex) :
  ElectricGridIndex_init d = Ok idx →
  (∀ name, is_Some (load_by_load_name idx !! name) ↔ name ∈ load_names idx)
  ∧ (∀ name pos,
       load_by_load_name idx !! name = Some pos
       ↔ load_names idx !! pos = Some name
         ∧ ∀ later, (pos < later)%nat → load_names idx !! later ≠ Some name)
  ∧ (NoDup (load_names idx) →
     ∀ name pos,
       load_by_load_name idx !! name = Some pos
       ↔ load_names idx !! pos = Some name).
Proof.
  intros H.
  destruct (Index_init_fields _ _ H)
    as (nodes & branches & _ & _ & _ & _ & _ & Hln & _ & _ & _ & _ & Hll).
  rewrite Hll, Hln. clear.
  set (names := map load_name (electric_grid_loads d)).
  assert (∀ name pos,
            names !! pos = Some name →
            ∃ last, names !! last = Some name
                    ∧ ∀ later, (last < later)%nat → names !! later ≠ Some name)
    as Hlast.
  { clearbody names. induction names as [|a names IH] using rev_ind.
    { intros ? ? Hpos. by rewrite lookup_nil in Hpos. }
    intros name pos Hpos. destruct (decide (a = name)) as [->|Hne].
    - exists (length names). split.
      + rewrite lookup_app_r by lia. by rewrite Nat.sub_diag.
      + intros later Hlater. rewrite lookup_ge_None_2; [done|].
        rewrite length_app. simpl. lia.
    - assert (pos < length names)%nat as Hlt.
      { apply lookup_lt_Some in Hpos as Hlt. rewrite length_app in Hlt.
        simpl in Hlt. destruct (decide (pos = length names)) as [->|]; [|lia].
        rewrite lookup_app_r, Nat.sub_diag in Hpos by lia. simpl in Hpos.
        congruence. }
      rewrite lookup_app_l in Hpos by done.
      destruct (IH _ _ Hpos) as (last & Hl & Hafter).
      apply lookup_lt_Some in Hl as Hllt.
      exists last. split; [by rewrite lookup_app_l|].
      intros later Hlater. destruct (decide (later < length names)%nat).
      + rewrite lookup_app_l by done. by apply Hafter.
      + rewrite lookup_app_r by lia.
        destruct (later - length names)%nat; simpl; [congruence|done]. }
  split; [|split].
  - intros name. split.
    + intros [pos Hpos]. apply dict_of_zip_lookup in Hpos as [Hpos _].
      by eapply list_elem_of_lookup_2.
    + intros Hin. apply list_elem_of_lookup_1 in Hin as [pos Hpos].
      destruct (Hlast _ _ Hpos) as (last & Hl & Hafter).
      exists last. by apply dict_of_zip_lookup.
  - intros name pos. apply dict_of_zip_lookup.
  - intros Hnd name pos. rewrite dict_of_zip_lookup. split; [by intros [? _]|].
    intros Hpos. split; [done|]. intros later Hlater Hl.
    pose proof (NoDup_lookup _ _ _ _ Hnd Hpos Hl). lia.
Qed.

Lemma find_NoDup (loads : list load_record) (load : load_record) :
  NoDup (map load_name loads) → load ∈ loads →
  List.find (λ l, String.eqb (load_name l) (load_name load)) loads = Some load.
Proof.
  induction loads as [|a loads IH]; intros Hnd Hin.
  { by apply elem_of_nil in Hin. }
  simpl in *. apply list.NoDup_cons in Hnd as [Hna Hnd].
  apply elem_of_cons in Hin as [->|Hin].
  { by rewrite String.eqb_refl. }
  destruct (String.eqb_spec (load_name a) (load_name load)) as [Heq|_].
  { exfalso. apply Hna. rewrite Heq. by apply list_elem_of_fmap_2. }
  by apply IH.
Qed.

Lemma isin_load_phases (phase : string) (load : load_record) :
  isin phase (load_phases load) = true
  ↔ (phase = "1"%string ∧ load_phase_1 load = 1)
    ∨ (phase = "2"%string ∧ load_phase_2 load = 1)
    ∨ (phase = "3"%string ∧ load_phase_3 load = 1).
Proof.
  unfold isin, load_phases, is_one. rewrite existsb_exists.
  setoid_rewrite <- list_elem_of_In.
  split.
  - intros (p & Hin & Heq). apply String.eqb_eq in Heq as <-.
    rewrite !elem_of_app in Hin.
    destruct Hin as [Hin|[Hin|Hin]];
      [destruct (Z.eqb_spec (load_phase_1 load) 1)
      |destruct (Z.eqb_spec (load_phase_2 load) 1)
      |destruct (Z.eqb_spec (load_phase_3 load) 1)];
      try (exfalso; exact (not_elem_of_nil _ Hin));
      apply list_elem_of_singleton in Hin as ->; auto.
  - intros Hp. exists phase. rewrite String.eqb_refl. split; [|done].
    rewrite !elem_of_app.
    destruct Hp as [[-> ->]|[[-> ->]|[-> ->]]]; simpl;
      [left|right; left|right; right]; by apply list_elem_of_singleton.
Qed.

(** X9. For load names without duplicates, [node_by_load_name] holds for
    every load the increasing positions of the rows of [nodes] of the
    load's node whose phase the load connects. A load at a node that is
    not in the node table gets the empty list: nothing is raised. *)
Theorem node_by_load_name_positions (d : ElectricGridData)
    (idx : ElectricGridIndex) (load : load_record) :
  ElectricGridIndex_init d = Ok idx →
  NoDup (load_names idx) →
  load ∈ electric_grid_loads d →
  ∃ positions,
    node_by_load_name idx !! load_name load = Some (PyList positions)
    ∧ StronglySorted lt positions
    ∧ (∀ pos,
         pos ∈ positions
         ↔ ∃ phase,
             nodes_phases idx !! pos = Some (load_node_name load, phase)
             ∧ ((phase = "1"%string ∧ load_phase_1 load = 1)
                ∨ (phase = "2"%string ∧ load_phase_2 load = 1)
                ∨ (phase = "3"%string ∧ load_phase_3 load = 1)))
    ∧ (load_node_name load ∉ node_names idx → positions = []).
Proof.
  intros H Hnd Hin.
  destruct (Index_init_fields _ _ H)
    as (nodes & branches & Hn & _ & Hnp & _ & Hnn & Hln & _ & _ & Hnl & _).
  rewrite Hln in Hnd. rewrite Hnl, Hnp, Hnn.
  rewrite fill_fromkeys_lookup.
  rewrite decide_True by by apply list_elem_of_fmap_2.
  unfold node_positions_of_load, load_at. rewrite (find_NoDup _ _ Hnd Hin).
  eexists. split; [reflexivity|].
  assert (∀ pos,
    pos ∈ nonzero (λ row, String.eqb (nr_node_name row) (load_node_name load)
                          && isin (nr_phase row) (load_phases load)) nodes
    ↔ ∃ phase,
        map (λ row, (nr_node_name row, nr_phase row)) nodes !! pos
        = Some (load_node_name load, phase)
        ∧ ((phase = "1"%string ∧ load_phase_1 load = 1)
           ∨ (phase = "2"%string ∧ load_phase_2 load = 1)
           ∨ (phase = "3"%string ∧ load_phase_3 load = 1))) as Hspec.
  { intros pos. rewrite nonzero_spec. split.
    - intros (row & Hrow & Hp). apply andb_true_iff in Hp as [Hname Hphase].
      apply String.eqb_eq in Hname. apply isin_load_phases in Hphase.
      exists (nr_phase row). rewrite lookup_map, Hrow. simpl.
      by rewrite Hname.
    - intros (phase & Hrow & Hphase). rewrite lookup_map in Hrow.
      destruct (nodes !! pos) as [row|] eqn:Hr; [|done].
      simpl in Hrow. injection Hrow as Hname <-.
      exists row. split; [done|]. apply andb_true_iff. split.
      + by apply String.eqb_eq.
      + by apply isin_load_phases. }
  split; [apply nonzero_from_sorted|]. split; [exact Hspec|].
  intros Hnot.
  apply elem_of_nil_inv. intros pos Hpos.
  apply Hspec in Hpos as (phase & Hrow & _).
  rewrite lookup_map in Hrow.
  destruct (nodes !! pos) as [row|] eqn:Hr; [|done].
  simpl in Hrow. injection Hrow as Hname _.
  apply Hnot. rewrite <- Hname.
  eapply nodes_frame_names_are_nodes; [exact Hn|].
  by eapply list_elem_of_lookup_2.
Qed.

(** ** What the line loop leaves alone, and what stops it *)

(** X10. Whenever the construction returns, the nodal transformation
    matrix is as allocated: square of size [node_dimension], with no
    stored entry, so that every entry reads zero. *)
Theorem node_transformation_matrix_stays_zero (d : ElectricGridData)
    (model : ElectricGridModel) :
  ElectricGridModel_init d = Ok model →
  stored (node_transformation_matrix model) = ∅
  ∧ (∀ i j, dok_get (node_transformation_matrix model) i j = 0)
  ∧ n_rows (node_transformation_matrix model)
    = Z.to_nat (node_dimension (index model))
  ∧ n_cols (node_transformation_matrix model)
    = Z.to_nat (node_dimension (index model)).
Proof.
  unfold ElectricGridModel_init. intros H.
  apply bind_Ok in H as (idx & Hidx & H).
  apply bind_Ok in H as (self & Hself & H).
  assert (index model = index self
          ∧ node_transformation_matrix model = node_transformation_matrix self)
    as [Hi Ht].
  { apply (for_each_ind (add_line d)
             (λ s, index s = index self
                   ∧ node_transformation_matrix s = node_transformation_matrix self))
      with (items := electric_grid_lines d) (s := self); [|done|done].
    intros s line s' [Hi Ht] Hline.
    apply add_line_inv in Hline
      as (_ & _ & _ & _ & _ & _ & _ & _ & Hi' & _ & Ht' & _).
    split; congruence. }
  rewrite Ht, Hi. clear H Hi Ht.
  unfold allocate, dok_new in Hself.
  destruct (node_dimension idx <? 0), (branch_dimension idx <? 0),
    (load_dimension idx <? 0); simpl in Hself; try discriminate.
  injection Hself as <-. simpl. done.
Qed.

Lemma node_by_node_name_lookup_None d idx name :
  ElectricGridIndex_init d = Ok idx →
  name ∉ node_names idx → node_by_node_name idx !! name = None.
Proof.
  intros H Hnot.
  destruct (Index_init_fields _ _ H)
    as (nodes & branches & _ & _ & _ & _ & Hnn & _ & Hnbn & _).
  rewrite Hnn in Hnot. rewrite Hnbn, fill_fromkeys_lookup.
  by rewrite decide_False.
Qed.

Lemma for_each_stops {S A} (body : S → A → result S) (s s' : S)
    (before after : list A) (a : A) (e : exn) :
  for_each body s before = Ok s' → body s' a = Raise e →
  for_each body s (before ++ a :: after) = Raise e.
Proof. intros Hb Ha. rewrite for_each_app, Hb. simpl. by rewrite Ha. Qed.

(** X11. A line one of whose end nodes is not in the node table makes the
    loop raise [KeyError] for that node name, once the line's element
    matrices are computed; the first end is looked up first. The
    construction of a grid with such a line never returns a model. *)
Theorem unknown_end_node_raises_KeyError (d : ElectricGridData)
    (idx : ElectricGridIndex) (line : line_record) :
  ElectricGridIndex_init d = Ok idx →
  node_1_name line ∉ node_names idx ∨ node_2_name line ∉ node_names idx →
  let unknown := if decide (node_1_name line ∈ node_names idx)
                 then node_2_name line else node_1_name line in
  (∀ self,
     index self = idx →
     is_Ok (line_admittance_matrices
              (electric_grid_line_types_matrices d) line) = true →
     add_line d self line = Raise (KeyError (KStr unknown)))
  ∧ (line ∈ electric_grid_lines d → ∃ e, ElectricGridModel_init d = Raise e).
Proof.
  intros Hidx Hunknown unknown. split.
  - intros self Hself Hy. apply is_Ok_true in Hy as [y Hy].
    assert (∀ name, name ∉ node_names idx →
              dict_get (node_by_node_name idx) name = Raise (KeyError (KStr name)))
      as Hraise.
    { intros name Hnot. unfold dict_get.
      by rewrite (node_by_node_name_lookup_None _ _ _ Hidx Hnot). }
    unfold add_line. rewrite Hy, Hself. subst unknown.
    destruct (decide (node_1_name line ∈ node_names idx)) as [Hin|Hnot].
    + destruct Hunknown as [?|Hnot]; [done|].
      destruct (Index_init_fields _ _ Hidx)
        as (? & ? & _ & _ & _ & _ & Hnn & _).
      rewrite Hnn in Hin.
      destruct (node_by_node_name_has_nodes _ _ _ Hidx Hin) as [p Hp].
      rewrite (dict_get_is_Ok _ _ _ Hp), (Hraise _ Hnot). reflexivity.
    + rewrite (Hraise _ Hnot). reflexivity.
  - intros Hin.
    destruct (ElectricGridModel_init d) as [model|e] eqn:Hm; [|eauto].
    apply Model_init_inv in Hm as (idx' & Hidx' & _ & Hall & _).
    rewrite Hidx in Hidx'. injection Hidx' as <-.
    rewrite list.Forall_forall in Hall. destruct (Hall _ Hin) as (_ & H1 & H2).
    unfold dict_get in H1, H2.
    destruct Hunknown as [Hnot|Hnot];
      rewrite (node_by_node_name_lookup_None _ _ _ Hidx Hnot) in *; discriminate.
Qed.

(** *** A line of length zero *)

Lemma np_take_row_total {A} (a : list A) (ix : list nat) :
  Forall (λ i, (i < length a)%nat) ix → ∃ row, np_take_row a ix = Ok row.
Proof.
  induction 1 as [|i ix Hi _ [row IH]]; simpl; [eauto|].
  unfold np_take_entry. destruct (lookup_lt_is_Some_2 a i Hi) as [v ->].
  simpl. rewrite IH. simpl. eauto.
Qed.

Lemma np_take_total {A} (a : list A) (ix : matrix nat) :
  Forall (Forall (λ i, (i < length a)%nat)) ix → ∃ m, np_take a ix = Ok m.
Proof.
  induction 1 as [|r ix Hr _ [m IH]]; simpl; [eauto|].
  destruct (np_take_row_total a r Hr) as [row ->]. simpl.
  rewrite IH. simpl. eauto.
Qed.

(** The index map reads six entries. *)
Lemma sliced_index_bounded (n : Z) :
  Forall (Forall (λ i, (i < 6)%nat))
         (map (slice_to n) (slice_to n rxc_matrix_full_index)).
Proof.
  apply Forall_map, list.Forall_forall. intros row Hin.
  unfold slice_to in Hin. apply elem_of_take in Hin as (i & Hrow & _).
  cbv beta. unfold slice_to. apply Forall_take.
  destruct i as [|[|[|i]]]; simpl in Hrow; try discriminate;
    injection Hrow as <-; repeat constructor.
Qed.

Lemma Csum_imap_zero (h : nat → Cx → Cx) (row : list Cx) :
  (∀ j, h j Czero = Czero) → Forall (λ v, v = Czero) row →
  Csum (imap h row) = Czero.
Proof.
  intros Hh Hrow. revert h Hh.
  induction Hrow as [|v row -> _ IH]; intros h Hh; [done|].
  simpl. rewrite Hh, IH; [unfold Csum; simpl; ring|].
  intros j. apply Hh.
Qed.

Lemma det_zero_row (row : list Cx) (rest : matrix Cx) :
  Forall (λ v, v = Czero) row → det (row :: rest) = Czero.
Proof.
  intros Hrow. unfold det. simpl. apply Csum_imap_zero; [|done].
  intros j. unfold sign. destruct (Nat.even j); unfold Czero, Cmul, Copp; simpl;
    f_equal; ring.
Qed.

Lemma Cscale_zero (v : Cx) : Cscale (Q2Qc 0) v = Czero.
Proof. unfold Cscale, Czero. f_equal; ring. Qed.

(** X12. A line of length zero whose [n_phases] selects a non-empty block
    and whose type has its six entries makes [np.linalg.inv] raise
    [LinAlgError]: the impedance matrix is zero. The construction of a
    grid with such a line never returns a model. *)
Theorem zero_length_line_raises_LinAlgError (d : ElectricGridData)
    (line : line_record) :
  length_ line = Q2Qc 0 →
  1 ≤ n_phases line ∨ -3 < n_phases line < 0 →
  (6 ≤ length (filter (λ row, String.eqb (ltm_line_type row) (line_type line) = true)
                      (electric_grid_line_types_matrices d)))%nat →
  line_admittance_matrices (electric_grid_line_types_matrices d) line
  = Raise LinAlgError
  ∧ (∀ self, add_line d self line = Raise LinAlgError)
  ∧ (line ∈ electric_grid_lines d → ∃ e, ElectricGridModel_init d = Raise e)
  ∧ (∀ before after idx self self',
       electric_grid_lines d = before ++ line :: after →
       ElectricGridIndex_init d = Ok idx →
       allocate idx = Ok self →
       for_each (add_line d) self before = Ok self' →
       ElectricGridModel_init d = Raise LinAlgError).
Proof.
  intros Hlen Hn Hsix.
  assert (line_admittance_matrices (electric_grid_line_types_matrices d) line
          = Raise LinAlgError) as Hy.
  { unfold line_admittance_matrices.
    set (entries := filter _ _) in *.
    set (ix := map (slice_to (n_phases line)) _).
    assert (∀ f : line_type_matrix_record → Qc,
              ∃ m, np_take (map f entries) ix = Ok m) as Htake.
    { intros f. apply np_take_total.
      eapply Forall_impl; [|apply sliced_index_bounded].
      intros row Hrow. eapply Forall_impl; [|exact Hrow].
      intros i Hi. simpl in *. rewrite length_map. lia. }
    destruct (Htake r) as [rm Hrm]. destruct (Htake x) as [xm Hxm].
    destruct (Htake c) as [cm Hcm].
    rewrite Hrm, Hxm, Hcm. simpl.
    pose proof (sliced_index_square (n_phases line)) as Hsq.
    pose proof (np_take_square _ _ _ _ Hsq Hrm) as [Hr _].
    pose proof (np_take_square _ _ _ _ Hsq Hxm) as [Hx _].
    destruct (slice_stop_positive _ Hn) as [k Hk]. rewrite Hk in Hr, Hx.
    destruct rm as [|r0 rm]; [discriminate|].
    destruct xm as [|x0 xm]; [discriminate|].
    unfold inv. simpl mat_zip. simpl mat_map.
    rewrite det_zero_row; [by rewrite decide_True|].
    apply Forall_map, list.Forall_forall. intros v _. simpl.
    rewrite Hlen. apply Cscale_zero. }
  assert (∀ self, add_line d self line = Raise LinAlgError) as Hadd.
  { intros self. unfold add_line. by rewrite Hy. }
  do 2 (split; [done|]). split.
  - intros Hin. destruct (ElectricGridModel_init d) as [model|e] eqn:Hm; [|eauto].
    apply Model_init_inv in Hm as (idx & _ & _ & Hall & _).
    rewrite list.Forall_forall in Hall. destruct (Hall _ Hin) as [Hok _].
    rewrite Hy in Hok. discriminate.
  - intros before after idx self self' Hlines Hidx Hself Hbefore.
    unfold ElectricGridModel_init. rewrite Hidx. simpl. rewrite Hself. simpl.
    rewrite Hlines. by eapply for_each_stops.
Qed.

(** X13. The block of the index map is selected by slicing, so an
    [n_phases] above 3 is taken as 3 and one of -3 or below as 0: the
    loop body does the same for the line as for the line with the clipped
    value. *)
Theorem n_phases_is_clipped_by_slicing (d : ElectricGridData)
    (line : line_record) :
  3 ≤ n_phases line ∨ n_phases line ≤ -3 →
  ∀ self,
    add_line d self line
    = add_line d self (with_n_phases line (if 3 <=? n_phases line then 3 else 0)).
Proof.
  intros Hn self. unfold add_line.
  assert (line_admittance_matrices (electric_grid_line_types_matrices d) line
          = line_admittance_matrices (electric_grid_line_types_matrices d)
              (with_n_phases line (if 3 <=? n_phases line then 3 else 0))) as ->;
    [|reflexivity].
  unfold line_admittance_matrices. simpl.
  assert (∀ {A} (l : list A), length l = 3%nat →
            slice_to (n_phases line) l
            = slice_to (if 3 <=? n_phases line then 3 else 0) l) as Hslice.
  { intros A l Hl. unfold slice_to, slice_stop. rewrite Hl.
    destruct (Z.leb_spec 3 (n_phases line)).
    - destruct (Z.ltb_spec (n_phases line) 0); [lia|]. simpl.
      f_equal. lia.
    - destruct (Z.ltb_spec (n_phases line) 0); [|lia]. simpl.
      f_equal. lia. }
  rewrite (Hslice _ rxc_matrix_full_index) by done.
  set (rows := slice_to _ rxc_matrix_full_index).
  assert (map (slice_to (n_phases line)) rows
          = map (slice_to (if 3 <=? n_phases line then 3 else 0)) rows) as ->;
    [|reflexivity].
  apply map_ext_in. intros row Hin%list_elem_of_In.
  apply Hslice. unfold rows, slice_to in Hin.
  apply elem_of_take in Hin as (i & Hrow & _).
  destruct i as [|[|[|i]]]; simpl in Hrow; try discriminate;
    by injection Hrow as <-.
Qed.

(** ** Symmetry of the nodal admittance matrix *)

Section Transpose.

Context `{DtypeLaws A}.

Lemma row_contribution_at_default (cols : list nat) (values : list A)
    (b i j : nat) :
  NoDup cols → cols !! b = Some j →
  row_contribution i cols values i j = default dzero (values !! b).
Proof.
  intros Hnd. revert values b.
  induction Hnd as [|col cols Hcol Hnd IH]; intros [|w values] [|b] Hj;
    simpl in *; try discriminate; try done.
  - injection Hj as ->. rewrite decide_True by done.
    by rewrite row_contribution_other_col, dadd_0_r.
  - assert (col ≠ j) as Hne.
    { intros ->. apply Hcol. by eapply list_elem_of_lookup_2. }
    rewrite decide_False by congruence.
    rewrite dadd_0_l. by eapply IH.
Qed.

Lemma sub_matrix_contribution_at_default (sub : list (list A))
    (rows cols : list nat) (a b i j : nat) :
  NoDup rows → NoDup cols → rows !! a = Some i → cols !! b = Some j →
  sub_matrix_contribution sub rows cols i j = default dzero (entry sub a b).
Proof.
  intros Hnd Hndc. revert sub a.
  induction Hnd as [|row rows Hrow Hnd IH]; intros [|sub_row sub] [|a] Hi Hj;
    simpl in *; try discriminate; try done.
  - injection Hi as ->. unfold entry. simpl.
    rewrite (row_contribution_at_default cols sub_row b i j) by done.
    by rewrite sub_matrix_contribution_other_row, dadd_0_r.
  - assert (row ≠ i) as Hne.
    { intros ->. apply Hrow. by eapply list_elem_of_lookup_2. }
    rewrite row_contribution_other_row by done.
    rewrite dadd_0_l. by rewrite (IH sub a).
Qed.

(** Inserting the transposed sub-matrix with rows and columns exchanged
    adds the transposed contribution. *)
Lemma sub_matrix_contribution_transpose (sub sub' : list (list A))
    (rows cols : list nat) (i j : nat) :
  NoDup rows → NoDup cols →
  (∀ a b, entry sub' b a = entry sub a b) →
  sub_matrix_contribution sub rows cols i j
  = sub_matrix_contribution sub' cols rows j i.
Proof.
  intros Hr Hc Ht.
  destruct (decide (i ∈ rows)) as [Hi|Hi].
  - destruct (decide (j ∈ cols)) as [Hj|Hj].
    + apply list_elem_of_lookup in Hi as [a Ha].
      apply list_elem_of_lookup in Hj as [b Hb].
      rewrite (sub_matrix_contribution_at_default sub rows cols a b) by done.
      rewrite (sub_matrix_contribution_at_default sub' cols rows b a) by done.
      by rewrite Ht.
    + rewrite sub_matrix_contribution_other_col by done.
      by rewrite sub_matrix_contribution_other_row.
  - rewrite sub_matrix_contribution_other_row by done.
    by rewrite sub_matrix_contribution_other_col.
Qed.

End Transpose.

Lemma np_take_row_lookup {A} (a : list A) (ix : list nat) (row : list A) (q : nat) :
  np_take_row a ix = Ok row → row !! q = (ix !! q ≫= λ i, a !! i).
Proof.
  revert row q. induction ix as [|i ix IH]; intros row q Hrow; simpl in Hrow.
  - by injection Hrow as <-.
  - apply bind_Ok in Hrow as (v & Hv & Hrow).
    apply bind_Ok in Hrow as (vs & Hvs & Hrow). injection Hrow as <-.
    unfold np_take_entry in Hv. destruct (a !! i) as [w|] eqn:Hw; [|discriminate].
    injection Hv as ->. destruct q as [|q]; simpl; [done|]. by apply IH.
Qed.

Lemma np_take_entry_lookup {A} (a : list A) (ix : list (list nat))
    (m : list (list A)) (p q : nat) :
  np_take a ix = Ok m → entry m p q = (entry ix p q ≫= λ i, a !! i).
Proof.
  revert m p. induction ix as [|r ix IH]; intros m p Hm; simpl in Hm.
  - by injection Hm as <-.
  - apply bind_Ok in Hm as (v & Hv & Hm).
    apply bind_Ok in Hm as (vs & Hvs & Hm). injection Hm as <-.
    destruct p as [|p]; [|exact (IH vs p Hvs)].
    unfold entry. simpl. by apply np_take_row_lookup.
Qed.

Lemma entry_mat_zip {A B C} (f : A → B → C) (m1 : list (list A))
    (m2 : list (list B)) (a b : nat) :
  entry (mat_zip f m1 m2) a b
  = (entry m1 a b ≫= λ u, entry m2 a b ≫= λ v, Some (f u v)).
Proof.
  unfold entry, mat_zip. rewrite lookup_zip_with.
  destruct (m1 !! a) as [r1|]; simpl; [|done].
  destruct (m2 !! a) as [r2|]; simpl.
  - rewrite lookup_zip_with. by destruct (r1 !! b).
  - by destruct (r1 !! b).
Qed.

Lemma sliced_index_take (n : Z) :
  map (slice_to n) (slice_to n rxc_matrix_full_index)
  = map (take (slice_stop 3 n)) (take (slice_stop 3 n) rxc_matrix_full_index).
Proof.
  unfold slice_to at 2. simpl length.
  apply map_ext_in. intros row Hin%list_elem_of_In.
  apply elem_of_take in Hin as (i & Hrow & _).
  unfold slice_to.
  destruct i as [|[|[|i]]]; simpl in Hrow; try discriminate;
    by injection Hrow as <-.
Qed.

(** The selected block of the index map equals its transpose, entry by
    entry. *)
Lemma sliced_index_symmetric (n : Z) (a b : nat) :
  entry (map (slice_to n) (slice_to n rxc_matrix_full_index)) a b
  = entry (map (slice_to n) (slice_to n rxc_matrix_full_index)) b a.
Proof.
  rewrite sliced_index_take.
  pose proof (slice_stop_le 3 n).
  destruct (slice_stop 3 n) as [|[|[|[|k]]]]; [| | | |lia];
    destruct a as [|[|[|a]]], b as [|[|[|b]]]; reflexivity.
Qed.

Lemma Copp_inj (u v : Cx) : Copp u = Copp v → u = v.
Proof.
  intros E. transitivity (Copp (Copp u)); [ring|]. rewrite E. ring.
Qed.

(** The off-diagonal element matrix is square, of the size that
    [n_phases] selects. *)
Lemma line_admittance_matrices_square line_types_matrices line y :
  line_admittance_matrices line_types_matrices line = Ok y →
  square (slice_stop 3 (n_phases line)) (admittance_matrix_12 y).
Proof.
  unfold line_admittance_matrices. intros H.
  apply bind_Ok in H as (rm & Hrm & H).
  apply bind_Ok in H as (xm & Hxm & H).
  apply bind_Ok in H as (cm & Hcm & H).
  apply bind_Ok in H as (ys & Hys & H). injection H as <-. simpl.
  pose proof (sliced_index_square (n_phases line)) as Hsq.
  pose proof (np_take_square _ _ _ _ Hsq Hrm) as Hr.
  pose proof (np_take_square _ _ _ _ Hsq Hxm) as Hx.
  pose proof (mat_map_square (Cscale (length_ line)) _ _
                (mat_zip_square mkCx _ _ _ Hr Hx)) as [Hz _].
  apply mat_map_square. unfold inv in Hys.
  destruct (decide _); [discriminate|]. injection Hys as <-.
  rewrite Hz. split; [by rewrite length_map, length_seq|].
  apply Forall_map, list.Forall_forall. intros ? _. simpl.
  by rewrite length_map, length_seq.
Qed.

(** When the off-diagonal element matrix of a line equals its transpose,
    so does the diagonal one: the shunt matrix is read through the
    symmetric index map. *)
Lemma line_admittance_matrices_symmetric line_types_matrices line y :
  line_admittance_matrices line_types_matrices line = Ok y →
  (∀ a b, entry (admittance_matrix_12 y) a b = entry (admittance_matrix_12 y) b a) →
  (∀ a b, entry (admittance_matrix_11 y) a b = entry (admittance_matrix_11 y) b a)
  ∧ admittance_matrix_21 y = admittance_matrix_12 y
  ∧ admittance_matrix_22 y = admittance_matrix_11 y.
Proof.
  unfold line_admittance_matrices. intros H S12.
  apply bind_Ok in H as (rm & Hrm & H).
  apply bind_Ok in H as (xm & Hxm & H).
  apply bind_Ok in H as (cm & Hcm & H).
  apply bind_Ok in H as (ys & Hys & H). injection H as <-. simpl in *.
  assert (∀ a b, entry cm a b = entry cm b a) as Sc.
  { intros a b. rewrite !(np_take_entry_lookup _ _ _ _ _ Hcm).
    by rewrite sliced_index_symmetric. }
  assert (∀ a b, entry ys a b = entry ys b a) as Sy.
  { intros a b. specialize (S12 a b). rewrite !entry_mat_map in S12.
    destruct (entry ys a b) as [u|], (entry ys b a) as [v|];
      simpl in S12; try discriminate; [|done].
    f_equal. apply Copp_inj. congruence. }
  split; [|done].
  intros a b. rewrite !entry_mat_zip, !entry_mat_map.
  by rewrite (Sy a b), (Sc a b).
Qed.

(** X14. Whenever the construction returns and the off-diagonal element
    matrix [Y12] of every line equals its transpose, the nodal admittance
    matrix is symmetric: the shunt matrix is read through the symmetric
    index map, so that [Y11] is symmetric too, and [Y12] and [Y21] are
    inserted at exchanged row and column positions. Of the inverse,
    nothing is used but the symmetry of its result. *)
Theorem symmetric_line_blocks_give_symmetric_node_admittance
    (d : ElectricGridData) (model : ElectricGridModel) :
  ElectricGridModel_init d = Ok model →
  (∀ line y,
     line ∈ electric_grid_lines d →
     line_admittance_matrices (electric_grid_line_types_matrices d) line = Ok y →
     ∀ a b, entry (admittance_matrix_12 y) a b = entry (admittance_matrix_12 y) b a) →
  ∀ i j, dok_get (node_admittance_matrix model) i j
         = dok_get (node_admittance_matrix model) j i.
Proof.
  intros Hm Hsym i j.
  apply Model_init_inv in Hm as (idx & Hidx & _ & _ & Hget).
  rewrite !Hget. f_equal. apply map_ext_in. intros line Hin%list_elem_of_In.
  destruct (node_by_node_name_positions _ _ Hidx) as [nodes Hpos].
  unfold line_entry.
  destruct (line_admittance_matrices _ _) as [y|] eqn:Hy; [|done].
  destruct (dict_get _ (node_1_name line)) as [p1|] eqn:Hp1; [|done].
  destruct (dict_get _ (node_2_name line)) as [p2|] eqn:Hp2; [|done].
  apply Hpos in Hp1, Hp2.
  assert (NoDup p1) as N1 by (subst p1; apply nonzero_from_NoDup).
  assert (NoDup p2) as N2 by (subst p2; apply nonzero_from_NoDup).
  pose proof (Hsym line y Hin Hy) as S12.
  destruct (line_admittance_matrices_symmetric _ _ _ Hy S12) as (S11 & E21 & E22).
  unfold line_contribution. rewrite E21, E22.
  rewrite (sub_matrix_contribution_transpose
             (admittance_matrix_11 y) (admittance_matrix_11 y) p1 p1 i j)
    by done.
  rewrite (sub_matrix_contribution_transpose
             (admittance_matrix_12 y) (admittance_matrix_12 y) p1 p2 i j)
    by done.
  rewrite (sub_matrix_contribution_transpose
             (admittance_matrix_12 y) (admittance_matrix_12 y) p2 p1 i j)
    by done.
  rewrite (sub_matrix_contribution_transpose
             (admittance_matrix_11 y) (admittance_matrix_11 y) p2 p2 i j)
    by done.
  ring.
Qed.

(** ** The branch matrices *)

(** What a successful pass of the loop body did to the branch matrices. *)
Lemma add_line_branch_inv d self line self' :
  add_line d self line = Ok self' →
  ∃ y node_index_1 node_index_2 branch_index,
    line_admittance_matrices (electric_grid_line_types_matrices d) line = Ok y
    ∧ dict_get (node_by_node_name (index self)) (node_1_name line) = Ok node_index_1
    ∧ dict_get (node_by_node_name (index self)) (node_2_name line) = Ok node_index_2
    ∧ dict_get (branch_by_line_name (index self)) (line_name line) = Ok branch_index
    ∧ (∀ i j, dok_get (branch_admittance_1_matrix self') i j
              = Cadd (Cadd (dok_get (branch_admittance_1_matrix self) i j)
                  (sub_matrix_contribution (admittance_matrix_11 y)
                     branch_index node_index_1 i j))
                  (sub_matrix_contribution (admittance_matrix_12 y)
                     branch_index node_index_2 i j))
    ∧ (∀ i j, dok_get (branch_admittance_2_matrix self') i j
              = Cadd (Cadd (dok_get (branch_admittance_2_matrix self) i j)
                  (sub_matrix_contribution (admittance_matrix_21 y)
                     branch_index node_index_1 i j))
                  (sub_matrix_contribution (admittance_matrix_22 y)
                     branch_index node_index_2 i j))
    ∧ (∀ i j, dok_get (branch_incidence_1_matrix self') i j
              = dok_get (branch_incidence_1_matrix self) i j
                + sub_matrix_contribution (identity (length branch_index))
                    branch_index node_index_1 i j)
    ∧ (∀ i j, dok_get (branch_incidence_2_matrix self') i j
              = dok_get (branch_incidence_2_matrix self) i j
                + sub_matrix_contribution (identity (length branch_index))
                    branch_index node_index_2 i j).
Proof.
  unfold add_line. intros H.
  apply bind_Ok in H as (y & Hy & H).
  apply bind_Ok in H as (n1 & Hn1 & H).
  apply bind_Ok in H as (n2 & Hn2 & H).
  apply bind_Ok in H as (bi & Hbi & H).
  apply bind_Ok in H as (m1 & Hm1 & H).
  apply bind_Ok in H as (m2 & Hm2 & H).
  apply bind_Ok in H as (m3 & Hm3 & H).
  apply bind_Ok in H as (m4 & Hm4 & H).
  apply bind_Ok in H as (m5 & Hm5 & H).
  apply bind_Ok in H as (m6 & Hm6 & H).
  apply bind_Ok in H as (m7 & Hm7 & H).
  apply bind_Ok in H as (m8 & Hm8 & H).
  apply bind_Ok in H as (m9 & Hm9 & H).
  apply bind_Ok in H as (m10 & Hm10 & H).
  injection H as <-. simpl in *.
  apply insert_sub_matrix_inv in Hm5 as (_ & _ & G5).
  apply insert_sub_matrix_inv in Hm6 as (_ & _ & G6).
  apply insert_sub_matrix_inv in Hm7 as (_ & _ & G7).
  apply insert_sub_matrix_inv in Hm8 as (_ & _ & G8).
  apply insert_sub_matrix_inv in Hm9 as (_ & _ & G9).
  apply insert_sub_matrix_inv in Hm10 as (_ & _ & G10).
  exists y, n1, n2, bi. do 4 (split; [done|]).
  split; [|split; [|split]]; intros i j.
  - by rewrite G6, G5.
  - by rewrite G8, G7.
  - by rewrite G9.
  - by rewrite G10.
Qed.

Lemma add_line_other_branch_row d self line self' (pos : nat) :
  add_line d self line = Ok self' →
  (∀ branch_index,
     dict_get (branch_by_line_name (index self)) (line_name line) = Ok branch_index →
     pos ∉ branch_index) →
  same_branch_row self self' pos.
Proof.
  intros Hline Hpos col.
  apply add_line_branch_inv in Hline
    as (y & n1 & n2 & bi & _ & _ & _ & Hbi & G1 & G2 & G3 & G4).
  specialize (Hpos _ Hbi).
  rewrite G1, G2, G3, G4.
  rewrite !(sub_matrix_contribution_other_row (A := Cx)) by done.
  rewrite !(sub_matrix_contribution_other_row (A := Z)) by done.
  rewrite !Cadd_0_r. simpl. repeat split; lia.
Qed.

Lemma for_each_other_branch_rows d lines self self' (pos : nat) :
  for_each (add_line d) self lines = Ok self' →
  (∀ line branch_index,
     line ∈ lines →
     dict_get (branch_by_line_name (index self)) (line_name line) = Ok branch_index →
     pos ∉ branch_index) →
  same_branch_row self self' pos.
Proof.
  revert self. induction lines as [|line lines IH]; intros self H Hpos; simpl in H.
  - injection H as <-. intros col. done.
  - apply bind_Ok in H as (self1 & Hline & H).
    pose proof (add_line_other_branch_row _ _ _ _ pos Hline) as Hsame.
    apply add_line_inv in Hline
      as (_ & _ & _ & _ & _ & _ & _ & _ & Hidx & _).
    assert (same_branch_row self1 self' pos) as Hrest.
    { apply IH; [done|]. intros other bi Hin. rewrite Hidx.
      apply Hpos. by right. }
    intros col. specialize (Hsame (λ bi, Hpos line bi (list_elem_of_here _ _)) col).
    specialize (Hrest col). intuition congruence.
Qed.

Lemma allocate_branch_zero idx self :
  allocate idx = Ok self →
  ∀ i j,
    dok_get (branch_admittance_1_matrix self) i j = Czero
    ∧ dok_get (branch_admittance_2_matrix self) i j = Czero
    ∧ dok_get (branch_incidence_1_matrix self) i j = 0
    ∧ dok_get (branch_incidence_2_matrix self) i j = 0.
Proof.
  unfold allocate, dok_new.
  destruct (node_dimension idx <? 0), (branch_dimension idx <? 0),
    (load_dimension idx <? 0); simpl; try discriminate.
  intros [= <-]. done.
Qed.

(** The rows under a key of [branch_by_line_name]. *)
Lemma branch_index_rows d idx name branch_index :
  ElectricGridIndex_init d = Ok idx →
  dict_get (branch_by_line_name idx) name = Ok branch_index →
  NoDup branch_index
  ∧ ∀ pos, pos ∈ branch_index
           ↔ ∃ phase, branches_phases idx !! pos
                      = Some (name, phase,
                              if decide (name ∈ transformer_names idx)
                              then "transformer"%string else "line"%string).
Proof.
  intros H.
  destruct (Index_init_fields _ _ H)
    as (nodes & branches & _ & Hb & _ & -> & _).
  destruct (Index_init_branch_inv _ _ H) as (branches' & Hb' & _ & -> & _ & ->).
  rewrite Hb in Hb'. injection Hb' as <-.
  unfold dict_get. rewrite !fill_lookup, fromkeys_lookup.
  repeat case_decide; try discriminate; intros [= <-];
    (split; [apply nonzero_from_NoDup|]; intros pos; apply nonzero_branch_spec).
Qed.

(** X16. Whenever the construction returns, the rows of the branch
    admittance and branch incidence matrices at the positions of a
    transformer whose name is not the name of a line are zero: the loop
    runs over lines only. *)
Theorem transformer_rows_of_branch_matrices_are_zero (d : ElectricGridData)
    (model : ElectricGridModel) (pos : nat) (name phase : string) :
  ElectricGridModel_init d = Ok model →
  branches_phases (index model) !! pos = Some (name, phase, "transformer"%string) →
  name ∉ line_names (index model) →
  zero_row (branch_admittance_1_matrix model) pos
  ∧ zero_row (branch_admittance_2_matrix model) pos
  ∧ zero_row (branch_incidence_1_matrix model) pos
  ∧ zero_row (branch_incidence_2_matrix model) pos.
Proof.
  unfold ElectricGridModel_init. intros H Hpos Hname.
  apply bind_Ok in H as (idx & Hidx & H).
  apply bind_Ok in H as (self & Hself & H).
  pose proof (allocate_branch_zero _ _ Hself) as Hzero.
  apply allocate_inv in Hself as (Hi & _).
  pose proof (for_each_add_line_inv _ _ _ _ H) as (Hi' & _).
  rewrite Hi' in Hpos, Hname. rewrite Hi in *.
  assert (same_branch_row self model pos) as Hsame.
  { eapply for_each_other_branch_rows; [exact H|].
    intros line bi Hin Hbi Hposin. rewrite Hi in Hbi.
    destruct (branch_index_rows _ _ _ _ Hidx Hbi) as [_ Hrows].
    apply Hrows in Hposin as (phase' & Hrow). rewrite Hpos in Hrow.
    injection Hrow as -> _ _. apply Hname.
    destruct (Index_init_branch_inv _ _ Hidx) as (? & _ & -> & _).
    by apply list_elem_of_fmap_2. }
  unfold zero_row.
  repeat split; intros col; destruct (Hsame col) as (E1 & E2 & E3 & E4);
    destruct (Hzero pos col) as (Z1 & Z2 & Z3 & Z4); simpl; congruence.
Qed.

(** The rows of a line whose name no other line has hold what that line
    inserted, and nothing else. *)
Lemma branch_rows_of_line d model line :
  ElectricGridModel_init d = Ok model →
  NoDup (map line_name (electric_grid_lines d)) →
  line ∈ electric_grid_lines d →
  ∃ y node_index_1 node_index_2 branch_index,
    line_admittance_matrices (electric_grid_line_types_matrices d) line = Ok y
    ∧ dict_get (node_by_node_name (index model)) (node_1_name line) = Ok node_index_1
    ∧ dict_get (node_by_node_name (index model)) (node_2_name line) = Ok node_index_2
    ∧ dict_get (branch_by_line_name (index model)) (line_name line) = Ok branch_index
    ∧ NoDup node_index_1 ∧ NoDup node_index_2 ∧ NoDup branch_index
    ∧ (node_1_name line ≠ node_2_name line →
       ∀ col, col ∈ node_index_1 → col ∉ node_index_2)
    ∧ ∀ pos col, pos ∈ branch_index →
        dok_get (branch_admittance_1_matrix model) pos col
        = Cadd (sub_matrix_contribution (admittance_matrix_11 y)
                  branch_index node_index_1 pos col)
               (sub_matrix_contribution (admittance_matrix_12 y)
                  branch_index node_index_2 pos col)
        ∧ dok_get (branch_admittance_2_matrix model) pos col
          = Cadd (sub_matrix_contribution (admittance_matrix_21 y)
                    branch_index node_index_1 pos col)
                 (sub_matrix_contribution (admittance_matrix_22 y)
                    branch_index node_index_2 pos col)
        ∧ dok_get (branch_incidence_1_matrix model) pos col
          = sub_matrix_contribution (identity (length branch_index))
              branch_index node_index_1 pos col
        ∧ dok_get (branch_incidence_2_matrix model) pos col
          = sub_matrix_contribution (identity (length branch_index))
              branch_index node_index_2 pos col.
Proof.
  unfold ElectricGridModel_init. intros H Hnd Hin.
  apply bind_Ok in H as (idx & Hidx & H).
  apply bind_Ok in H as (self & Hself & H).
  pose proof (allocate_branch_zero _ _ Hself) as Hzero.
  apply allocate_inv in Hself as (Hi & _).
  apply list_elem_of_split in Hin as (before & after & Hlines).
  rewrite Hlines in H, Hnd.
  rewrite for_each_app in H. apply bind_Ok in H as (s1 & Hbefore & H).
  simpl in H. apply bind_Ok in H as (s2 & Hline & Hafter).
  pose proof (for_each_add_line_inv _ _ _ _ Hbefore) as (Hi1 & _).
  pose proof (add_line_inv _ _ _ _ Hline)
    as (_ & _ & _ & _ & _ & _ & _ & _ & Hi2 & _).
  pose proof (for_each_add_line_inv _ _ _ _ Hafter) as (Hi3 & _).
  apply add_line_branch_inv in Hline
    as (y & n1 & n2 & bi & Hy & Hn1 & Hn2 & Hbi & G1 & G2 & G3 & G4).
  assert (index s1 = idx) as E1 by congruence.
  assert (index s2 = idx) as E2 by congruence.
  assert (index model = idx) as E3 by congruence.
  rewrite E1 in Hn1, Hn2, Hbi. rewrite E3.
  destruct (node_by_node_name_positions _ _ Hidx) as [nodes Hpos].
  pose proof (Hpos _ _ Hn1) as P1. pose proof (Hpos _ _ Hn2) as P2.
  destruct (branch_index_rows _ _ _ _ Hidx Hbi) as [Nb Hrows].
  exists y, n1, n2, bi. do 4 (split; [done|]).
  split; [subst n1; apply nonzero_from_NoDup|].
  split; [subst n2; apply nonzero_from_NoDup|].
  split; [done|]. split.
  { intros Hne col Hc1 Hc2. subst n1 n2.
    apply Hne. by eapply node_positions_disjoint. }
  intros pos col Hposin.
  rewrite map_app, map_cons in Hnd.
  apply list.NoDup_app in Hnd as (_ & Hba & Hnd).
  apply list.NoDup_cons in Hnd as [Hla _].
  assert (∀ other bi', other ∈ before ++ after →
            dict_get (branch_by_line_name idx) (line_name other) = Ok bi' →
            pos ∉ bi') as Hother.
  { intros other bi' Hoin Hbi' Hposin'.
    destruct (branch_index_rows _ _ _ _ Hidx Hbi') as [_ Hrows'].
    apply Hrows in Hposin as (phase & Hrow).
    apply Hrows' in Hposin' as (phase' & Hrow').
    rewrite Hrow in Hrow'. injection Hrow' as Hname _ _.
    apply elem_of_app in Hoin as [Hb|Ha].
    - apply (Hba (line_name other)); [by apply list_elem_of_fmap_2|].
      rewrite <- Hname. by left.
    - apply Hla. rewrite Hname. by apply list_elem_of_fmap_2. }
  assert (same_branch_row self s1 pos) as S1.
  { eapply for_each_other_branch_rows; [exact Hbefore|].
    intros other bi' Hoin. rewrite Hi. apply Hother, elem_of_app. by left. }
  assert (same_branch_row s2 model pos) as S2.
  { eapply for_each_other_branch_rows; [exact Hafter|].
    intros other bi' Hoin. rewrite E2. apply Hother, elem_of_app. by right. }
  destruct (S1 col) as (A1 & A2 & A3 & A4).
  destruct (S2 col) as (B1 & B2 & B3 & B4).
  destruct (Hzero pos col) as (Z1 & Z2 & Z3 & Z4).
  rewrite B1, B2, B3, B4, G1, G2, G3, G4, A1, A2, A3, A4, Z1, Z2, Z3, Z4.
  by rewrite !Cadd_0_l.
Qed.

Lemma entry_identity (k b c : nat) :
  (b < k)%nat →
  default 0 (entry (identity k) b c) = if decide (b = c) then 1 else 0.
Proof.
  intros Hb. unfold entry, identity.
  rewrite lookup_map, lookup_seq_lt by done. simpl.
  rewrite lookup_map.
  destruct (decide (c < k)%nat) as [Hc|Hc].
  - rewrite lookup_seq_lt by done. simpl.
    destruct (Nat.eqb_spec b c); [by rewrite decide_True|by rewrite decide_False].
  - rewrite lookup_seq_ge by lia. simpl. rewrite decide_False; [done|lia].
Qed.

(** X17. Where no two lines have the same name, the rows of a line in the
    branch incidence matrices each hold a single 1: the [b]-th branch row
    of the line has it in the column of the [b]-th position of the end
    node, whatever the phases of the two are, and has none when the node
    has fewer positions. *)
Theorem branch_incidence_pairs_rows_by_position (d : ElectricGridData)
    (model : ElectricGridModel) (line : line_record) :
  ElectricGridModel_init d = Ok model →
  NoDup (map line_name (electric_grid_lines d)) →
  line ∈ electric_grid_lines d →
  ∃ node_index_1 node_index_2 branch_index,
    dict_get (node_by_node_name (index model)) (node_1_name line) = Ok node_index_1
    ∧ dict_get (node_by_node_name (index model)) (node_2_name line) = Ok node_index_2
    ∧ dict_get (branch_by_line_name (index model)) (line_name line) = Ok branch_index
    ∧ ∀ b pos col, branch_index !! b = Some pos →
        dok_get (branch_incidence_1_matrix model) pos col
        = (if decide (node_index_1 !! b = Some col) then 1 else 0)
        ∧ dok_get (branch_incidence_2_matrix model) pos col
          = (if decide (node_index_2 !! b = Some col) then 1 else 0).
Proof.
  intros Hm Hnd Hin.
  destruct (branch_rows_of_line _ _ _ Hm Hnd Hin)
    as (y & n1 & n2 & bi & _ & Hn1 & Hn2 & Hbi & N1 & N2 & Nb & _ & Hrows).
  exists n1, n2, bi. do 3 (split; [done|]).
  intros b pos col Hb.
  destruct (Hrows pos col) as (_ & _ & -> & ->);
    [by eapply list_elem_of_lookup_2|].
  assert (∀ n, NoDup n →
            sub_matrix_contribution (identity (length bi)) bi n pos col
            = if decide (n !! b = Some col) then 1 else 0) as Hone.
  { intros n Nn. destruct (decide (col ∈ n)) as [Hc|Hc].
    - apply list_elem_of_lookup in Hc as [c Hc].
      rewrite (sub_matrix_contribution_at_default (A := Z) _ bi n b c) by done.
      rewrite entry_identity by by eapply lookup_lt_Some.
      destruct (decide (b = c)) as [->|Hne].
      + by rewrite decide_True.
      + rewrite decide_False; [done|]. intros Hb'.
        apply Hne. by eapply NoDup_lookup.
    - rewrite (sub_matrix_contribution_other_col (A := Z)) by done.
      rewrite decide_False; [done|]. intros Hb'.
      apply Hc. by eapply list_elem_of_lookup_2. }
  by rewrite !Hone.
Qed.

(** X18. Where no two lines have the same name, the rows of a line in the
    branch admittance matrices hold the element matrices of that line
    only. For a line between two different nodes, the [b]-th branch row
    holds, in the column of the [c]-th position of the first node, the
    entry [(b, c)] of [Y11] in the first matrix and of [Y21] in the
    second; in that of the second node, of [Y12] and of [Y22]; and zero
    in every other column. *)
Theorem branch_admittance_rows_hold_line_blocks (d : ElectricGridData)
    (model : ElectricGridModel) (line : line_record) :
  ElectricGridModel_init d = Ok model →
  NoDup (map line_name (electric_grid_lines d)) →
  line ∈ electric_grid_lines d →
  node_1_name line ≠ node_2_name line →
  ∃ y node_index_1 node_index_2 branch_index,
    line_admittance_matrices (electric_grid_line_types_matrices d) line = Ok y
    ∧ dict_get (node_by_node_name (index model)) (node_1_name line) = Ok node_index_1
    ∧ dict_get (node_by_node_name (index model)) (node_2_name line) = Ok node_index_2
    ∧ dict_get (branch_by_line_name (index model)) (line_name line) = Ok branch_index
    ∧ ∀ b pos col, branch_index !! b = Some pos →
        (∀ c, node_index_1 !! c = Some col →
           dok_get (branch_admittance_1_matrix model) pos col
           = default Czero (entry (admittance_matrix_11 y) b c)
           ∧ dok_get (branch_admittance_2_matrix model) pos col
             = default Czero (entry (admittance_matrix_21 y) b c))
        ∧ (∀ c, node_index_2 !! c = Some col →
             dok_get (branch_admittance_1_matrix model) pos col
             = default Czero (entry (admittance_matrix_12 y) b c)
             ∧ dok_get (branch_admittance_2_matrix model) pos col
               = default Czero (entry (admittance_matrix_22 y) b c))
        ∧ (col ∉ node_index_1 → col ∉ node_index_2 →
           dok_get (branch_admittance_1_matrix model) pos col = Czero
           ∧ dok_get (branch_admittance_2_matrix model) pos col = Czero).
Proof.
  intros Hm Hnd Hin Hne.
  destruct (branch_rows_of_line _ _ _ Hm Hnd Hin)
    as (y & n1 & n2 & bi & Hy & Hn1 & Hn2 & Hbi & N1 & N2 & Nb & Hdis & Hrows).
  specialize (Hdis Hne).
  exists y, n1, n2, bi. do 4 (split; [done|]).
  intros b pos col Hb.
  destruct (Hrows pos col) as (-> & -> & _);
    [by eapply list_elem_of_lookup_2|].
  split; [|split].
  - intros c Hc.
    assert (col ∉ n2) as Hc2 by (apply Hdis; by eapply list_elem_of_lookup_2).
    rewrite !(sub_matrix_contribution_at_default (A := Cx) _ bi n1 b c) by done.
    rewrite !(sub_matrix_contribution_other_col (A := Cx) _ bi n2) by done.
    by rewrite !Cadd_0_r.
  - intros c Hc.
    assert (col ∉ n1) as Hc1.
    { intros Hc1. apply (Hdis col Hc1). by eapply list_elem_of_lookup_2. }
    rewrite !(sub_matrix_contribution_at_default (A := Cx) _ bi n2 b c) by done.
    rewrite !(sub_matrix_contribution_other_col (A := Cx) _ bi n1) by done.
    by rewrite !Cadd_0_l.
  - intros Hc1 Hc2.
    rewrite !(sub_matrix_contribution_other_col (A := Cx)) by done.
    by rewrite !Cadd_0_l.
Qed.

(** X19. A line whose [n_phases] is 0 selects the empty block of the
    index map: its type is not looked up and its length is not used, its
    four element matrices are empty, and a pass of the loop body for it
    leaves every entry of the nodal and branch admittance matrices as it
    was. *)
Theorem line_without_phases_adds_no_admittance (d : ElectricGridData)
    (line : line_record) :
  n_phases line = 0 →
  line_admittance_matrices (electric_grid_line_types_matrices d) line
  = Ok {| admittance_matrix_11 := []; admittance_matrix_12 := [];
          admittance_matrix_21 := []; admittance_matrix_22 := [] |}
  ∧ (∀ self self',
     add_line d self line = Ok self' →
     ∀ i j,
       dok_get (node_admittance_matrix self') i j
       = dok_get (node_admittance_matrix self) i j
       ∧ dok_get (branch_admittance_1_matrix self') i j
         = dok_get (branch_admittance_1_matrix self) i j
       ∧ dok_get (branch_admittance_2_matrix self') i j
         = dok_get (branch_admittance_2_matrix self) i j).
Proof.
  intros Hn.
  assert (line_admittance_matrices (electric_grid_line_types_matrices d) line
          = Ok {| admittance_matrix_11 := []; admittance_matrix_12 := [];
                  admittance_matrix_21 := []; admittance_matrix_22 := [] |}) as Hy.
  { unfold line_admittance_matrices. rewrite Hn.
    unfold slice_to, slice_stop. simpl. unfold inv. simpl.
    destruct (decide (det [] = Czero)) as [E|_]; [|reflexivity].
    exfalso. apply Czero_ne_Cone. by rewrite <- E. }
  split; [exact Hy|].
  intros self self' Hline i j.
  assert (∀ rows cols, sub_matrix_contribution (A := Cx) [] rows cols i j = Czero)
    as Hempty by (by intros [|row rows] cols).
  pose proof (add_line_inv _ _ _ _ Hline)
    as (y & n1 & n2 & bi & Hy' & _ & _ & _ & _ & G & _).
  apply add_line_branch_inv in Hline
    as (y' & n1' & n2' & bi' & Hy'' & _ & _ & _ & G1 & G2 & _).
  rewrite Hy in Hy', Hy''. injection Hy' as <-. injection Hy'' as <-.
  rewrite G, G1, G2. unfold line_contribution.
  cbn [admittance_matrix_11 admittance_matrix_12 admittance_matrix_21
       admittance_matrix_22].
  rewrite !Hempty. by rewrite !Cadd_0_r.
Qed.

(** ** The properties at the example grids *)

Lemma node_by_node_name_partitions_positions_witness :
  ∃ idx positions,
    ElectricGridIndex_init transformer_grid = Ok idx
    ∧ node_by_node_name idx !! "n2"%string = Some (PyList positions)
    ∧ StronglySorted lt positions.
Proof.
  destruct (is_Ok_true (ElectricGridIndex_init transformer_grid)) as [idx Hidx];
    [vm_compute; reflexivity|].
  destruct (node_by_node_name_partitions_positions transformer_grid idx Hidx)
    as (Hkeys & Hvals & _).
  destruct (proj1 (Hkeys "n2"%string)) as [v Hv]; [decide_by_computation|].
  destruct (Hvals _ _ Hv) as (positions & Hp & Hsorted & _).
  exists idx, positions. rewrite <- Hp.
  split; [exact Hidx|]. split; [exact Hv | exact Hsorted].
Defined.

Lemma node_by_node_type_splits_positions_witness :
  ∃ idx source_positions other_positions,
    ElectricGridIndex_init transformer_grid = Ok idx
    ∧ node_by_node_type idx !! "source"%string = Some (PyList source_positions)
    ∧ node_by_node_type idx !! "no_source"%string = Some (PyList other_positions)
    ∧ node_by_node_name idx !! "n1"%string = Some (PyList source_positions).
Proof.
  destruct (is_Ok_true (ElectricGridIndex_init transformer_grid)) as [idx Hidx];
    [vm_compute; reflexivity|].
  destruct (node_by_node_type_splits_positions transformer_grid idx "n1" []
              Hidx eq_refl)
    as (sp & op & Hs & Ho & _ & _ & Hsame & _).
  exists idx, sp, op.
  split; [exact Hidx|]. split; [exact Hs|]. split; [exact Ho|].
  destruct (node_by_node_name_has_nodes transformer_grid idx "n1" Hidx)
    as [positions Hp]; [decide_by_computation|].
  rewrite Hp. by rewrite (Hsame positions Hp).
Defined.

Lemma branch_by_line_name_holds_lines_and_transformers_witness :
  ∃ idx,
    ElectricGridIndex_init transformer_grid = Ok idx
    ∧ is_Some (branch_by_line_name idx !! "T1"%string).
Proof.
  destruct (is_Ok_true (ElectricGridIndex_init transformer_grid)) as [idx Hidx];
    [vm_compute; reflexivity|].
  exists idx. split; [exact Hidx|].
  destruct (branch_by_line_name_holds_lines_and_transformers transformer_grid idx Hidx)
    as [Hkeys _].
  apply Hkeys. right.
  destruct (Index_init_branch_inv _ _ Hidx) as (? & _ & _ & Ht & _).
  rewrite Ht. decide_by_computation.
Defined.

Lemma branch_by_phase_is_two_ranges_witness :
  ∃ idx,
    ElectricGridIndex_init transformer_grid = Ok idx
    ∧ branch_by_phase idx !! "1"%string = Some (PyList [0%nat])
    ∧ branch_by_phase idx !! "2"%string = Some (PyList [])
    ∧ branch_by_phase idx !! "3"%string = Some (PyList [1%nat]).
Proof.
  destruct (is_Ok_true (ElectricGridIndex_init transformer_grid)) as [idx Hidx];
    [vm_compute; reflexivity|].
  exists idx. split; [exact Hidx|].
  exact (branch_by_phase_is_two_ranges transformer_grid idx Hidx).
Defined.

Lemma branch_dimension_counts_branch_phases_witness :
  boolean_branches transformer_grid
  ∧ ∃ idx,
      ElectricGridIndex_init transformer_grid = Ok idx
      ∧ branch_dimension idx = 2
      ∧ Z.of_nat (length (branches_phases idx)) = 2.
Proof.
  destruct transformer_grid_boolean as [_ Hb].
  split; [exact Hb|].
  destruct (is_Ok_true (ElectricGridIndex_init transformer_grid)) as [idx Hidx];
    [vm_compute; reflexivity|].
  exists idx. split; [exact Hidx|].
  destruct (branch_dimension_counts_branch_phases transformer_grid idx Hb Hidx)
    as (Hdim & Hrows & _).
  rewrite Hrows, Hdim. split; reflexivity.
Defined.

Lemma index_construction_needs_a_source_row_witness :
  boolean_nodes no_source_row_grid ∧ boolean_branches no_source_row_grid
  ∧ ElectricGridIndex_init no_source_row_grid = Raise (KeyError (KInt 0)).
Proof.
  assert (boolean_nodes no_source_row_grid ∧ boolean_branches no_source_row_grid)
    as [Hn Hb] by exact transformer_grid_boolean.
  split; [exact Hn|]. split; [exact Hb|].
  exact (proj1 (index_construction_needs_a_source_row no_source_row_grid Hn Hb)
               eq_refl).
Defined.

Lemma index_construction_rejects_other_flags_witness :
  node_dimension_of doubled_flag_grid = 2
  ∧ ElectricGridIndex_init doubled_flag_grid = Raise ValueError.
Proof.
  split; [reflexivity|].
  apply (index_construction_rejects_other_flags doubled_flag_grid).
  - reflexivity.
  - vm_compute. discriminate.
Defined.

Lemma load_by_load_name_is_last_position_witness :
  ∃ idx,
    ElectricGridIndex_init transformer_grid = Ok idx
    ∧ is_Some (load_by_load_name idx !! "load1"%string).
Proof.
  destruct (is_Ok_true (ElectricGridIndex_init transformer_grid)) as [idx Hidx];
    [vm_compute; reflexivity|].
  exists idx. split; [exact Hidx|].
  destruct (load_by_load_name_is_last_position transformer_grid idx Hidx)
    as [Hkeys _].
  apply Hkeys.
  destruct (Index_init_fields _ _ Hidx) as (? & ? & _ & _ & _ & _ & _ & Hln & _).
  rewrite Hln. decide_by_computation.
Defined.

Lemma node_by_load_name_positions_witness :
  ∃ idx positions,
    ElectricGridIndex_init transformer_grid = Ok idx
    ∧ node_by_load_name idx !! "load1"%string = Some (PyList positions)
    ∧ StronglySorted lt positions.
Proof.
  destruct (is_Ok_true (ElectricGridIndex_init transformer_grid)) as [idx Hidx];
    [vm_compute; reflexivity|].
  destruct (node_by_load_name_positions transformer_grid idx
              {| load_name := "load1"; load_node_name := "n2";
                 load_phase_1 := 1; load_phase_2 := 1; load_phase_3 := 1 |} Hidx)
    as (positions & Hp & Hsorted & _).
  - destruct (Index_init_fields _ _ Hidx) as (? & ? & _ & _ & _ & _ & _ & Hln & _).
    rewrite Hln. decide_by_computation.
  - apply list_elem_of_here.
  - exists idx, positions.
    split; [exact Hidx|]. split; [exact Hp | exact Hsorted].
Defined.

Lemma node_transformation_matrix_stays_zero_witness :
  ∃ model,
    ElectricGridModel_init transformer_grid = Ok model
    ∧ stored (node_transformation_matrix model) = ∅.
Proof.
  destruct (is_Ok_true (ElectricGridModel_init transformer_grid)) as [model Hm];
    [vm_compute; reflexivity|].
  exists model. split; [exact Hm|].
  exact (proj1 (node_transformation_matrix_stays_zero transformer_grid model Hm)).
Defined.

Lemma unknown_end_node_raises_KeyError_witness :
  ∃ idx e,
    ElectricGridIndex_init dangling_grid = Ok idx
    ∧ ElectricGridModel_init dangling_grid = Raise e.
Proof.
  destruct (is_Ok_true (ElectricGridIndex_init dangling_grid)) as [idx Hidx];
    [vm_compute; reflexivity|].
  assert (node_1_name dangling_line ∉ node_names idx
          ∨ node_2_name dangling_line ∉ node_names idx) as Hunknown.
  { right.
    destruct (Index_init_fields _ _ Hidx) as (? & ? & _ & _ & _ & _ & Hnn & _).
    rewrite Hnn. decide_by_computation. }
  destruct (unknown_end_node_raises_KeyError dangling_grid idx dangling_line
              Hidx Hunknown) as [_ Hraise].
  destruct (Hraise (list_elem_of_here _ _)) as [e He].
  exists idx, e. split; [exact Hidx | exact He].
Defined.

Lemma zero_length_line_raises_LinAlgError_witness :
  length_ zero_length_line = Q2Qc 0
  ∧ line_admittance_matrices
      (electric_grid_line_types_matrices zero_length_grid) zero_length_line
    = Raise LinAlgError.
Proof.
  split; [reflexivity|].
  apply (zero_length_line_raises_LinAlgError zero_length_grid zero_length_line).
  - reflexivity.
  - left. simpl. lia.
  - vm_compute. lia.
Defined.

Lemma n_phases_is_clipped_by_slicing_witness :
  n_phases surplus_phases_line = 4
  ∧ ∀ self,
      add_line example_grid self surplus_phases_line
      = add_line example_grid self (with_n_phases surplus_phases_line 3).
Proof.
  split; [reflexivity|].
  apply (n_phases_is_clipped_by_slicing example_grid surplus_phases_line).
  left. simpl. lia.
Defined.

Lemma symmetric_line_blocks_give_symmetric_node_admittance_witness :
  n_phases mismatch_line = 1
  ∧ ∃ model,
      ElectricGridModel_init mismatch_grid = Ok model
      ∧ dok_get (node_admittance_matrix model) 0 1
        = dok_get (node_admittance_matrix model) 1 0.
Proof.
  split; [reflexivity|].
  destruct (is_Ok_true (ElectricGridModel_init mismatch_grid)) as [model Hm];
    [vm_compute; reflexivity|].
  exists model. split; [exact Hm|].
  apply (symmetric_line_blocks_give_symmetric_node_admittance mismatch_grid model Hm).
  intros line y Hin Hy.
  apply list_elem_of_singleton in Hin. subst line.
  destruct (line_admittance_matrices_square _ _ _ Hy) as [Hlen Hrows].
  change (slice_stop 3 (n_phases mismatch_line)) with 1%nat in Hlen, Hrows.
  destruct (admittance_matrix_12 y) as [|r0 [|]]; try discriminate Hlen.
  apply Forall_cons_1 in Hrows as [H0 _].
  destruct r0 as [|v [|]]; try discriminate H0.
  intros [|a] [|b]; reflexivity.
Defined.

Lemma transformer_rows_of_branch_matrices_are_zero_witness :
  ∃ model,
    ElectricGridModel_init transformer_grid = Ok model
    ∧ branches_phases (index model) !! 0%nat
      = Some ("T1", "1", "transformer")%string
    ∧ zero_row (branch_admittance_1_matrix model) 0
    ∧ zero_row (branch_incidence_1_matrix model) 0.
Proof.
  destruct (is_Ok_true (ElectricGridModel_init transformer_grid)) as [model Hm];
    [vm_compute; reflexivity|].
  exists model. split; [exact Hm|].
  pose proof (Model_init_inv _ _ Hm) as (idx & Hidx & Hi & _).
  assert (branches_phases (index model) !! 0%nat
          = Some ("T1", "1", "transformer")%string) as Hrow.
  { rewrite Hi. vm_compute in Hidx. injection Hidx as <-. reflexivity. }
  assert ("T1"%string ∉ line_names (index model)) as Hname.
  { rewrite Hi. vm_compute in Hidx. injection Hidx as <-.
    exact (not_elem_of_nil _). }
  split; [exact Hrow|].
  destruct (transformer_rows_of_branch_matrices_are_zero transformer_grid model
              0%nat "T1" "1" Hm Hrow Hname) as (Z1 & _ & Z3 & _).
  split; [exact Z1 | exact Z3].
Defined.

Lemma branch_incidence_pairs_rows_by_position_witness :
  ∃ model node_index_1 branch_index,
    ElectricGridModel_init example_grid = Ok model
    ∧ dict_get (node_by_node_name (index model)) "n1" = Ok node_index_1
    ∧ dict_get (branch_by_line_name (index model)) "L1" = Ok branch_index
    ∧ ∀ b pos col, branch_index !! b = Some pos →
        dok_get (branch_incidence_1_matrix model) pos col
        = if decide (node_index_1 !! b = Some col) then 1 else 0.
Proof.
  destruct (is_Ok_true (ElectricGridModel_init example_grid)) as [model Hm];
    [vm_compute; reflexivity|].
  destruct (branch_incidence_pairs_rows_by_position example_grid model
              (three_phase_line "L1" "T" "n1" "n2" 3) Hm)
    as (n1 & n2 & bi & Hn1 & Hn2 & Hbi & Hrows).
  - decide_by_computation.
  - apply list_elem_of_here.
  - exists model, n1, bi.
    split; [exact Hm|]. split; [exact Hn1|]. split; [exact Hbi|].
    intros b pos col Hb. exact (proj1 (Hrows b pos col Hb)).
Defined.

Lemma branch_admittance_rows_hold_line_blocks_witness :
  ∃ model y node_index_1 branch_index,
    ElectricGridModel_init example_grid = Ok model
    ∧ line_admittance_matrices (electric_grid_line_types_matrices example_grid)
        (three_phase_line "L1" "T" "n1" "n2" 3) = Ok y
    ∧ dict_get (node_by_node_name (index model)) "n1" = Ok node_index_1
    ∧ dict_get (branch_by_line_name (index model)) "L1" = Ok branch_index
    ∧ ∀ b c pos col,
        branch_index !! b = Some pos → node_index_1 !! c = Some col →
        dok_get (branch_admittance_1_matrix model) pos col
        = default Czero (entry (admittance_matrix_11 y) b c).
Proof.
  destruct (is_Ok_true (ElectricGridModel_init example_grid)) as [model Hm];
    [vm_compute; reflexivity|].
  destruct (branch_admittance_rows_hold_line_blocks example_grid model
              (three_phase_line "L1" "T" "n1" "n2" 3) Hm)
    as (y & n1 & n2 & bi & Hy & Hn1 & Hn2 & Hbi & Hrows).
  - decide_by_computation.
  - apply list_elem_of_here.
  - discriminate.
  - exists model, y, n1, bi.
    split; [exact Hm|]. split; [exact Hy|]. split; [exact Hn1|].
    split; [exact Hbi|].
    intros b c pos col Hb Hc.
    exact (proj1 (proj1 (Hrows b pos col Hb) c Hc)).
Defined.

Lemma line_without_phases_adds_no_admittance_witness :
  n_phases placeholder_line = 0
  ∧ line_admittance_matrices
      (electric_grid_line_types_matrices example_grid) placeholder_line
    = Ok {| admittance_matrix_11 := []; admittance_matrix_12 := [];
            admittance_matrix_21 := []; admittance_matrix_22 := [] |}.
Proof.
  split; [reflexivity|].
  exact (proj1 (line_without_phases_adds_no_admittance example_grid
                  placeholder_line eq_refl)).
Defined.
